(** * home-monitor: the Hue bridge scripts, embedded and verified

    The repository is a handful of stand-alone Python scripts that talk to a
    Philips Hue bridge.  This development embeds the logic of

      - [lounge_color_loop.py]   (modules [ColorLoop], [ColorLoopTrace] and
        [ColorLoopRun]),
      - [sensor_activity.py]     (module [SensorActivity]),
      - [list_lights.py]         (modules [ListLights] and [LightsScript]),
      - [simplify_office_dimmer.py], [simplify_office_v2.py] and
        [update_outdoor_automation.py] (module [ConfigPush]),

    over a small model of the Python values these scripts handle (module
    [Py]), and proves the properties stated about them. *)

From Stdlib Require Import ZArith QArith List String Ascii Bool Lia Lqa.
From Stdlib Require Import DecimalString DecimalPos.
Import ListNotations.

Open Scope string_scope.
Open Scope Z_scope.

Set Warnings "-register-all".

(* ================================================================== *)
(** * Python values, exceptions and printing *)
(* ================================================================== *)

Module Py.

(** What [response.json()] can return, floats apart (the bridge reports
    brightness, temperature, light level, battery and button codes as
    integers).  A [PDict] keeps its items in insertion order, as a Python
    dict does, and holds each key once. *)
Inductive pyval : Type :=
| PNone
| PBool (b : bool)
| PInt (z : Z)
| PStr (s : string)
| PList (l : list pyval)
| PDict (items : list (string * pyval)).

(** The exceptions the scripts can meet; [RequestException] is the one of
    [requests] for a request that could not be made. *)
Inductive exn : Type :=
| AttributeError
| TypeError
| ValueError
| OverflowError
| RequestException.

(** A computation that returns or raises. *)
Definition res (A : Type) : Type := (exn + A)%type.

Definition ok {A} (a : A) : res A := inr a.
Definition raise {A} (e : exn) : res A := inl e.

Definition rbind {A B} (m : res A) (f : A -> res B) : res B :=
  match m with
  | inl e => inl e
  | inr a => f a
  end.

(** [try: m  except Exception: h] *)
Definition try_except {A} (m : res A) (h : exn -> res A) : res A :=
  match m with
  | inl e => h e
  | inr a => inr a
  end.

(** A computation that prints lines, then returns or raises.  Each element
    of the output is the argument of one [print] call. *)
Definition io (A : Type) : Type := (list string * res A)%type.

Definition ret {A} (a : A) : io A := ([], inr a).
Definition throw {A} (e : exn) : io A := ([], inl e).
Definition print (s : string) : io unit := ([s], inr tt).
Definition lift {A} (m : res A) : io A := ([], m).

Definition bind {A B} (m : io A) (f : A -> io B) : io B :=
  match m with
  | (out, inl e) => (out, inl e)
  | (out, inr a) => let (out', r) := f a in ((out ++ out')%list, r)
  end.

Definition stdout {A} (m : io A) : list string := fst m.
Definition outcome {A} (m : io A) : res A := snd m.

(** [for x in l: f x] *)
Fixpoint for_each {A} (f : A -> io unit) (l : list A) : io unit :=
  match l with
  | [] => ret tt
  | x :: l' => bind (f x) (fun _ => for_each f l')
  end.

(** ** Truth value and equality with a string literal *)

Definition truthy (v : pyval) : bool :=
  match v with
  | PNone => false
  | PBool b => b
  | PInt z => negb (z =? 0)
  | PStr s => negb (s =? "")%string
  | PList l => match l with [] => false | _ => true end
  | PDict d => match d with [] => false | _ => true end
  end.

(** [v == 'lit'] *)
Definition eq_str (v : pyval) (lit : string) : bool :=
  match v with
  | PStr s => (s =? lit)%string
  | _ => false
  end.

(** ** Dictionaries *)

Fixpoint lookup (k : string) (d : list (string * pyval)) : option pyval :=
  match d with
  | [] => None
  | (k', v) :: d' => if (k' =? k)%string then Some v else lookup k d'
  end.

(** [d.get(k, default)] on the items of a dict. *)
Definition get_or (k : string) (d : list (string * pyval)) (default : pyval)
  : pyval :=
  match lookup k d with
  | Some x => x
  | None => default
  end.

(** [v.get(k, default)]; only a dict has the method. *)
Definition get (v : pyval) (k : string) (default : pyval) : res pyval :=
  match v with
  | PDict d => ok (get_or k d default)
  | _ => raise AttributeError
  end.

(** [v.items()] *)
Definition items (v : pyval) : res (list (string * pyval)) :=
  match v with
  | PDict d => ok d
  | _ => raise AttributeError
  end.

(** ** Strings *)

Definition nl : string := String (ascii_of_nat 10) "".

(** [s * n] *)
Fixpoint str_mul (s : string) (n : nat) : string :=
  match n with
  | O => ""
  | S n' => s ++ str_mul s n'
  end.

(** [s.replace(c, by)] for a one-character pattern. *)
Fixpoint replace_char (c : ascii) (by_ : string) (s : string) : string :=
  match s with
  | EmptyString => EmptyString
  | String a s' =>
      if Ascii.eqb a c then by_ ++ replace_char c by_ s'
      else String a (replace_char c by_ s')
  end.

(** [v.replace('Z', '+00:00')]; only a str has the method here. *)
Definition replace (v : pyval) (c : ascii) (by_ : string) : res string :=
  match v with
  | PStr s => ok (replace_char c by_ s)
  | _ => raise AttributeError
  end.

Fixpoint contains (c : ascii) (s : string) : bool :=
  match s with
  | EmptyString => false
  | String a s' => Ascii.eqb a c || contains c s'
  end.

Fixpoint join (sep : string) (l : list string) : string :=
  match l with
  | [] => ""
  | [x] => x
  | x :: l' => x ++ sep ++ join sep l'
  end.

(** [str(z)] for an int. *)
Definition str_of_Z (z : Z) : string := NilZero.string_of_int (Z.to_int z).

(** ** Characters

    A str is kept in UTF-8.  A byte [10xxxxxx] continues the character
    begun before it. *)
Definition is_continuation (a : ascii) : bool :=
  let n := nat_of_ascii a in ((128 <=? n) && (n <? 192))%nat.

Definition byte (a : ascii) : Z := Z.of_nat (nat_of_ascii a).

(** The character at the head of a text in UTF-8, whose first byte is [a],
    and what follows the character.  A byte that begins no character is
    such a head of its own, with -1 for its code: in a command-line
    argument Python keeps it as a lone surrogate, which is neither a blank
    nor a digit nor printable. *)
Definition decode_one (a : ascii) (s : string) : Z * string :=
  let b0 := byte a in
  if b0 <? 128 then (b0, s)
  else
    match s with
    | String a1 s1 =>
        if negb (is_continuation a1) then (-1, s)
        else if (194 <=? b0) && (b0 <? 224) then
          ((b0 - 192) * 64 + (byte a1 - 128), s1)
        else
          match s1 with
          | String a2 s2 =>
              if negb (is_continuation a2) then (-1, s)
              else if (224 <=? b0) && (b0 <? 240) then
                let cp := ((b0 - 224) * 64 + (byte a1 - 128)) * 64
                          + (byte a2 - 128) in
                if (2048 <=? cp) && negb ((55296 <=? cp) && (cp <? 57344))
                then (cp, s2) else (-1, s)
              else
                match s2 with
                | String a3 s3 =>
                    if negb (is_continuation a3) then (-1, s)
                    else if (240 <=? b0) && (b0 <? 245) then
                      let cp := (((b0 - 240) * 64 + (byte a1 - 128)) * 64
                                 + (byte a2 - 128)) * 64 + (byte a3 - 128) in
                      if (65536 <=? cp) && (cp <? 1114112)
                      then (cp, s3) else (-1, s)
                    else (-1, s)
                | EmptyString => (-1, s)
                end
          | EmptyString => (-1, s)
          end
    | EmptyString => (-1, s)
    end.

Fixpoint code_points_of (fuel : nat) (s : string) : list Z :=
  match fuel, s with
  | S fuel', String a s' =>
      let (cp, rest) := decode_one a s' in
      cp :: code_points_of fuel' rest
  | _, _ => []
  end.

(** The characters of a text, as code points. *)
Definition code_points (s : string) : list Z :=
  code_points_of (String.length s) s.

(** [s[:n]]: the first [n] characters of a str. *)
Fixpoint take_chars_of (fuel n : nat) (s : string) : string :=
  match fuel, n, s with
  | S fuel', S n', String a s' =>
      let (_, rest) := decode_one a s' in
      String a (substring 0 (String.length s' - String.length rest) s')
      ++ take_chars_of fuel' n' rest
  | _, _, _ => EmptyString
  end.

Definition take_chars (n : nat) (s : string) : string :=
  take_chars_of (String.length s) n s.

(** The characters outside ASCII that [repr] keeps as they are
    ([str.isprintable]), Unicode 14: the first and the last of each run. *)
Definition unicode_printable : list (Z * Z) :=
  [(161, 172); (174, 887); (890, 895); (900, 906); (908, 908); (910, 929);
   (931, 1327); (1329, 1366); (1369, 1418); (1421, 1423); (1425, 1479);
   (1488, 1514); (1519, 1524); (1542, 1563); (1565, 1756); (1758, 1805);
   (1808, 1866); (1869, 1969); (1984, 2042); (2045, 2093); (2096, 2110);
   (2112, 2139); (2142, 2142); (2144, 2154); (2160, 2190); (2200, 2273);
   (2275, 2435); (2437, 2444); (2447, 2448); (2451, 2472); (2474, 2480);
   (2482, 2482); (2486, 2489); (2492, 2500); (2503, 2504); (2507, 2510);
   (2519, 2519); (2524, 2525); (2527, 2531); (2534, 2558); (2561, 2563);
   (2565, 2570); (2575, 2576); (2579, 2600); (2602, 2608); (2610, 2611);
   (2613, 2614); (2616, 2617); (2620, 2620); (2622, 2626); (2631, 2632);
   (2635, 2637); (2641, 2641); (2649, 2652); (2654, 2654); (2662, 2678);
   (2689, 2691); (2693, 2701); (2703, 2705); (2707, 2728); (2730, 2736);
   (2738, 2739); (2741, 2745); (2748, 2757); (2759, 2761); (2763, 2765);
   (2768, 2768); (2784, 2787); (2790, 2801); (2809, 2815); (2817, 2819);
   (2821, 2828); (2831, 2832); (2835, 2856); (2858, 2864); (2866, 2867);
   (2869, 2873); (2876, 2884); (2887, 2888); (2891, 2893); (2901, 2903);
   (2908, 2909); (2911, 2915); (2918, 2935); (2946, 2947); (2949, 2954);
   (2958, 2960); (2962, 2965); (2969, 2970); (2972, 2972); (2974, 2975);
   (2979, 2980); (2984, 2986); (2990, 3001); (3006, 3010); (3014, 3016);
   (3018, 3021); (3024, 3024); (3031, 3031); (3046, 3066); (3072, 3084);
   (3086, 3088); (3090, 3112); (3114, 3129); (3132, 3140); (3142, 3144);
   (3146, 3149); (3157, 3158); (3160, 3162); (3165, 3165); (3168, 3171);
   (3174, 3183); (3191, 3212); (3214, 3216); (3218, 3240); (3242, 3251);
   (3253, 3257); (3260, 3268); (3270, 3272); (3274, 3277); (3285, 3286);
   (3293, 3294); (3296, 3299); (3302, 3311); (3313, 3314); (3328, 3340);
   (3342, 3344); (3346, 3396); (3398, 3400); (3402, 3407); (3412, 3427);
   (3430, 3455); (3457, 3459); (3461, 3478); (3482, 3505); (3507, 3515);
   (3517, 3517); (3520, 3526); (3530, 3530); (3535, 3540); (3542, 3542);
   (3544, 3551); (3558, 3567); (3570, 3572); (3585, 3642); (3647, 3675);
   (3713, 3714); (3716, 3716); (3718, 3722); (3724, 3747); (3749, 3749);
   (3751, 3773); (3776, 3780); (3782, 3782); (3784, 3789); (3792, 3801);
   (3804, 3807); (3840, 3911); (3913, 3948); (3953, 3991); (3993, 4028);
   (4030, 4044); (4046, 4058); (4096, 4293); (4295, 4295); (4301, 4301);
   (4304, 4680); (4682, 4685); (4688, 4694); (4696, 4696); (4698, 4701);
   (4704, 4744); (4746, 4749); (4752, 4784); (4786, 4789); (4792, 4798);
   (4800, 4800); (4802, 4805); (4808, 4822); (4824, 4880); (4882, 4885);
   (4888, 4954); (4957, 4988); (4992, 5017); (5024, 5109); (5112, 5117);
   (5120, 5759); (5761, 5788); (5792, 5880); (5888, 5909); (5919, 5942);
   (5952, 5971); (5984, 5996); (5998, 6000); (6002, 6003); (6016, 6109);
   (6112, 6121); (6128, 6137); (6144, 6157); (6159, 6169); (6176, 6264);
   (6272, 6314); (6320, 6389); (6400, 6430); (6432, 6443); (6448, 6459);
   (6464, 6464); (6468, 6509); (6512, 6516); (6528, 6571); (6576, 6601);
   (6608, 6618); (6622, 6683); (6686, 6750); (6752, 6780); (6783, 6793);
   (6800, 6809); (6816, 6829); (6832, 6862); (6912, 6988); (6992, 7038);
   (7040, 7155); (7164, 7223); (7227, 7241); (7245, 7304); (7312, 7354);
   (7357, 7367); (7376, 7418); (7424, 7957); (7960, 7965); (7968, 8005);
   (8008, 8013); (8016, 8023); (8025, 8025); (8027, 8027); (8029, 8029);
   (8031, 8061); (8064, 8116); (8118, 8132); (8134, 8147); (8150, 8155);
   (8157, 8175); (8178, 8180); (8182, 8190); (8208, 8231); (8240, 8286);
   (8304, 8305); (8308, 8334); (8336, 8348); (8352, 8384); (8400, 8432);
   (8448, 8587); (8592, 9254); (9280, 9290); (9312, 11123); (11126, 11157);
   (11159, 11507); (11513, 11557); (11559, 11559); (11565, 11565);
   (11568, 11623); (11631, 11632); (11647, 11670); (11680, 11686);
   (11688, 11694); (11696, 11702); (11704, 11710); (11712, 11718);
   (11720, 11726); (11728, 11734); (11736, 11742); (11744, 11869);
   (11904, 11929); (11931, 12019); (12032, 12245); (12272, 12283);
   (12289, 12351); (12353, 12438); (12441, 12543); (12549, 12591);
   (12593, 12686); (12688, 12771); (12784, 12830); (12832, 42124);
   (42128, 42182); (42192, 42539); (42560, 42743); (42752, 42954);
   (42960, 42961); (42963, 42963); (42965, 42969); (42994, 43052);
   (43056, 43065); (43072, 43127); (43136, 43205); (43214, 43225);
   (43232, 43347); (43359, 43388); (43392, 43469); (43471, 43481);
   (43486, 43518); (43520, 43574); (43584, 43597); (43600, 43609);
   (43612, 43714); (43739, 43766); (43777, 43782); (43785, 43790);
   (43793, 43798); (43808, 43814); (43816, 43822); (43824, 43883);
   (43888, 44013); (44016, 44025); (44032, 55203); (55216, 55238);
   (55243, 55291); (63744, 64109); (64112, 64217); (64256, 64262);
   (64275, 64279); (64285, 64310); (64312, 64316); (64318, 64318);
   (64320, 64321); (64323, 64324); (64326, 64450); (64467, 64911);
   (64914, 64967); (64975, 64975); (65008, 65049); (65056, 65106);
   (65108, 65126); (65128, 65131); (65136, 65140); (65142, 65276);
   (65281, 65470); (65474, 65479); (65482, 65487); (65490, 65495);
   (65498, 65500); (65504, 65510); (65512, 65518); (65532, 65533);
   (65536, 65547); (65549, 65574); (65576, 65594); (65596, 65597);
   (65599, 65613); (65616, 65629); (65664, 65786); (65792, 65794);
   (65799, 65843); (65847, 65934); (65936, 65948); (65952, 65952);
   (66000, 66045); (66176, 66204); (66208, 66256); (66272, 66299);
   (66304, 66339); (66349, 66378); (66384, 66426); (66432, 66461);
   (66463, 66499); (66504, 66517); (66560, 66717); (66720, 66729);
   (66736, 66771); (66776, 66811); (66816, 66855); (66864, 66915);
   (66927, 66938); (66940, 66954); (66956, 66962); (66964, 66965);
   (66967, 66977); (66979, 66993); (66995, 67001); (67003, 67004);
   (67072, 67382); (67392, 67413); (67424, 67431); (67456, 67461);
   (67463, 67504); (67506, 67514); (67584, 67589); (67592, 67592);
   (67594, 67637); (67639, 67640); (67644, 67644); (67647, 67669);
   (67671, 67742); (67751, 67759); (67808, 67826); (67828, 67829);
   (67835, 67867); (67871, 67897); (67903, 67903); (67968, 68023);
   (68028, 68047); (68050, 68099); (68101, 68102); (68108, 68115);
   (68117, 68119); (68121, 68149); (68152, 68154); (68159, 68168);
   (68176, 68184); (68192, 68255); (68288, 68326); (68331, 68342);
   (68352, 68405); (68409, 68437); (68440, 68466); (68472, 68497);
   (68505, 68508); (68521, 68527); (68608, 68680); (68736, 68786);
   (68800, 68850); (68858, 68903); (68912, 68921); (69216, 69246);
   (69248, 69289); (69291, 69293); (69296, 69297); (69376, 69415);
   (69424, 69465); (69488, 69513); (69552, 69579); (69600, 69622);
   (69632, 69709); (69714, 69749); (69759, 69820); (69822, 69826);
   (69840, 69864); (69872, 69881); (69888, 69940); (69942, 69959);
   (69968, 70006); (70016, 70111); (70113, 70132); (70144, 70161);
   (70163, 70206); (70272, 70278); (70280, 70280); (70282, 70285);
   (70287, 70301); (70303, 70313); (70320, 70378); (70384, 70393);
   (70400, 70403); (70405, 70412); (70415, 70416); (70419, 70440);
   (70442, 70448); (70450, 70451); (70453, 70457); (70459, 70468);
   (70471, 70472); (70475, 70477); (70480, 70480); (70487, 70487);
   (70493, 70499); (70502, 70508); (70512, 70516); (70656, 70747);
   (70749, 70753); (70784, 70855); (70864, 70873); (71040, 71093);
   (71096, 71133); (71168, 71236); (71248, 71257); (71264, 71276);
   (71296, 71353); (71360, 71369); (71424, 71450); (71453, 71467);
   (71472, 71494); (71680, 71739); (71840, 71922); (71935, 71942);
   (71945, 71945); (71948, 71955); (71957, 71958); (71960, 71989);
   (71991, 71992); (71995, 72006); (72016, 72025); (72096, 72103);
   (72106, 72151); (72154, 72164); (72192, 72263); (72272, 72354);
   (72368, 72440); (72704, 72712); (72714, 72758); (72760, 72773);
   (72784, 72812); (72816, 72847); (72850, 72871); (72873, 72886);
   (72960, 72966); (72968, 72969); (72971, 73014); (73018, 73018);
   (73020, 73021); (73023, 73031); (73040, 73049); (73056, 73061);
   (73063, 73064); (73066, 73102); (73104, 73105); (73107, 73112);
   (73120, 73129); (73440, 73464); (73648, 73648); (73664, 73713);
   (73727, 74649); (74752, 74862); (74864, 74868); (74880, 75075);
   (77712, 77810); (77824, 78894); (82944, 83526); (92160, 92728);
   (92736, 92766); (92768, 92777); (92782, 92862); (92864, 92873);
   (92880, 92909); (92912, 92917); (92928, 92997); (93008, 93017);
   (93019, 93025); (93027, 93047); (93053, 93071); (93760, 93850);
   (93952, 94026); (94031, 94087); (94095, 94111); (94176, 94180);
   (94192, 94193); (94208, 100343); (100352, 101589); (101632, 101640);
   (110576, 110579); (110581, 110587); (110589, 110590); (110592, 110882);
   (110928, 110930); (110948, 110951); (110960, 111355); (113664, 113770);
   (113776, 113788); (113792, 113800); (113808, 113817); (113820, 113823);
   (118528, 118573); (118576, 118598); (118608, 118723); (118784, 119029);
   (119040, 119078); (119081, 119154); (119163, 119274); (119296, 119365);
   (119520, 119539); (119552, 119638); (119648, 119672); (119808, 119892);
   (119894, 119964); (119966, 119967); (119970, 119970); (119973, 119974);
   (119977, 119980); (119982, 119993); (119995, 119995); (119997, 120003);
   (120005, 120069); (120071, 120074); (120077, 120084); (120086, 120092);
   (120094, 120121); (120123, 120126); (120128, 120132); (120134, 120134);
   (120138, 120144); (120146, 120485); (120488, 120779); (120782, 121483);
   (121499, 121503); (121505, 121519); (122624, 122654); (122880, 122886);
   (122888, 122904); (122907, 122913); (122915, 122916); (122918, 122922);
   (123136, 123180); (123184, 123197); (123200, 123209); (123214, 123215);
   (123536, 123566); (123584, 123641); (123647, 123647); (124896, 124902);
   (124904, 124907); (124909, 124910); (124912, 124926); (124928, 125124);
   (125127, 125142); (125184, 125259); (125264, 125273); (125278, 125279);
   (126065, 126132); (126209, 126269); (126464, 126467); (126469, 126495);
   (126497, 126498); (126500, 126500); (126503, 126503); (126505, 126514);
   (126516, 126519); (126521, 126521); (126523, 126523); (126530, 126530);
   (126535, 126535); (126537, 126537); (126539, 126539); (126541, 126543);
   (126545, 126546); (126548, 126548); (126551, 126551); (126553, 126553);
   (126555, 126555); (126557, 126557); (126559, 126559); (126561, 126562);
   (126564, 126564); (126567, 126570); (126572, 126578); (126580, 126583);
   (126585, 126588); (126590, 126590); (126592, 126601); (126603, 126619);
   (126625, 126627); (126629, 126633); (126635, 126651); (126704, 126705);
   (126976, 127019); (127024, 127123); (127136, 127150); (127153, 127167);
   (127169, 127183); (127185, 127221); (127232, 127405); (127462, 127490);
   (127504, 127547); (127552, 127560); (127568, 127569); (127584, 127589);
   (127744, 128727); (128733, 128748); (128752, 128764); (128768, 128883);
   (128896, 128984); (128992, 129003); (129008, 129008); (129024, 129035);
   (129040, 129095); (129104, 129113); (129120, 129159); (129168, 129197);
   (129200, 129201); (129280, 129619); (129632, 129645); (129648, 129652);
   (129656, 129660); (129664, 129670); (129680, 129708); (129712, 129722);
   (129728, 129733); (129744, 129753); (129760, 129767); (129776, 129782);
   (129792, 129938); (129940, 129994); (130032, 130041); (131072, 173791);
   (173824, 177976); (177984, 178205); (178208, 183969); (183984, 191456);
   (194560, 195101); (196608, 201546); (917760, 917999)].

Definition is_printable (cp : Z) : bool :=
  existsb (fun r => (fst r <=? cp) && (cp <=? snd r)) unicode_printable.

Definition hex_digit (n : N) : ascii :=
  if (n <? 10)%N then ascii_of_N (48 + n) else ascii_of_N (87 + n).

(** [n] in hexadecimal, on [width] digits. *)
Fixpoint hex (width : nat) (n : Z) : string :=
  match width with
  | O => EmptyString
  | S width' =>
      hex width' (n / 16) ++ String (hex_digit (Z.to_N (n mod 16))) ""
  end.

(** One character inside [repr] of a str quoted by [q]: its code point
    [cp] (-1 for a byte that begins no character) and its bytes, the first
    of which is [a]. *)
Definition repr_char (q : ascii) (a : ascii) (cp : Z) (bytes : string)
  : string :=
  if cp <? 0 then "\udc" ++ hex 2 (byte a)
  else if cp <? 128 then
    if Ascii.eqb a q || Ascii.eqb a "\"%char then String "\"%char (String a "")
    else if cp =? 9 then "\t"
    else if cp =? 10 then "\n"
    else if cp =? 13 then "\r"
    else if (cp <? 32) || (cp =? 127) then "\x" ++ hex 2 cp
    else String a ""
  else if is_printable cp then bytes
  else if cp <? 256 then "\x" ++ hex 2 cp
  else if cp <? 65536 then "\u" ++ hex 4 cp
  else "\U" ++ hex 8 cp.

Fixpoint repr_chars_of (fuel : nat) (q : ascii) (s : string) : string :=
  match fuel, s with
  | S fuel', String a s' =>
      let (cp, rest) := decode_one a s' in
      repr_char q a cp
        (String a (substring 0 (String.length s' - String.length rest) s'))
      ++ repr_chars_of fuel' q rest
  | _, _ => EmptyString
  end.

Definition repr_chars (q : ascii) (s : string) : string :=
  repr_chars_of (String.length s) q s.

Definition squote : ascii := ascii_of_nat 39.
Definition dquote : ascii := ascii_of_nat 34.

(** [repr(s)] for a str: single quotes, unless the text has a single quote
    and no double quote. *)
Definition repr_str (s : string) : string :=
  let q := if contains squote s && negb (contains dquote s)
           then dquote else squote in
  String q (repr_chars q s ++ String q "").

(** [repr(v)] *)
Fixpoint repr (v : pyval) : string :=
  match v with
  | PNone => "None"
  | PBool true => "True"
  | PBool false => "False"
  | PInt z => str_of_Z z
  | PStr s => repr_str s
  | PList l => "[" ++ join ", " (map repr l) ++ "]"
  | PDict d =>
      "{" ++ join ", " (map (fun kv => repr_str (fst kv) ++ ": " ++ repr (snd kv)) d)
          ++ "}"
  end.

(** [str(v)], which is what an f-string field [{v}] prints. *)
Definition str (v : pyval) : string :=
  match v with
  | PStr s => s
  | _ => repr v
  end.

(** ** Floats

    A finite double is kept as the fraction it is worth, a numerator over a
    power of two.  [nearest_double n d] is the double nearest to [n/d], ties
    to even, subnormals included: this is how the true division of two ints,
    the conversion of an int and every operation on floats round.  [None]
    stands for a result past the largest double. *)

(** The integer nearest to [p/q], ties to even, for [q > 0]. *)
Definition round_half_even (p q : Z) : Z :=
  let f := p / q in
  let r := p mod q in
  if 2 * r <? q then f
  else if q <? 2 * r then f + 1
  else if Z.even f then f else f + 1.

(** The largest [t] with [2^t <= n/d], for [n > 0] and [d > 0]. *)
Definition binary_exponent (n d : Z) : Z :=
  let t := Z.log2 n - Z.log2 d in
  if (if 0 <=? t then d * 2 ^ t <=? n else d <=? n * 2 ^ (- t))
  then t else t - 1.

Definition nearest_double_pos (n d : Z) : option (Z * Z) :=
  let e := Z.max (binary_exponent n d - 52) (-1074) in
  let '(num, den) :=
    if 0 <=? e then (round_half_even n (d * 2 ^ e) * 2 ^ e, 1)
    else (round_half_even (n * 2 ^ (- e)) d, 2 ^ (- e)) in
  if 2 ^ 1024 * den <=? num then None else Some (num, den).

Definition nearest_double (n d : Z) : option (Z * Z) :=
  if n =? 0 then Some (0, 1)
  else match nearest_double_pos (Z.abs n) d with
       | Some (num, den) => Some (Z.sgn n * num, den)
       | None => None
       end.

(** [int(x)] for a finite float: cut towards zero. *)
Definition int_of_double (x : Z * Z) : Z := Z.quot (fst x) (snd x).

(** *** [str(x)] for a float

    The shortest run of digits that reads back as the same double, written
    with a point, or with an exponent when the point would fall more than 16
    places after the first digit or more than 3 before it. *)

(** [10^k <= n/d] *)
Definition le_pow10 (k n d : Z) : bool :=
  if 0 <=? k then 10 ^ k * d <=? n else d <=? n * 10 ^ (- k).

(** The largest [k] with [10^k <= n/d], for [n > 0] and [d > 0]: an
    estimate from the binary sizes that is at most 3 short, stepped up. *)
Definition decimal_exponent (n d : Z) : Z :=
  Nat.iter 6 (fun k => if le_pow10 (k + 1) n d then k + 1 else k)
           ((Z.log2 n - Z.log2 d) * 1233 / 4096 - 2).

(** The double nearest to [c * 10^k] is [num/den]. *)
Definition reads_back (num den c k : Z) : bool :=
  (0 <? c)
  && match (if 0 <=? k then nearest_double_pos (c * 10 ^ k) 1
            else nearest_double_pos c (10 ^ (- k))) with
     | Some (a, b) => a * den =? num * b
     | None => false
     end.

(** The decimal [c * 10^k] of [n] digits that reads back as [num/den], the
    nearer one if the two around [num/den] do; [None] if neither does. *)
Definition decimal_candidate (num den n : Z) : option (Z * Z) :=
  let k := decimal_exponent num den - n + 1 in
  let lo := if 0 <=? k then num / (den * 10 ^ k)
            else num * 10 ^ (- k) / den in
  let hi := lo + 1 in
  let '(twice, mid) :=
    if 0 <=? k then (2 * num, (lo + hi) * 10 ^ k * den)
    else (2 * num * 10 ^ (- k), (lo + hi) * den) in
  match reads_back num den lo k, reads_back num den hi k with
  | true, true =>
      Some (if twice <? mid then lo
            else if mid <? twice then hi
            else if Z.even lo then lo else hi, k)
  | true, false => Some (lo, k)
  | false, true => Some (hi, k)
  | false, false => None
  end.

(** The first number of digits, from [n] up, that is enough; 17 always
    are. *)
Fixpoint shortest_decimal (fuel : nat) (num den n : Z) : Z * Z :=
  match fuel with
  | O => (0, 0)
  | S fuel' =>
      match decimal_candidate num den n with
      | Some r => r
      | None => shortest_decimal fuel' num den (n + 1)
      end
  end.

Fixpoint strip_zeros (fuel : nat) (c k : Z) : Z * Z :=
  match fuel with
  | O => (c, k)
  | S fuel' =>
      if (c mod 10 =? 0) && negb (c =? 0)
      then strip_zeros fuel' (c / 10) (k + 1)
      else (c, k)
  end.

Definition str_of_double_pos (num den : Z) : string :=
  let '(c0, k0) := shortest_decimal 17 num den 1 in
  let '(c, k) := strip_zeros 17 c0 k0 in
  let ds := str_of_Z c in
  let nd := String.length ds in
  let decpt := Z.of_nat nd + k in
  if (decpt <=? -4) || (16 <? decpt) then
    let e := decpt - 1 in
    substring 0 1 ds
    ++ (if (1 <? nd)%nat then "." ++ substring 1 (nd - 1) ds else "")
    ++ "e" ++ (if e <? 0 then "-" else "+")
    ++ (if Z.abs e <? 10 then "0" else "") ++ str_of_Z (Z.abs e)
  else if decpt <=? 0 then
    "0." ++ str_mul "0" (Z.to_nat (- decpt)) ++ ds
  else if Z.of_nat nd <=? decpt then
    ds ++ str_mul "0" (Z.to_nat (decpt - Z.of_nat nd)) ++ ".0"
  else
    substring 0 (Z.to_nat decpt) ds ++ "."
    ++ substring (Z.to_nat decpt) (nd - Z.to_nat decpt) ds.

Definition str_of_double (x : Z * Z) : string :=
  if fst x =? 0 then "0.0"
  else (if fst x <? 0 then "-" else "")
       ++ str_of_double_pos (Z.abs (fst x)) (snd x).

End Py.

Import Py.

Notation "x <- m ;; k" := (Py.bind m (fun x => k))
  (at level 61, m at next level, right associativity).
Notation "m ;;; k" := (Py.bind m (fun _ => k))
  (at level 61, right associativity).
Notation "x <~ m ;; k" := (Py.rbind m (fun x => k))
  (at level 61, m at next level, right associativity).

(* ================================================================== *)
(** * lounge_color_loop.py *)
(* ================================================================== *)

Module ColorLoop.

(** Lounge color lights: loungeLight2 and LoungeLight3. *)
Definition LOUNGE_COLOR_LIGHTS : list Z := [9; 12].

(** [get_color_name(hue)] *)
Definition get_color_name (hue : Z) : string :=
  if hue <? 3000 then "Red"
  else if hue <? 8000 then "Orange"
  else if hue <? 16000 then "Yellow"
  else if hue <? 30000 then "Green"
  else if hue <? 40000 then "Cyan"
  else if hue <? 48000 then "Blue"
  else if hue <? 54000 then "Purple"
  else "Pink".

(** The eight bands as the documentation lists them: the first hue of the
    band, the first hue past it, and its label. *)
Definition bands : list (Z * Z * string) :=
  [(0, 3000, "Red"); (3000, 8000, "Orange"); (8000, 16000, "Yellow");
   (16000, 30000, "Green"); (30000, 40000, "Cyan"); (40000, 48000, "Blue");
   (48000, 54000, "Purple"); (54000, 65535, "Pink")].

(** The increment of line 56, [hue = (hue + 5000) % 65535]; Python's [%]
    with a positive modulus is [Z.modulo]. *)
Definition next_hue (hue : Z) : Z := (hue + 5000) mod 65535.

(** ** [int(s)] on the command line

    [int] first rewrites its text: a character outside ASCII becomes a
    space if it is a blank, the ASCII digit of its value if it is a decimal
    digit, and "?" otherwise.  What it then reads is ASCII: blanks at both
    ends, a sign, and digits with single underscores between them. *)

(** The blanks outside ASCII ([str.isspace]), Unicode 14. *)
Definition unicode_blanks : list Z :=
  [133; 160; 5760; 8192; 8193; 8194; 8195; 8196; 8197; 8198; 8199;
   8200; 8201; 8202; 8232; 8233; 8239; 8287; 12288].

(** The decimal digits outside ASCII (category Nd), Unicode 14: the first
    and the last character of each run; a run counts 0 to 9, once or (the
    mathematical digits) five times over. *)
Definition unicode_digits : list (Z * Z) :=
  [(1632, 1641); (1776, 1785); (1984, 1993); (2406, 2415);
   (2534, 2543); (2662, 2671); (2790, 2799); (2918, 2927);
   (3046, 3055); (3174, 3183); (3302, 3311); (3430, 3439);
   (3558, 3567); (3664, 3673); (3792, 3801); (3872, 3881);
   (4160, 4169); (4240, 4249); (6112, 6121); (6160, 6169);
   (6470, 6479); (6608, 6617); (6784, 6793); (6800, 6809);
   (6992, 7001); (7088, 7097); (7232, 7241); (7248, 7257);
   (42528, 42537); (43216, 43225); (43264, 43273); (43472, 43481);
   (43504, 43513); (43600, 43609); (44016, 44025); (65296, 65305);
   (66720, 66729); (68912, 68921); (69734, 69743); (69872, 69881);
   (69942, 69951); (70096, 70105); (70384, 70393); (70736, 70745);
   (70864, 70873); (71248, 71257); (71360, 71369); (71472, 71481);
   (71904, 71913); (72016, 72025); (72784, 72793); (73040, 73049);
   (73120, 73129); (92768, 92777); (92864, 92873); (93008, 93017);
   (120782, 120831); (123200, 123209); (123632, 123641);
   (125264, 125273); (130032, 130041)].

Definition to_ascii (cp : Z) : ascii :=
  if (0 <=? cp) && (cp <? 128) then ascii_of_nat (Z.to_nat cp)
  else if existsb (Z.eqb cp) unicode_blanks then " "%char
  else match find (fun b => (fst b <=? cp) && (cp <=? snd b)) unicode_digits with
       | Some (first, _) => ascii_of_nat (Z.to_nat (48 + (cp - first) mod 10))
       | None => "?"%char
       end.

Definition ascii_text (s : string) : string :=
  string_of_list_ascii (map to_ascii (code_points s)).

(** The blanks [int] skips at both ends of the rewritten text: tab to
    carriage return, and the space. *)
Definition is_space (a : ascii) : bool :=
  let n := nat_of_ascii a in
  ((9 <=? n) && (n <=? 13) || (n =? 32))%nat.

Definition is_digit (a : ascii) : bool :=
  let n := nat_of_ascii a in ((48 <=? n) && (n <=? 57))%nat.

Definition digit_val (a : ascii) : Z := Z.of_nat (nat_of_ascii a) - 48.

Fixpoint lstrip (s : string) : string :=
  match s with
  | String a s' => if is_space a then lstrip s' else s
  | EmptyString => EmptyString
  end.

Fixpoint rstrip (s : string) : string :=
  match s with
  | String a s' =>
      match rstrip s' with
      | EmptyString => if is_space a then EmptyString else String a EmptyString
      | r => String a r
      end
  | EmptyString => EmptyString
  end.

(** Decimal digits, single underscores allowed between two digits. *)
Fixpoint digits (acc : Z) (after_digit : bool) (s : string) : option Z :=
  match s with
  | EmptyString => if after_digit then Some acc else None
  | String a s' =>
      if is_digit a then digits (10 * acc + digit_val a) true s'
      else if Ascii.eqb a "_" && after_digit then digits acc false s'
      else None
  end.

Fixpoint count_digits (s : string) : nat :=
  match s with
  | EmptyString => O
  | String a s' => ((if is_digit a then 1 else 0) + count_digits s')%nat
  end.

(** The digits after the sign: [int] refuses more than 4300 of them (the
    limit CPython has by default since 3.11). *)
Definition int_digits (s : string) : option Z :=
  if (4300 <? count_digits s)%nat then None else digits 0 false s.

(** [int(s)] for a str, in base ten; [None] is ValueError. *)
Definition py_int (s : string) : option Z :=
  match lstrip (rstrip (ascii_text s)) with
  | String "-" s' => option_map Z.opp (int_digits s')
  | String "+" s' => int_digits s'
  | s' => int_digits s'
  end.

(** What the loop does to the world, in order. *)
Inductive event (num : Type) : Type :=
| Print (line : string)
| PutState (light_id hue sat bri transitiontime : Z)
| Sleep (seconds : num).

Arguments Print {num} line.
Arguments PutState {num} light_id hue sat bri transitiontime.
Arguments Sleep {num} seconds.

Section Loop.

(** Python floats stay abstract: the speed is only parsed, printed and
    handed to [time.sleep]. *)
Variable float : Type.
(** [float(s)]; [None] is ValueError. *)
Variable float_of_str : string -> option float.
(** [str(x)] for a float. *)
Variable str_of_float : float -> string.

(** The speed is the int 2 by default, a float when given. *)
Inductive number : Type :=
| NInt (z : Z)
| NFloat (x : float).

Definition str_of_number (n : number) : string :=
  match n with
  | NInt z => str_of_Z z
  | NFloat x => str_of_float x
  end.

(** The successive readings of [time.time()], in seconds.  A reading is a
    float, hence a rational. *)
Variable clock : nat -> Q.

Definition Qgt_bool (a b : Q) : bool := negb (Qle_bool a b).

(** [(a - b) > d] for two floats and an int: the difference is rounded to
    the nearest double (past the largest one it is an infinity), and the
    comparison with the int is exact. *)
Definition float_sub_gt (a b : Q) (d : Z) : bool :=
  let q := (a - b)%Q in
  match nearest_double (Qnum q) (Z.pos (Qden q)) with
  | Some (num, den) => Qgt_bool (num # Z.to_pos den) (inject_Z d)
  | None => 0 <? Qnum q
  end.

(** [set_light_color(light_id, hue, saturation=254, brightness=254)]: one PUT
    with [transitiontime] 10.  The bridge's answer is read and dropped.  The
    call can raise, when the request fails or the answer is not JSON:
    [ColorLoopRun] below has that case. *)
Definition set_light_color (light_id hue saturation brightness : Z)
  : event number :=
  PutState light_id hue saturation brightness 10.

(** Line 44, [duration_seconds and (time.time() - start_time) >
    duration_seconds]: whether the duration is exceeded, and the number of
    clock readings after the test.  The clock is read only when
    [duration_seconds] is neither [None] nor 0. *)
Definition exceeded (duration_seconds : option Z) (start_time : Q)
    (reads : nat) : bool * nat :=
  match duration_seconds with
  | None => (false, reads)
  | Some d =>
      if truthy (PInt d)
      then (float_sub_gt (clock reads) start_time d, S reads)
      else (false, reads)
  end.

(** The [while True] of [color_loop], cut after [fuel] passes, in a run
    where every PUT is answered and every [time.sleep] returns
    ([ColorLoopRun.loop] below is the loop with calls that can raise).
    [reads] counts the calls of [time.time()] made so far.  The result is
    the trace and whether the loop was left by its [break].  An interrupt
    from the keyboard comes from outside and is not part of the model. *)
Fixpoint loop (fuel : nat) (duration_seconds : option Z) (speed : number)
    (start_time : Q) (reads : nat) (hue : Z) : list (event number) * bool :=
  match fuel with
  | O => ([], false)
  | S fuel' =>
      let '(stop, reads') := exceeded duration_seconds start_time reads in
      if stop then
        ([Print (nl ++ "Duration reached. Stopping color loop.")], true)
      else
        let '(rest, broke) :=
          loop fuel' duration_seconds speed start_time reads' (next_hue hue) in
        ((map (fun light_id => set_light_color light_id hue 254 254)
              LOUNGE_COLOR_LIGHTS
          ++ [Print ("Color: " ++ get_color_name hue
                     ++ " (hue: " ++ str_of_Z hue ++ ")");
              Sleep speed]
          ++ rest)%list, broke)
  end.

(** [color_loop(duration_seconds=None, speed=2)], observed for [fuel] passes
    of its loop. *)
Definition color_loop (fuel : nat) (duration_seconds : option Z)
    (speed : number) : list (event number) * bool :=
  let banner :=
    [Print ("Starting color loop for lounge lights (IDs: "
            ++ str (PList (map PInt LOUNGE_COLOR_LIGHTS)) ++ ")");
     Print ("Speed: " ++ str_of_number speed ++ " seconds per color change");
     Print (match duration_seconds with
            | Some d =>
                if truthy (PInt d)
                then "Duration: " ++ str_of_Z d ++ " seconds"
                else "Duration: Forever (press Ctrl+C to stop)"
            | None => "Duration: Forever (press Ctrl+C to stop)"
            end);
     Print ""] in
  let start_time := clock 0 in
  let '(trace, broke) := loop fuel duration_seconds speed start_time 1 0 in
  ((banner ++ trace)%list, broke).

(** The [__main__] block: [sys.argv] to the call of [color_loop]. *)
Definition parse_speed (argv : list string) : list (event number) * number :=
  match argv with
  | _ :: a :: _ =>
      match float_of_str a with
      | Some x => ([], NFloat x)
      | None => ([Print "Invalid speed value. Using default: 2 seconds"], NInt 2)
      end
  | _ => ([], NInt 2)
  end.

Definition parse_duration (argv : list string)
  : list (event number) * option Z :=
  match argv with
  | _ :: _ :: a :: _ =>
      match py_int a with
      | Some d => ([], Some d)
      | None => ([Print "Invalid duration value. Running forever."], None)
      end
  | _ => ([], None)
  end.

Definition main (fuel : nat) (argv : list string)
  : list (event number) * bool :=
  let '(out1, speed) := parse_speed argv in
  let '(out2, duration) := parse_duration argv in
  let '(trace, broke) := color_loop fuel duration speed in
  ((out1 ++ out2
    ++ [Print (str_mul "=" 50); Print "LOUNGE LIGHTS COLOR LOOP";
        Print (str_mul "=" 50)]
    ++ trace)%list, broke).

(** The state updates a trace sends to the lights. *)
Definition is_put (e : event number) : bool :=
  match e with
  | PutState _ _ _ _ _ => true
  | _ => false
  end.

Definition puts (t : list (event number)) : list (event number) :=
  filter is_put t.

(** The state updates of pass [n] of a loop that started at [hue]. *)
Definition pass_puts (hue : Z) (n : nat) : list (event number) :=
  map (fun light_id => set_light_color light_id (Nat.iter n next_hue hue) 254 254)
      LOUNGE_COLOR_LIGHTS.

End Loop.

Arguments NInt {float} z.
Arguments NFloat {float} x.
Arguments str_of_number {float} str_of_float n.
Arguments set_light_color {float} light_id hue saturation brightness.
Arguments loop {float} clock fuel duration_seconds speed start_time reads hue.
Arguments color_loop {float} str_of_float clock fuel duration_seconds speed.
Arguments parse_speed {float} float_of_str argv.
Arguments main {float} float_of_str str_of_float clock fuel argv.
Arguments is_put {float} e.
Arguments puts {float} t.

End ColorLoop.

(* ================================================================== *)
(** * sensor_activity.py *)
(* ================================================================== *)

Module SensorActivity.

(** A [datetime]: its calendar fields, read as microseconds since
    1970-01-01T00:00:00 on its own clock face, and its [tzinfo] as an offset
    from UTC in microseconds ([None] for a naive value). *)
Record datetime : Type := {
  wall : Z;
  tzinfo : option Z
}.

(** [d.replace(tzinfo=timezone.utc)] *)
Definition replace_tz_utc (d : datetime) : datetime :=
  {| wall := wall d; tzinfo := Some 0 |}.

(** Lines 16 and 17: a naive value is taken to be on UTC. *)
Definition assume_utc (d : datetime) : datetime :=
  match tzinfo d with
  | None => replace_tz_utc d
  | Some _ => d
  end.

(** The instant an aware value denotes, in microseconds since the epoch. *)
Definition instant (d : datetime) : Z :=
  wall d - match tzinfo d with Some off => off | None => 0 end.

(** [int(diff.total_seconds())] for a difference of [us] microseconds:
    [total_seconds()] is the true division [us / 10**6], a double, and [int]
    cuts it towards zero.  (No difference of two datetimes is large enough
    for the division to overflow.) *)
Definition total_seconds_int (us : Z) : res Z :=
  match nearest_double us 1000000 with
  | Some x => ok (int_of_double x)
  | None => raise OverflowError
  end.

(** ['s' if n != 1 else ''] *)
Definition plural (n : Z) : string := if n =? 1 then "" else "s".

(** The label for an elapsed count of seconds (lines 24 to 34). *)
Definition label (seconds : Z) : string :=
  if seconds <? 60 then
    str_of_Z seconds ++ " seconds ago"
  else if seconds <? 3600 then
    let minutes := seconds / 60 in
    str_of_Z minutes ++ " minute" ++ plural minutes ++ " ago"
  else if seconds <? 86400 then
    let hours := seconds / 3600 in
    str_of_Z hours ++ " hour" ++ plural hours ++ " ago"
  else
    let days := seconds / 86400 in
    str_of_Z days ++ " day" ++ plural days ++ " ago".

Section TimeAgo.

(** [datetime.fromisoformat(s)]; [None] is ValueError. *)
Variable fromisoformat : string -> option datetime.

(** The body of the [try] of [get_time_ago]; [now] is the instant
    [datetime.now(timezone.utc)] returns, in microseconds. *)
Definition time_ago_body (now : Z) (timestamp_str : pyval) : res string :=
  s <~ replace timestamp_str "Z" "+00:00" ;;
  last_update <~ match fromisoformat s with
                 | Some d => ok d
                 | None => raise ValueError
                 end ;;
  let last_update := assume_utc last_update in
  let diff := now - instant last_update in
  seconds <~ total_seconds_int diff ;;
  ok (label seconds).

(** [get_time_ago(timestamp_str)] *)
Definition get_time_ago (now : Z) (timestamp_str : pyval) : res string :=
  if eq_str timestamp_str "none" || negb (truthy timestamp_str) then
    ok "Never"
  else
    try_except (time_ago_body now timestamp_str)
      (fun e => ok ("Error parsing: " ++ str timestamp_str)).

End TimeAgo.

(** ** Grouping the sensors *)

(** The [sensor_data] dict built for each sensor. *)
Record sensor_data : Type := {
  id : string;
  name : pyval;
  type : pyval;
  lastupdated : pyval;
  state : pyval;
  config : pyval
}.

Record buckets : Type := {
  motion_sensors : list sensor_data;
  temperature_sensors : list sensor_data;
  dimmer_switches : list sensor_data;
  other_sensors : list sensor_data
}.

Definition no_sensors : buckets :=
  {| motion_sensors := []; temperature_sensors := [];
     dimmer_switches := []; other_sensors := [] |}.

(** Lines 62 to 75: the fields of one item, with their defaults. *)
Definition read_sensor (sensor_id : string) (sensor_info : pyval)
  : res sensor_data :=
  sensor_type <~ get sensor_info "type" (PStr "Unknown") ;;
  name <~ get sensor_info "name" (PStr "Unknown") ;;
  state <~ get sensor_info "state" (PDict []) ;;
  config <~ get sensor_info "config" (PDict []) ;;
  lastupdated <~ get state "lastupdated" (PStr "none") ;;
  ok {| id := sensor_id; name := name; type := sensor_type;
        lastupdated := lastupdated; state := state; config := config |}.

(** Lines 77 to 86: the chain that appends [sensor] to a list, or to none. *)
Definition route (b : buckets) (sensor : sensor_data) : buckets :=
  let sensor_type := type sensor in
  if eq_str sensor_type "ZLLPresence" then
    {| motion_sensors := (motion_sensors b ++ [sensor])%list;
       temperature_sensors := temperature_sensors b;
       dimmer_switches := dimmer_switches b;
       other_sensors := other_sensors b |}
  else if eq_str sensor_type "ZLLTemperature" then
    {| motion_sensors := motion_sensors b;
       temperature_sensors := (temperature_sensors b ++ [sensor])%list;
       dimmer_switches := dimmer_switches b;
       other_sensors := other_sensors b |}
  else if eq_str sensor_type "ZLLLightLevel" then
    {| motion_sensors := motion_sensors b;
       temperature_sensors := (temperature_sensors b ++ [sensor])%list;
       dimmer_switches := dimmer_switches b;
       other_sensors := other_sensors b |}
  else if eq_str sensor_type "ZLLSwitch" then
    {| motion_sensors := motion_sensors b;
       temperature_sensors := temperature_sensors b;
       dimmer_switches := (dimmer_switches b ++ [sensor])%list;
       other_sensors := other_sensors b |}
  else if negb (eq_str sensor_type "Daylight"
                || eq_str sensor_type "CLIPGenericStatus") then
    {| motion_sensors := motion_sensors b;
       temperature_sensors := temperature_sensors b;
       dimmer_switches := dimmer_switches b;
       other_sensors := (other_sensors b ++ [sensor])%list |}
  else b.

(** The loop of line 61 over [sensors.items()]. *)
Fixpoint group (b : buckets) (l : list (string * pyval)) : res buckets :=
  match l with
  | [] => ok b
  | (sensor_id, sensor_info) :: l' =>
      sensor <~ read_sensor sensor_id sensor_info ;;
      group (route b sensor) l'
  end.

(** The records of the answer, read in order. *)
Fixpoint read_all (l : list (string * pyval)) : res (list sensor_data) :=
  match l with
  | [] => ok []
  | (sensor_id, sensor_info) :: l' =>
      sensor <~ read_sensor sensor_id sensor_info ;;
      rest <~ read_all l' ;;
      ok (sensor :: rest)
  end.

(** The classification as the documentation words it: a closed mapping from
    the declared type to one of four buckets, two types being dropped. *)
Inductive bucket : Type :=
| Motion
| TemperatureLight
| Switch
| Other.

Definition bucket_eqb (a b : bucket) : bool :=
  match a, b with
  | Motion, Motion | TemperatureLight, TemperatureLight
  | Switch, Switch | Other, Other => true
  | _, _ => false
  end.

Definition bucket_of_type (t : pyval) : option bucket :=
  if eq_str t "ZLLPresence" then Some Motion
  else if eq_str t "ZLLTemperature" || eq_str t "ZLLLightLevel"
       then Some TemperatureLight
  else if eq_str t "ZLLSwitch" then Some Switch
  else if eq_str t "Daylight" || eq_str t "CLIPGenericStatus" then None
  else Some Other.

Definition in_bucket (k : bucket) (sensor : sensor_data) : bool :=
  match bucket_of_type (type sensor) with
  | Some k' => bucket_eqb k k'
  | None => false
  end.

(** [temp / 100.0] for an int: the int is made a float, which raises
    OverflowError past the largest double, and the quotient of the two
    floats is rounded. *)
Definition centi (t : Z) : res (Z * Z) :=
  match nearest_double t 1 with
  | None => raise OverflowError
  | Some (n, d) =>
      match nearest_double n (d * 100) with
      | Some x => ok x
      | None => raise OverflowError
      end
  end.

(** A record whose fields, where present, have the kind the bridge gives
    them: [state] and [config] are objects, [temperature] is null or a
    number, one that fits a float.  No field has to be present. *)
Definition temperature_ok (st : list (string * pyval)) : bool :=
  match lookup "temperature" st with
  | None | Some PNone | Some (PBool _) => true
  | Some (PInt t) =>
      match nearest_double t 1 with
      | Some _ => true
      | None => false
      end
  | Some _ => false
  end.

Definition well_typed_fields (sensor_info : pyval) : bool :=
  match sensor_info with
  | PDict d =>
      match lookup "state" d with
      | None => true
      | Some (PDict st) => temperature_ok st
      | Some _ => false
      end
      && match lookup "config" d with
         | None | Some (PDict _) => true
         | Some _ => false
         end
  | _ => false
  end.

(** The same, of a record once read. *)
Definition fields_ok (sensor : sensor_data) : Prop :=
  (exists st, state sensor = PDict st /\ temperature_ok st = true) /\
  (exists c, config sensor = PDict c).

(** ** The report *)

(** The degree sign, in UTF-8. *)
Definition degree : string :=
  String (ascii_of_nat 194) (String (ascii_of_nat 176) "").

(** What the [try] around the request leaves: the message of the exception
    it caught, or the decoded answer. *)
Inductive fetched : Type :=
| FetchFailed (e : string)
| Fetched (sensors : pyval).

(** A loop whose body knows its pass number. *)
Fixpoint for_each_from {A} (f : nat -> A -> io unit) (k : nat) (l : list A)
  : io unit :=
  match l with
  | [] => ret tt
  | x :: l' => f k x ;;; for_each_from f (S k) l'
  end.

Section Report.

Variable fromisoformat : string -> option datetime.

(** [now k] is the instant [datetime.now(timezone.utc)] returns inside the
    call number [k] of [get_time_ago] (counted from 0). *)
Variable now : nat -> Z.

Definition time_ago (k : nat) (sensor : sensor_data) : io string :=
  lift (get_time_ago fromisoformat (now k) (lastupdated sensor)).

(** Lines 92 to 102. *)
Definition print_motion (k : nat) (sensor : sensor_data) : io unit :=
  time_ago <- time_ago k sensor ;;
  presence <- lift (get (state sensor) "presence" (PBool false)) ;;
  battery <- lift (get (config sensor) "battery" (PStr "N/A")) ;;
  let status := if truthy presence then "MOTION DETECTED" else "No motion" in
  print (str (name sensor) ++ " (ID " ++ id sensor ++ ")") ;;;
  print ("  Status: " ++ status) ;;;
  print ("  Last updated: " ++ time_ago) ;;;
  print ("  Battery: " ++ str battery ++ "%") ;;;
  print "".

(** Lines 108 to 130. *)
Definition print_temperature (k : nat) (sensor : sensor_data) : io unit :=
  time_ago <- time_ago k sensor ;;
  battery <- lift (get (config sensor) "battery" (PStr "N/A")) ;;
  print (str (name sensor) ++ " (ID " ++ id sensor ++ ") - "
         ++ str (type sensor)) ;;;
  (if eq_str (type sensor) "ZLLTemperature" then
     temp <- lift (get (state sensor) "temperature" PNone) ;;
     match temp with
     | PNone => print "  Temperature: N/A"
     | PInt t =>
         temp_c <- lift (centi t) ;;
         print ("  Temperature: " ++ str_of_double temp_c ++ degree ++ "C")
     | PBool b =>
         temp_c <- lift (centi (Z.b2z b)) ;;
         print ("  Temperature: " ++ str_of_double temp_c ++ degree ++ "C")
     | _ => throw TypeError
     end
   else if eq_str (type sensor) "ZLLLightLevel" then
     lightlevel <- lift (get (state sensor) "lightlevel" PNone) ;;
     match lightlevel with
     | PNone => print "  Light level: N/A"
     | _ => print ("  Light level: " ++ str lightlevel)
     end
   else ret tt) ;;;
  print ("  Last updated: " ++ time_ago) ;;;
  print ("  Battery: " ++ str battery ++ "%") ;;;
  print "".

(** Lines 136 to 146. *)
Definition print_dimmer (k : nat) (sensor : sensor_data) : io unit :=
  time_ago <- time_ago k sensor ;;
  button_event <- lift (get (state sensor) "buttonevent" PNone) ;;
  battery <- lift (get (config sensor) "battery" (PStr "N/A")) ;;
  print (str (name sensor) ++ " (ID " ++ id sensor ++ ")") ;;;
  (if truthy button_event
   then print ("  Last button: " ++ str button_event)
   else ret tt) ;;;
  print ("  Last pressed: " ++ time_ago) ;;;
  print ("  Battery: " ++ str battery ++ "%") ;;;
  print "".

(** Lines 152 to 158. *)
Definition print_other (k : nat) (sensor : sensor_data) : io unit :=
  time_ago <- time_ago k sensor ;;
  print (str (name sensor) ++ " (ID " ++ id sensor ++ ") - "
         ++ str (type sensor)) ;;;
  print ("  Last updated: " ++ time_ago) ;;;
  print ("  State: " ++ str (state sensor)) ;;;
  print "".

(** [if l: print(title); print("-" * 80); for sensor in l: ...] *)
Definition section (title : string) (f : nat -> sensor_data -> io unit)
    (k : nat) (l : list sensor_data) : io unit :=
  match l with
  | [] => ret tt
  | _ => print title ;;; print (str_mul "-" 80) ;;; for_each_from f k l
  end.

(** The four sections, in the order they are printed. *)
Definition report (b : buckets) : io unit :=
  let k1 := List.length (motion_sensors b) in
  let k2 := (k1 + List.length (temperature_sensors b))%nat in
  let k3 := (k2 + List.length (dimmer_switches b))%nat in
  section "MOTION SENSORS" print_motion 0 (motion_sensors b) ;;;
  section "TEMPERATURE/LIGHT SENSORS" print_temperature k1
          (temperature_sensors b) ;;;
  section "DIMMER SWITCHES" print_dimmer k2 (dimmer_switches b) ;;;
  section "OTHER SENSORS" print_other k3 (other_sensors b).

(** [list_sensor_activity()], from the outcome of its request on. *)
Definition list_sensor_activity (r : fetched) : io unit :=
  match r with
  | FetchFailed e => print ("Error connecting to Hue Bridge: " ++ e)
  | Fetched sensors =>
      print (str_mul "=" 80) ;;;
      print "HUE SENSOR ACTIVITY" ;;;
      print (str_mul "=" 80) ;;;
      print "" ;;;
      l <- lift (items sensors) ;;
      b <- lift (group no_sensors l) ;;
      report b
  end.

(** The four sections by bucket: the title of each, the list it goes
    through and the body of its loop. *)
Definition section_title (k : bucket) : string :=
  match k with
  | Motion => "MOTION SENSORS"
  | TemperatureLight => "TEMPERATURE/LIGHT SENSORS"
  | Switch => "DIMMER SWITCHES"
  | Other => "OTHER SENSORS"
  end.

Definition section_list (k : bucket) (b : buckets) : list sensor_data :=
  match k with
  | Motion => motion_sensors b
  | TemperatureLight => temperature_sensors b
  | Switch => dimmer_switches b
  | Other => other_sensors b
  end.

Definition section_body (k : bucket) : nat -> sensor_data -> io unit :=
  match k with
  | Motion => print_motion
  | TemperatureLight => print_temperature
  | Switch => print_dimmer
  | Other => print_other
  end.

End Report.

(** ** A reader for the bridge's timestamps

    The format named in the source, [2025-12-28T18:03:02], with an optional
    [+HH:MM] or [-HH:MM] after it.  [datetime.fromisoformat] reads more than
    this; the results below hold for any reader, and this one serves to run
    them on concrete timestamps. *)

Definition is_leap (y : Z) : bool :=
  (y mod 4 =? 0) && (negb (y mod 100 =? 0) || (y mod 400 =? 0)).

Definition days_in_month (y m : Z) : Z :=
  if m =? 2 then (if is_leap y then 29 else 28)
  else if (m =? 4) || (m =? 6) || (m =? 9) || (m =? 11) then 30
  else 31.

(** Days from 1970-01-01 to the civil date [y-m-d]. *)
Definition days_from_civil (y m d : Z) : Z :=
  let y' := if m <=? 2 then y - 1 else y in
  let era := y' / 400 in
  let yoe := y' - era * 400 in
  let doy := (153 * (if m >? 2 then m - 3 else m + 9) + 2) / 5 + d - 1 in
  let doe := yoe * 365 + yoe / 4 - yoe / 100 + doy in
  era * 146097 + doe - 719468.

(** An unsigned decimal of exactly [n] digits at the head of [s]. *)
Fixpoint take_digits (n : nat) (acc : Z) (s : string) : option (Z * string) :=
  match n with
  | O => Some (acc, s)
  | S n' =>
      match s with
      | String a s' =>
          if ColorLoop.is_digit a
          then take_digits n' (10 * acc + ColorLoop.digit_val a) s'
          else None
      | EmptyString => None
      end
  end.

Definition expect (c : ascii) (s : string) : option string :=
  match s with
  | String a s' => if Ascii.eqb a c then Some s' else None
  | EmptyString => None
  end.

Definition obind {A B} (m : option A) (f : A -> option B) : option B :=
  match m with
  | Some a => f a
  | None => None
  end.

Definition parse_offset (s : string) : option (option Z) :=
  match s with
  | EmptyString => Some None
  | String sign s1 =>
      if Ascii.eqb sign "+" || Ascii.eqb sign "-" then
        obind (take_digits 2 0 s1) (fun '(hh, s2) =>
        obind (expect ":" s2) (fun s3 =>
        obind (take_digits 2 0 s3) (fun '(mm, s4) =>
        match s4 with
        | EmptyString =>
            if (hh <? 24) && (mm <? 60) then
              let off := (hh * 3600 + mm * 60) * 1000000 in
              Some (Some (if Ascii.eqb sign "-" then - off else off))
            else None
        | _ => None
        end)))
      else None
  end.

Definition iso_basic (s : string) : option datetime :=
  obind (take_digits 4 0 s) (fun '(y, s) =>
  obind (expect "-" s) (fun s =>
  obind (take_digits 2 0 s) (fun '(m, s) =>
  obind (expect "-" s) (fun s =>
  obind (take_digits 2 0 s) (fun '(d, s) =>
  obind (expect "T" s) (fun s =>
  obind (take_digits 2 0 s) (fun '(hh, s) =>
  obind (expect ":" s) (fun s =>
  obind (take_digits 2 0 s) (fun '(mi, s) =>
  obind (expect ":" s) (fun s =>
  obind (take_digits 2 0 s) (fun '(ss, s) =>
  obind (parse_offset s) (fun tz =>
  if (1 <=? y) && (1 <=? m) && (m <=? 12) && (1 <=? d)
     && (d <=? days_in_month y m) && (hh <? 24) && (mi <? 60) && (ss <? 60)
  then Some {| wall := ((days_from_civil y m d * 24 + hh) * 60 + mi) * 60000000
                       + ss * 1000000;
               tzinfo := tz |}
  else None)))))))))))).

(** ** Records the loop cannot read, and records it drops *)

(** A record the loop of line 61 fails on: it is not an object, or its
    [state] is there and is not an object. *)
Definition unreadable (sensor_info : pyval) : bool :=
  match sensor_info with
  | PDict d =>
      match lookup "state" d with
      | None | Some (PDict _) => false
      | Some _ => true
      end
  | _ => true
  end.

(** A record of one of the two types that reach no list. *)
Definition dropped (sensor : sensor_data) : bool :=
  eq_str (type sensor) "Daylight" || eq_str (type sensor) "CLIPGenericStatus".

(** The four lines printed before the answer is looked at. *)
Definition header : list string :=
  [str_mul "=" 80; "HUE SENSOR ACTIVITY"; str_mul "=" 80; ""].

End SensorActivity.

(* ================================================================== *)
(** * list_lights.py *)
(* ================================================================== *)

Module ListLights.

Definition BRIDGE_IP : string := "192.168.68.62".

(** [int(bri/254*100)] for an int: the true division gives a double (or
    raises OverflowError), the product by 100 is rounded again (past the
    largest double it is an infinity, which [int] refuses with
    OverflowError), and [int] cuts towards zero. *)
Definition int_percent (bri : Z) : res Z :=
  match nearest_double bri 254 with
  | None => raise OverflowError
  | Some (n, d) =>
      match nearest_double (n * 100) d with
      | None => raise OverflowError
      | Some x => ok (int_of_double x)
      end
  end.

Definition percent (bri : pyval) : res Z :=
  match bri with
  | PInt z => int_percent z
  | PBool b => int_percent (Z.b2z b)
  | _ => raise TypeError
  end.

(** Line 44: ["ON" if on else "OFF"]. *)
Definition status (on : pyval) : string :=
  if truthy on then "ON" else "OFF".

(** Line 45: [f"{int(bri/254*100)}%" if on else "N/A"]; the division is
    evaluated only when [on] holds. *)
Definition brightness (on bri : pyval) : res string :=
  if truthy on then
    p <~ percent bri ;;
    ok (str_of_Z p ++ "%")
  else ok "N/A".

(** The body of the loop of line 37. *)
Definition print_light (item : string * pyval) : io unit :=
  let (light_id, light_info) := item in
  name <- lift (get light_info "name" (PStr "Unknown")) ;;
  state <- lift (get light_info "state" (PDict [])) ;;
  on <- lift (get state "on" (PBool false)) ;;
  bri <- lift (get state "bri" (PInt 0)) ;;
  model <- lift (get light_info "modelid" (PStr "Unknown")) ;;
  let status := status on in
  brightness <- lift (brightness on bri) ;;
  print ("ID " ++ light_id ++ ": " ++ str name) ;;;
  print ("  Status: " ++ status) ;;;
  print ("  Brightness: " ++ brightness) ;;;
  print ("  Model: " ++ str model) ;;;
  print "".

(** [list_lights(username)], from the decoded answer of the bridge on. *)
Definition list_lights (lights : pyval) : io unit :=
  print (nl ++ str_mul "=" 60) ;;;
  print ("Hue Lights on Bridge " ++ BRIDGE_IP) ;;;
  print (str_mul "=" 60 ++ nl) ;;;
  l <- lift (items lights) ;;
  for_each print_light l.

End ListLights.

(* ================================================================== *)
(** * The configuration pushes *)
(* ================================================================== *)

Module ConfigPush.

Definition BRIDGE_IP : string := "192.168.68.62".
Definition USERNAME : string := "XuImnzeJIl13QqlovPsgrA1-Un1zSAJk6woHUjbt".

(** The PUT each script sends.  The body is the script's literal
    [{"configuration": new_config}]; nothing below reads it, and it is left
    out.  The bridge is taken to answer: a request that fails to connect
    ends the script with a traceback and is outside the model. *)
Record request : Type := {
  url : string;
  hue_application_key : string
}.

(** What the scripts read of the answer.  [json] is [None] when the body is
    not JSON, that is when [response.json()] raises. *)
Record response : Type := {
  status_code : Z;
  text : string;
  json : option pyval
}.

(** What a script does, in order: the lines it prints and the requests it
    sends. *)
Inductive action : Type :=
| Out (line : string)
| Put (r : request).

Definition behavior_url (behavior_id : string) : string :=
  "https://" ++ BRIDGE_IP ++ "/clip/v2/resource/behavior_instance/"
  ++ behavior_id.

Definition put_request (behavior_id : string) : request :=
  {| url := behavior_url behavior_id; hue_application_key := USERNAME |}.

(** [BEHAVIOR_ID] of the two dimmer scripts and of the outdoor one. *)
Definition dimmer_request : request :=
  put_request "5915920b-c177-4773-b7f1-258e56200338".
Definition outdoor_request : request :=
  put_request "3853720c-0c70-41ee-b2f5-b83a65e39090".

(** The check mark and the ballot cross of [update_outdoor_automation.py],
    in UTF-8. *)
Definition check_mark : string :=
  String (ascii_of_nat 226) (String (ascii_of_nat 156)
    (String (ascii_of_nat 147) "")).
Definition cross_mark : string :=
  String (ascii_of_nat 226) (String (ascii_of_nat 156)
    (String (ascii_of_nat 151) "")).

(** The first line of the error report of [simplify_office_dimmer.py]:
    [f"\n[ERROR] Status: {response.status_code}"]. *)
Definition dimmer_error_line (status : Z) : string :=
  nl ++ "[ERROR] Status: " ++ str_of_Z status.

Section Scripts.

(** [json.dumps(v, indent=2)] *)
Variable json_dumps : pyval -> string.

(** The bridge: the answer to the request. *)
Variable bridge : request -> response.

(** [response.json()] *)
Definition response_json (r : response) : res pyval :=
  match json r with
  | Some v => ok v
  | None => raise ValueError
  end.

(** simplify_office_dimmer.py *)
Definition simplify_office_dimmer : list action * res unit :=
  let req := dimmer_request in
  let before :=
    [Out "Simplifying OfficeDimmer...";
     Out (str_mul "=" 80);
     Out "New configuration:";
     Out "  ON button: Turn on at 100% brightness";
     Out "  OFF button: Turn off";
     Out "  Brighten/Dim buttons: Keep as-is";
     Out (str_mul "=" 80);
     Put req] in
  let response := bridge req in
  if status_code response =? 200 then
    match response_json response with
    | inr v =>
        ((before ++ [Out (nl ++ "[SUCCESS] OfficeDimmer simplified!");
                     Out (json_dumps v)])%list, ok tt)
    | inl e =>
        ((before ++ [Out (nl ++ "[SUCCESS] OfficeDimmer simplified!")])%list,
         raise e)
    end
  else
    ((before ++ [Out (dimmer_error_line (status_code response));
                 Out (text response)])%list, ok tt).

(** simplify_office_v2.py *)
Definition simplify_office_v2 : list action * res unit :=
  let req := dimmer_request in
  let before :=
    [Out "Simplifying OfficeDimmer...";
     Out (str_mul "=" 80);
     Put req] in
  let response := bridge req in
  if status_code response =? 200 then
    ((before ++ [Out "[SUCCESS] OfficeDimmer simplified!";
                 Out "  ON button: Turn all lights ON at 100%";
                 Out "  OFF button: Turn all lights OFF";
                 Out "  Brighten/Dim: Still work"])%list, ok tt)
  else
    ((before ++ [Out ("[ERROR] Status: " ++ str_of_Z (status_code response));
                 Out (take_chars 500 (text response))])%list, ok tt).

(** update_outdoor_automation.py *)
Definition update_outdoor_automation : list action * res unit :=
  let req := outdoor_request in
  let before :=
    [Out "Updating outdoor sensor automation...";
     Out (str_mul "=" 80);
     Out "New behavior:";
     Out "  - Active 24/7 (00:00-00:00)";
     Out "  - Only triggers when DARK (based on light sensor)";
     Out "  - On motion: Turn on Bright scenes in Kitchen/hall/Outside";
     Out "  - After 10 min no motion: Return to PREVIOUS STATE";
     Out (str_mul "=" 80);
     Put req] in
  let response := bridge req in
  if status_code response =? 200 then
    match response_json response with
    | inr v =>
        ((before ++ [Out (nl ++ check_mark
                          ++ " Automation updated successfully!");
                     Out (json_dumps v)])%list, ok tt)
    | inl e =>
        ((before ++ [Out (nl ++ check_mark
                          ++ " Automation updated successfully!")])%list,
         raise e)
    end
  else
    ((before ++ [Out (nl ++ cross_mark ++ " Error: "
                      ++ str_of_Z (status_code response));
                 Out (text response)])%list, ok tt).

End Scripts.

(** The requests a run sends and the lines it prints. *)
Definition sent (t : list action) : list request :=
  flat_map (fun a => match a with Put r => [r] | Out _ => [] end) t.

Definition printed (t : list action) : list string :=
  flat_map (fun a => match a with Out s => [s] | Put _ => [] end) t.

(** The lines printed once the request is sent: the report on its answer. *)
Fixpoint after_put (t : list action) : list string :=
  match t with
  | [] => []
  | Put _ :: t' => printed t'
  | Out _ :: t' => after_put t'
  end.

End ConfigPush.

(* ================================================================== *)
(** * lounge_color_loop.py: the passes of the loop *)
(* ================================================================== *)

Module ColorLoopTrace.

Import ColorLoop.

(** Pass [n] of a loop that started at [hue]: lines 49 to 58. *)
Definition pass_events {float : Type} (speed : number float) (hue : Z)
    (n : nat) : list (event (number float)) :=
  let h := Nat.iter n next_hue hue in
  (map (fun light_id => set_light_color light_id h 254 254) LOUNGE_COLOR_LIGHTS
   ++ [Print ("Color: " ++ get_color_name h ++ " (hue: " ++ str_of_Z h ++ ")");
       Sleep speed])%list.

(** Lines 45 and 46, on the way out. *)
Definition duration_reached {float : Type} : list (event (number float)) :=
  [Print (nl ++ "Duration reached. Stopping color loop.")].

End ColorLoopTrace.

(* ================================================================== *)
(** * lounge_color_loop.py: a run whose calls can raise *)
(* ================================================================== *)

(** [ColorLoop.loop] is the run in which every PUT is answered with JSON and
    every [time.sleep] returns.  Here each of the two calls can raise, and
    [color_loop], whose [except] names KeyboardInterrupt only, lets the
    exception through: it ends the script. *)

Module ColorLoopRun.

Import ColorLoop.

(** How a run watched for a number of passes has ended: not yet, by the
    [break] of line 46, or on an exception. *)
Inductive ending : Type :=
| Running
| Stopped
| Raised (e : exn).

Section Run.

Variable float : Type.
Variable float_of_str : string -> option float.
Variable str_of_float : float -> string.
Variable clock : nat -> Q.

(** [time.sleep(speed)]: [Some e] when it raises, which it does with
    ValueError on a negative speed or a NaN and with OverflowError on a
    speed too large; [None] when it returns. *)
Variable sleep_raises : number float -> option exn.

(** The PUT number [n] of the run, counted from 0: [Some e] when
    [requests.put] raises (RequestException) or [response.json()] does
    (ValueError, for an answer that is not JSON), [None] when
    [set_light_color] returns. *)
Variable put_raises : nat -> option exn.

(** Lines 49 and 50, from PUT number [sent] on: the calls of
    [set_light_color] made, and the exception that cut the loop short. *)
Fixpoint set_lights (lights : list Z) (hue : Z) (sent : nat)
  : list (event (number float)) * option exn :=
  match lights with
  | [] => ([], None)
  | light_id :: rest =>
      match put_raises sent with
      | Some e => ([set_light_color light_id hue 254 254], Some e)
      | None =>
          let '(calls, r) := set_lights rest hue (S sent) in
          (set_light_color light_id hue 254 254 :: calls, r)
      end
  end.

(** The [while True] of [color_loop], watched for [fuel] passes.  An event
    is a call: a [PutState] or a [Sleep] that raises is still in the trace,
    as its last event.  An interrupt from the keyboard comes from outside
    and is not part of the model. *)
Fixpoint loop (fuel : nat) (duration_seconds : option Z)
    (speed : number float) (start_time : Q) (reads sent : nat) (hue : Z)
  : list (event (number float)) * ending :=
  match fuel with
  | O => ([], Running)
  | S fuel' =>
      let '(stop, reads') := exceeded clock duration_seconds start_time reads in
      if stop then
        ([Print (nl ++ "Duration reached. Stopping color loop.")], Stopped)
      else
        match set_lights LOUNGE_COLOR_LIGHTS hue sent with
        | (calls, Some e) => (calls, Raised e)
        | (calls, None) =>
            let pass :=
              (calls
               ++ [Print ("Color: " ++ get_color_name hue
                          ++ " (hue: " ++ str_of_Z hue ++ ")");
                   Sleep speed])%list in
            match sleep_raises speed with
            | Some e => (pass, Raised e)
            | None =>
                let '(rest, r) :=
                  loop fuel' duration_seconds speed start_time reads'
                       (sent + List.length LOUNGE_COLOR_LIGHTS)
                       (next_hue hue) in
                ((pass ++ rest)%list, r)
            end
        end
  end.

(** [color_loop(duration_seconds=None, speed=2)] *)
Definition color_loop (fuel : nat) (duration_seconds : option Z)
    (speed : number float) : list (event (number float)) * ending :=
  let banner :=
    [Print ("Starting color loop for lounge lights (IDs: "
            ++ str (PList (map PInt LOUNGE_COLOR_LIGHTS)) ++ ")");
     Print ("Speed: " ++ str_of_number str_of_float speed
            ++ " seconds per color change");
     Print (match duration_seconds with
            | Some d =>
                if truthy (PInt d)
                then "Duration: " ++ str_of_Z d ++ " seconds"
                else "Duration: Forever (press Ctrl+C to stop)"
            | None => "Duration: Forever (press Ctrl+C to stop)"
            end);
     Print ""] in
  let start_time := clock 0 in
  let '(trace, r) := loop fuel duration_seconds speed start_time 1 0 0 in
  ((banner ++ trace)%list, r).

(** The [__main__] block. *)
Definition main (fuel : nat) (argv : list string)
  : list (event (number float)) * ending :=
  let '(out1, speed) := parse_speed float_of_str argv in
  let '(out2, duration) := parse_duration float argv in
  let '(trace, r) := color_loop fuel duration speed in
  ((out1 ++ out2
    ++ [Print (str_mul "=" 50); Print "LOUNGE LIGHTS COLOR LOOP";
        Print (str_mul "=" 50)]
    ++ trace)%list, r).

End Run.

Arguments set_lights {float} put_raises lights hue sent.
Arguments loop {float} clock sleep_raises put_raises fuel duration_seconds
  speed start_time reads sent hue.
Arguments color_loop {float} str_of_float clock sleep_raises put_raises fuel
  duration_seconds speed.
Arguments main {float} float_of_str str_of_float clock sleep_raises put_raises
  fuel argv.

End ColorLoopRun.

(* ================================================================== *)
(** * list_lights.py: [create_user] and the [__main__] block *)
(* ================================================================== *)

Module LightsScript.

(** What subscripting and [in] can raise. *)
Inductive error : Type :=
| KeyError
| TypeError.

(** [k in s] for two strs: [k] occurs in [s]. *)
Fixpoint occurs (k s : string) : bool :=
  String.prefix k s
  || match s with
     | EmptyString => false
     | String _ s' => occurs k s'
     end.

(** ["lit" in v] *)
Definition contains_lit (lit : string) (v : pyval) : error + bool :=
  match v with
  | PDict d => inr (match lookup lit d with Some _ => true | None => false end)
  | PStr s => inr (occurs lit s)
  | PList l => inr (existsb (fun x => eq_str x lit) l)
  | _ => inl TypeError
  end.

(** [v["lit"]] *)
Definition subscript (v : pyval) (lit : string) : error + pyval :=
  match v with
  | PDict d =>
      match lookup lit d with
      | Some x => inr x
      | None => inl KeyError
      end
  | _ => inl TypeError
  end.

(** [v["a"]["b"]] *)
Definition subscript2 (v : pyval) (a b : string) : error + pyval :=
  match subscript v a with
  | inr x => subscript x b
  | inl e => inl e
  end.

Definition check_mark : string := ConfigPush.check_mark.
Definition cross_mark : string := ConfigPush.cross_mark.

Section CreateUser.

(** [json.dumps(v, indent=2)] *)
Variable json_dumps : pyval -> string.

(** [create_user()], from the decoded answer to its POST on: the lines
    printed, then the value returned or the exception raised. *)
Definition create_user (result : pyval) : list string * (error + pyval) :=
  let dump := json_dumps result in
  match result with
  | PList (first :: _) =>
      match contains_lit "success" first with
      | inl e => ([dump], inl e)
      | inr true =>
          match subscript2 first "success" "username" with
          | inl e => ([dump], inl e)
          | inr username =>
              ([dump;
                nl ++ check_mark ++ " Success! Your API username is: "
                   ++ str username;
                "Save this for future use!"], inr username)
          end
      | inr false =>
          match contains_lit "error" first with
          | inl e => ([dump], inl e)
          | inr true =>
              match subscript2 first "error" "description" with
              | inl e => ([dump], inl e)
              | inr description =>
                  ([dump; nl ++ cross_mark ++ " Error: " ++ str description],
                   inr PNone)
              end
          | inr false => ([dump], inr PNone)
          end
      end
  | _ => ([dump], inr PNone)
  end.

(** What a run of the script does, in order. *)
Inductive action : Type :=
| Out (line : string)
| Get (url : string)
| Post (url : string).

(** How a run ends. *)
Inductive ending : Type :=
| Done
| Raised (e : exn)
| RaisedLookup (e : error).

Definition lights_url (username : string) : string :=
  "http://" ++ ListLights.BRIDGE_IP ++ "/api/" ++ username ++ "/lights".

Definition api_url : string := "http://" ++ ListLights.BRIDGE_IP ++ "/api".

Definition usage : list string :=
  ["No API username provided.";
   nl ++ "To create a new user:";
   "1. Press the link button on your Hue Bridge";
   "2. Run: python list_lights.py create";
   nl ++ "To list lights with existing username:";
   "   python list_lights.py YOUR_USERNAME"].

(** The bridge: the decoded answer to [GET /api/<username>/lights], and the
    decoded answer to [POST /api]. *)
Variable get_lights : string -> pyval.
Variable post_api : pyval.

(** The [__main__] block on [sys.argv]. *)
Definition main (argv : list string) : list action * ending :=
  if (1 <? List.length argv)%nat then
    let username := nth 1 argv "" in
    let (out, r) := ListLights.list_lights (get_lights username) in
    (Get (lights_url username) :: map Out out,
     match r with
     | inr _ => Done
     | inl e => Raised e
     end)
  else
    if (1 <? List.length argv)%nat && (nth 1 argv "" =? "create")%string then
      let (out, r) := create_user post_api in
      ((map Out usage ++ Post api_url :: map Out out)%list,
       match r with
       | inr _ => Done
       | inl e => RaisedLookup e
       end)
    else (map Out usage, Done).

End CreateUser.

(** The requests of a run. *)
Definition is_request (a : action) : bool :=
  match a with
  | Out _ => false
  | Get _ | Post _ => true
  end.

(** A light record [print_light] goes through: an object whose [state],
    where present, is an object, and whose [bri] has a percentage when the
    light is on. *)
Definition printable (light_info : pyval) : bool :=
  match light_info with
  | PDict d =>
      match get_or "state" d (PDict []) with
      | PDict st =>
          negb (truthy (get_or "on" st (PBool false)))
          || match ListLights.percent (get_or "bri" st (PInt 0)) with
             | inr _ => true
             | inl _ => false
             end
      | _ => false
      end
  | _ => false
  end.

(** The three lines [list_lights] prints first. *)
Definition banner : list string :=
  [nl ++ str_mul "=" 60;
   "Hue Lights on Bridge " ++ ListLights.BRIDGE_IP;
   str_mul "=" 60 ++ nl].

End LightsScript.

(* ================================================================== *)
(** * Properties of the rounding *)
(* ================================================================== *)

Section Rounding.

Lemma round_half_even_ge (p q k : Z) :
  0 < q -> k * q <= p -> k <= round_half_even p q.
Proof.
  intros Hq Hk. unfold round_half_even.
  assert (Hf : k <= p / q) by (apply Z.div_le_lower_bound; lia).
  destruct (2 * (p mod q) <? q); [exact Hf |].
  destruct (q <? 2 * (p mod q)); [lia |].
  destruct (Z.even (p / q)); lia.
Qed.

Lemma round_half_even_half (p q : Z) :
  0 < q -> 2 * (round_half_even p q * q) <= 2 * p + q.
Proof.
  intros Hq. unfold round_half_even.
  pose proof (Z.div_mod p q ltac:(lia)) as Hdm.
  pose proof (Z.mod_pos_bound p q Hq) as Hr.
  set (f := p / q) in *. set (r := p mod q) in *.
  assert (Hp : f * q = p - r) by lia.
  destruct (Z.ltb_spec (2 * r) q); [lia |].
  destruct (Z.ltb_spec q (2 * r)); [lia |].
  destruct (Z.even f); lia.
Qed.

Lemma binary_exponent_le (n d : Z) :
  binary_exponent n d <= Z.log2 n - Z.log2 d.
Proof.
  unfold binary_exponent.
  destruct (if 0 <=? Z.log2 n - Z.log2 d
            then d * 2 ^ (Z.log2 n - Z.log2 d) <=? n
            else d <=? n * 2 ^ (- (Z.log2 n - Z.log2 d))); lia.
Qed.

Lemma nearest_double_pos_sign (n d num den : Z) :
  0 < n -> 0 < d -> nearest_double_pos n d = Some (num, den) ->
  0 <= num /\ 0 < den.
Proof.
  intros Hn Hd. unfold nearest_double_pos.
  set (e := Z.max (binary_exponent n d - 52) (-1074)).
  destruct (Z.leb_spec 0 e) as [He | He].
  - assert (0 < 2 ^ e) by (apply Z.pow_pos_nonneg; lia).
    pose proof (round_half_even_ge n (d * 2 ^ e) 0 ltac:(nia) ltac:(lia)).
    destruct (2 ^ 1024 * 1 <=? round_half_even n (d * 2 ^ e) * 2 ^ e);
      [discriminate |].
    intros E. injection E as <- <-. split; nia.
  - assert (0 < 2 ^ (- e)) by (apply Z.pow_pos_nonneg; lia).
    pose proof (round_half_even_ge (n * 2 ^ (- e)) d 0 Hd ltac:(nia)).
    destruct (2 ^ 1024 * 2 ^ (- e) <=? round_half_even (n * 2 ^ (- e)) d);
      [discriminate |].
    intros E. injection E as <- <-. split; lia.
Qed.

(** A double is under 2^1024. *)
Lemma nearest_double_pos_finite (n d num den : Z) :
  nearest_double_pos n d = Some (num, den) -> num < 2 ^ 1024 * den.
Proof.
  unfold nearest_double_pos.
  destruct (if 0 <=? Z.max (binary_exponent n d - 52) (-1074)
            then (round_half_even n
                    (d * 2 ^ Z.max (binary_exponent n d - 52) (-1074))
                  * 2 ^ Z.max (binary_exponent n d - 52) (-1074), 1)
            else (round_half_even
                    (n * 2 ^ (- Z.max (binary_exponent n d - 52) (-1074))) d,
                  2 ^ (- Z.max (binary_exponent n d - 52) (-1074))))
    as [a b].
  destruct (Z.leb_spec (2 ^ 1024 * b) a); [discriminate |].
  intros E. injection E as <- <-. assumption.
Qed.

Lemma binary_exponent_lt (n d T : Z) :
  0 < n -> 0 < d -> 0 <= T -> n < 2 ^ T * d -> binary_exponent n d < T.
Proof.
  intros Hn Hd HT Hlt.
  pose proof (binary_exponent_le n d) as Hle.
  pose proof (Z.log2_spec d Hd) as [_ Hhi].
  pose proof (Z.log2_nonneg d) as Hb.
  assert (Hlog : Z.log2 n < T + Z.log2 d + 1).
  { apply Z.log2_lt_pow2; [exact Hn |].
    replace (T + Z.log2 d + 1) with (T + Z.succ (Z.log2 d)) by lia.
    rewrite Z.pow_add_r by lia.
    assert (0 < 2 ^ T) by (apply Z.pow_pos_nonneg; lia).
    nia. }
  destruct (Z.lt_ge_cases (Z.log2 n - Z.log2 d) T) as [H | H]; [lia |].
  assert (E : Z.log2 n - Z.log2 d = T) by lia.
  unfold binary_exponent. rewrite E.
  destruct (Z.leb_spec 0 T); [| lia].
  destruct (Z.leb_spec (d * 2 ^ T) n); lia.
Qed.

(** A quotient under 2^1023 has a double. *)
Lemma nearest_double_pos_some (n d : Z) :
  0 < n -> 0 < d -> n < 2 ^ 1023 * d -> nearest_double_pos n d <> None.
Proof.
  intros Hn Hd Hlt.
  pose proof (binary_exponent_lt n d 1023 Hn Hd ltac:(lia) Hlt) as Ht.
  unfold nearest_double_pos.
  set (e := Z.max (binary_exponent n d - 52) (-1074)).
  assert (He : e < 1023) by lia. clearbody e.
  assert (HB : 2 ^ 1024 = 2 * 2 ^ 1023) by reflexivity.
  set (B := 2 ^ 1024) in *. set (H := 2 ^ 1023) in *.
  assert (HH : 0 < H) by (apply Z.pow_pos_nonneg; lia).
  destruct (Z.leb_spec 0 e) as [H0 | H0].
  - assert (HP : 0 < 2 ^ e) by (apply Z.pow_pos_nonneg; lia).
    assert (HPB : 2 ^ e < H) by (apply Z.pow_lt_mono_r; lia).
    clearbody B H. set (P := 2 ^ e) in *. clearbody P.
    pose proof (round_half_even_half n (d * P) ltac:(nia)) as Hhalf.
    set (m := round_half_even n (d * P)) in *. clearbody m.
    destruct (Z.leb_spec (B * 1) (m * P)) as [Hover | _]; [| discriminate].
    exfalso.
    assert (2 * (m * P) * d <= 2 * n + d * P) by nia.
    assert (2 * B * d <= 2 * (m * P) * d) by nia.
    nia.
  - assert (HP : 0 < 2 ^ (- e)) by (apply Z.pow_pos_nonneg; lia).
    clearbody B H. set (P := 2 ^ (- e)) in *. clearbody P.
    pose proof (round_half_even_half (n * P) d Hd) as Hhalf.
    set (m := round_half_even (n * P) d) in *. clearbody m.
    destruct (Z.leb_spec (B * P) m) as [Hover | _]; [| discriminate].
    exfalso.
    assert (2 * (B * P) * d <= 2 * (m * d)) by nia.
    assert (n * P < H * d * P) by nia.
    nia.
Qed.

(** Rounding does not pass a power of two. *)
Lemma nearest_double_pos_le_pow2 (n d T num den : Z) :
  0 < n -> 0 < d -> 0 <= T -> n < 2 ^ T * d ->
  nearest_double_pos n d = Some (num, den) -> num <= 2 ^ T * den.
Proof.
  intros Hn Hd HT Hlt.
  pose proof (binary_exponent_lt n d T Hn Hd HT Hlt) as Ht.
  unfold nearest_double_pos.
  set (e := Z.max (binary_exponent n d - 52) (-1074)).
  assert (He : e < T) by lia. clearbody e.
  assert (HK : 0 < 2 ^ T) by (apply Z.pow_pos_nonneg; lia).
  destruct (Z.leb_spec 0 e) as [H0 | H0].
  - assert (HP : 0 < 2 ^ e) by (apply Z.pow_pos_nonneg; lia).
    assert (E : 2 ^ T = 2 ^ (T - e) * 2 ^ e).
    { rewrite <- Z.pow_add_r by lia. f_equal. lia. }
    assert (HK' : 0 < 2 ^ (T - e)) by (apply Z.pow_pos_nonneg; lia).
    set (K' := 2 ^ (T - e)) in *. set (K := 2 ^ T) in *.
    set (P := 2 ^ e) in *. clearbody K K' P.
    pose proof (round_half_even_half n (d * P) ltac:(nia)) as Hhalf.
    set (m := round_half_even n (d * P)) in *. clearbody m.
    destruct (2 ^ 1024 * 1 <=? m * P); [discriminate |].
    intros H. injection H as <- <-.
    assert (Hm : m <= K').
    { destruct (Z.le_gt_cases m K') as [Hle | Hgt]; [exact Hle | exfalso].
      assert (2 * ((K' + 1) * (d * P)) <= 2 * (m * (d * P))) by nia.
      nia. }
    nia.
  - assert (HP : 0 < 2 ^ (- e)) by (apply Z.pow_pos_nonneg; lia).
    set (K := 2 ^ T) in *. set (P := 2 ^ (- e)) in *. clearbody K P.
    pose proof (round_half_even_half (n * P) d Hd) as Hhalf.
    set (m := round_half_even (n * P) d) in *. clearbody m.
    destruct (2 ^ 1024 * P <=? m); [discriminate |].
    intros H. injection H as <- <-.
    destruct (Z.le_gt_cases m (K * P)) as [Hle | Hgt]; [exact Hle | exfalso].
    assert (2 * ((K * P + 1) * d) <= 2 * (m * d)) by nia.
    nia.
Qed.

Lemma nearest_double_le_pow2 (t d T n den : Z) :
  0 < d -> 0 <= T -> Z.abs t < 2 ^ T * d ->
  nearest_double t d = Some (n, den) -> Z.abs n <= 2 ^ T * den.
Proof.
  intros Hd HT Hlt. unfold nearest_double.
  destruct (Z.eqb_spec t 0) as [E | E].
  - intros H. injection H as <- <-.
    assert (0 < 2 ^ T) by (apply Z.pow_pos_nonneg; lia). cbn. lia.
  - destruct (nearest_double_pos (Z.abs t) d) as [[a b]|] eqn:En;
      [| discriminate].
    intros H. injection H as <- <-.
    pose proof (nearest_double_pos_sign (Z.abs t) d a b ltac:(lia) Hd En)
      as [Ha Hb].
    pose proof (nearest_double_pos_le_pow2 (Z.abs t) d T a b
                  ltac:(lia) Hd HT Hlt En) as Hle.
    destruct (Z.lt_total t 0) as [Hs | [Hs | Hs]]; [| lia |].
    + rewrite Z.sgn_neg by exact Hs. lia.
    + rewrite Z.sgn_pos by exact Hs. lia.
Qed.

Lemma nearest_double_size (t d n den : Z) :
  0 < d -> nearest_double t d = Some (n, den) ->
  0 < den /\ Z.abs n < 2 ^ 1024 * den.
Proof.
  intros Hd. unfold nearest_double.
  destruct (Z.eqb_spec t 0) as [E | E].
  - intros H. injection H as <- <-. split; reflexivity.
  - destruct (nearest_double_pos (Z.abs t) d) as [[a b]|] eqn:En;
      [| discriminate].
    intros H. injection H as <- <-.
    pose proof (nearest_double_pos_sign (Z.abs t) d a b ltac:(lia) Hd En)
      as [Ha Hb].
    pose proof (nearest_double_pos_finite _ _ _ _ En) as Hfin.
    split; [exact Hb |].
    destruct (Z.lt_total t 0) as [Hs | [Hs | Hs]]; [| lia |].
    + rewrite Z.sgn_neg by exact Hs. lia.
    + rewrite Z.sgn_pos by exact Hs. lia.
Qed.

Lemma nearest_double_some (n d : Z) :
  0 < d -> Z.abs n < 2 ^ 1023 * d -> nearest_double n d <> None.
Proof.
  intros Hd Hn. unfold nearest_double.
  destruct (Z.eqb_spec n 0) as [E | E]; [discriminate |].
  pose proof (nearest_double_pos_some (Z.abs n) d ltac:(lia) Hd Hn) as H.
  destruct (nearest_double_pos (Z.abs n) d) as [[a b]|];
    [discriminate | contradiction].
Qed.

(** The double of a count of microseconds taken as seconds, cut to an
    integer, is the whole seconds of the count or one more; below 2^34
    seconds it is the whole seconds, the nearest doubles being less than
    half a microsecond apart there. *)
Lemma seconds_rounded (n : Z) :
  0 < n -> n < 2 ^ 40 * 1000000 ->
  exists num den,
    nearest_double_pos n 1000000 = Some (num, den) /\
    0 <= num /\ 0 < den /\
    n / 1000000 <= num / den <= n / 1000000 + 1 /\
    (n < 2 ^ 34 * 1000000 -> num / den = n / 1000000).
Proof.
  intros Hn Hmax. unfold nearest_double_pos.
  pose proof (binary_exponent_le n 1000000) as Hle.
  change (Z.log2 1000000) with 19 in Hle.
  assert (Hlog : Z.log2 n < 60).
  { apply Z.log2_lt_pow2; [exact Hn |].
    assert (2 ^ 40 * 1000000 < 2 ^ 60) by reflexivity. lia. }
  assert (Ht : n < 2 ^ 34 * 1000000 -> binary_exponent n 1000000 <= 33).
  { intros Hsmall.
    assert (Hlog' : Z.log2 n < 54).
    { apply Z.log2_lt_pow2; [exact Hn |].
      assert (2 ^ 34 * 1000000 < 2 ^ 54) by reflexivity. lia. }
    destruct (Z.le_gt_cases (Z.log2 n - 19) 33) as [H | H]; [lia |].
    assert (E : Z.log2 n - 19 = 34) by lia.
    unfold binary_exponent. change (Z.log2 1000000) with 19. rewrite E.
    change (0 <=? 34) with true. cbv iota.
    destruct (Z.leb_spec (1000000 * 2 ^ 34) n); lia. }
  set (e := Z.max (binary_exponent n 1000000 - 52) (-1074)) in *.
  assert (He : -1074 <= e <= -12) by lia.
  assert (He' : n < 2 ^ 34 * 1000000 -> e <= -19) by lia.
  clearbody e. clear Ht Hle Hlog.
  destruct (Z.leb_spec 0 e) as [H0 | _]; [lia |].
  set (k := - e) in *.
  assert (Hk : 12 <= k) by lia.
  assert (Hk' : n < 2 ^ 34 * 1000000 -> 19 <= k) by lia.
  clearbody k. clear He He'.
  set (P := 2 ^ k) in *.
  assert (HP : 2 ^ 12 <= P) by (apply Z.pow_le_mono_r; lia).
  assert (HP' : n < 2 ^ 34 * 1000000 -> 2 ^ 19 <= P).
  { intros Hs. apply Z.pow_le_mono_r; [lia | exact (Hk' Hs)]. }
  change (2 ^ 12) with 4096 in HP. change (2 ^ 19) with 524288 in HP'.
  clearbody P.
  set (q := n / 1000000) in *.
  pose proof (Z.div_mod n 1000000 ltac:(lia)) as Hdm.
  pose proof (Z.mod_pos_bound n 1000000 ltac:(lia)) as Hr.
  fold q in Hdm.
  assert (Hq0 : 0 <= q) by (apply Z.div_pos; lia).
  assert (Hq : q < 2 ^ 40) by (apply Z.div_lt_upper_bound; lia).
  set (m := round_half_even (n * P) 1000000).
  assert (Hlo : q * P <= m).
  { apply round_half_even_ge; [lia |]. nia. }
  pose proof (round_half_even_half (n * P) 1000000 ltac:(lia)) as Hhi.
  fold m in Hhi. clearbody m.
  assert (Hup : m <= (q + 1) * P) by nia.
  assert (Hup' : n < 2 ^ 34 * 1000000 -> m < (q + 1) * P).
  { intros Hs. specialize (HP' Hs). nia. }
  assert (Hbig : 2 ^ 40 < 2 ^ 1024) by (apply Z.pow_lt_mono_r; lia).
  set (B := 2 ^ 1024) in *. clearbody B.
  destruct (Z.leb_spec (B * P) m) as [Hover | _]; [nia |].
  exists m, P. split; [reflexivity |].
  split; [nia |]. split; [lia |]. split.
  - split.
    + apply Z.div_le_lower_bound; lia.
    + apply Z.div_le_upper_bound; lia.
  - intros Hs. specialize (Hup' Hs).
    symmetry. apply Z.div_unique with (r := m - q * P); lia.
Qed.

End Rounding.

(* ================================================================== *)
(** * Properties of the color loop *)
(* ================================================================== *)

Section ColorLoopFacts.

Import ColorLoop.

Lemma band_of_hue (x : Z) :
  0 <= x < 65535 ->
  exists k lo hi,
    nth_error bands k = Some (lo, hi, get_color_name x) /\ lo <= x < hi.
Proof.
  intros Hx. unfold get_color_name.
  destruct (Z.ltb_spec x 3000); [exists 0%nat, 0, 3000; simpl; split; [reflexivity | lia] |].
  destruct (Z.ltb_spec x 8000); [exists 1%nat, 3000, 8000; simpl; split; [reflexivity | lia] |].
  destruct (Z.ltb_spec x 16000); [exists 2%nat, 8000, 16000; simpl; split; [reflexivity | lia] |].
  destruct (Z.ltb_spec x 30000); [exists 3%nat, 16000, 30000; simpl; split; [reflexivity | lia] |].
  destruct (Z.ltb_spec x 40000); [exists 4%nat, 30000, 40000; simpl; split; [reflexivity | lia] |].
  destruct (Z.ltb_spec x 48000); [exists 5%nat, 40000, 48000; simpl; split; [reflexivity | lia] |].
  destruct (Z.ltb_spec x 54000); [exists 6%nat, 48000, 54000; simpl; split; [reflexivity | lia] |].
  exists 7%nat, 54000, 65535; simpl; split; [reflexivity | lia].
Qed.

(** A position of [bands] is one of the eight. *)
Lemma bands_index (k : nat) (b : Z * Z * string) :
  nth_error bands k = Some b ->
  (k = 0%nat /\ b = (0, 3000, "Red")) \/
  (k = 1%nat /\ b = (3000, 8000, "Orange")) \/
  (k = 2%nat /\ b = (8000, 16000, "Yellow")) \/
  (k = 3%nat /\ b = (16000, 30000, "Green")) \/
  (k = 4%nat /\ b = (30000, 40000, "Cyan")) \/
  (k = 5%nat /\ b = (40000, 48000, "Blue")) \/
  (k = 6%nat /\ b = (48000, 54000, "Purple")) \/
  (k = 7%nat /\ b = (54000, 65535, "Pink")).
Proof.
  do 8 (destruct k as [|k]; [simpl; intros H; inversion H; tauto |]).
  destruct k; discriminate.
Qed.

Ltac band_cases H :=
  apply bands_index in H;
  repeat (destruct H as [H | H]);
  destruct H as [? H]; inversion H; subst; clear H.

Lemma bands_label_unique (j k : nat) (lo hi lo' hi' : Z) (name : string) :
  nth_error bands j = Some (lo, hi, name) ->
  nth_error bands k = Some (lo', hi', name) ->
  j = k.
Proof.
  intros Hj Hk.
  band_cases Hj; band_cases Hk; reflexivity || discriminate.
Qed.

Lemma bands_ordered (j k : nat) (lo hi lo' hi' : Z) (n n' : string) (x y : Z) :
  nth_error bands j = Some (lo, hi, n) ->
  nth_error bands k = Some (lo', hi', n') ->
  lo <= x < hi -> lo' <= y < hi' -> x <= y ->
  (j <= k)%nat.
Proof.
  intros Hj Hk Hx Hy Hxy.
  band_cases Hj; band_cases Hk; lia.
Qed.

(** C4.  On [0, 65535) the color name of a hue is the label of exactly one
    of the eight bands cut at 0, 3000, 8000, 16000, 30000, 40000, 48000 and
    54000, namely the band the hue lies in; a larger hue never gets an
    earlier band; and hues 0 and 2999 are "Red", 3000 is "Orange", 65534 is
    "Pink". *)
Theorem get_color_name_step (h h' : Z) :
  0 <= h -> h <= h' -> h' < 65535 ->
  (exists k lo hi,
      nth_error bands k = Some (lo, hi, get_color_name h) /\
      lo <= h < hi /\
      forall j lo' hi',
        nth_error bands j = Some (lo', hi', get_color_name h) -> j = k) /\
  (exists k k' lo hi lo' hi',
      nth_error bands k = Some (lo, hi, get_color_name h) /\
      nth_error bands k' = Some (lo', hi', get_color_name h') /\
      (k <= k')%nat) /\
  List.length bands = 8%nat /\
  get_color_name 0 = "Red" /\
  get_color_name 2999 = "Red" /\
  get_color_name 3000 = "Orange" /\
  get_color_name 65534 = "Pink".
Proof.
  intros H0 Hle Hmax.
  destruct (band_of_hue h) as (k & lo & hi & Hk & Hin); [lia |].
  destruct (band_of_hue h') as (k' & lo' & hi' & Hk' & Hin'); [lia |].
  split; [| split].
  - exists k, lo, hi. repeat split; try assumption; try lia.
    intros j l u Hj. exact (bands_label_unique _ _ _ _ _ _ _ Hj Hk).
  - exists k, k', lo, hi, lo', hi'. repeat split; try assumption.
    exact (bands_ordered _ _ _ _ _ _ _ _ _ _ Hk Hk' Hin Hin' Hle).
  - repeat split; reflexivity.
Qed.

Lemma get_color_name_step_witness :
  (exists k lo hi,
      nth_error bands k = Some (lo, hi, get_color_name 2999) /\
      lo <= 2999 < hi /\
      forall j lo' hi',
        nth_error bands j = Some (lo', hi', get_color_name 2999) -> j = k) /\
  (exists k k' lo hi lo' hi',
      nth_error bands k = Some (lo, hi, get_color_name 2999) /\
      nth_error bands k' = Some (lo', hi', get_color_name 3000) /\
      (k <= k')%nat) /\
  List.length bands = 8%nat /\
  get_color_name 0 = "Red" /\
  get_color_name 2999 = "Red" /\
  get_color_name 3000 = "Orange" /\
  get_color_name 65534 = "Pink".
Proof.
  apply (get_color_name_step 2999 3000); lia.
Defined.

(** ** The hue counter *)

Lemma next_hue_range (h : Z) : 0 <= next_hue h < 65535.
Proof. unfold next_hue. apply Z.mod_pos_bound. lia. Qed.

Lemma iter_next_hue_range (n : nat) : 0 <= Nat.iter n next_hue 0 < 65535.
Proof.
  destruct n as [|n]; simpl; [lia | apply next_hue_range].
Qed.

Variable float : Type.
Variable float_of_str : string -> option float.
Variable str_of_float : float -> string.
Variable clock : nat -> Q.

Lemma pass_puts_shift (hue : Z) (l : list nat) :
  flat_map (pass_puts float hue) (map S l)
  = flat_map (pass_puts float (next_hue hue)) l.
Proof.
  induction l as [|n l IH]; [reflexivity |].
  cbn [flat_map map]. rewrite IH. f_equal.
  unfold pass_puts. rewrite Nat.iter_succ_r. reflexivity.
Qed.

(** The state updates of a run are those of its first [m] passes, the hue
    moving by [next_hue] from pass to pass. *)
Lemma loop_S (fuel : nat) (duration : option Z) (speed : number float)
    (start_time : Q) (reads : nat) (hue : Z) :
  loop clock (S fuel) duration speed start_time reads hue
  = let '(stop, reads') := exceeded clock duration start_time reads in
    if stop then
      ([Print (nl ++ "Duration reached. Stopping color loop.")], true)
    else
      let '(rest, broke) :=
        loop clock fuel duration speed start_time reads' (next_hue hue) in
      ((pass_puts float hue 0
        ++ [Print ("Color: " ++ get_color_name hue
                   ++ " (hue: " ++ str_of_Z hue ++ ")");
            Sleep speed]
        ++ rest)%list, broke).
Proof. reflexivity. Qed.

Lemma loop_puts (fuel : nat) (duration : option Z) (speed : number float)
    (start_time : Q) (reads : nat) (hue : Z) :
  exists m, (m <= fuel)%nat /\
    puts (fst (loop clock fuel duration speed start_time reads hue))
    = flat_map (pass_puts float hue) (seq 0 m).
Proof.
  revert reads hue.
  induction fuel as [|fuel IH]; intros reads hue.
  - exists 0%nat. split; [lia | reflexivity].
  - rewrite loop_S.
    destruct (exceeded clock duration start_time reads) as [[|] reads'].
    + exists 0%nat. split; [lia | reflexivity].
    + destruct (IH reads' (next_hue hue)) as (m & Hm & Hputs).
      destruct (loop clock fuel duration speed start_time reads' (next_hue hue))
        as [rest broke].
      exists (S m). split; [lia |].
      simpl in Hputs. cbn [fst seq flat_map].
      rewrite <- seq_shift, pass_puts_shift, <- Hputs.
      reflexivity.
Qed.

(** C5.  Each pass of the loop replaces the hue by [(hue + 5000) mod 65535]:
    the lights of pass [n] are sent the [n]-th iterate from 0, whatever the
    duration and the clock.  Every iterate lies in [0, 65535), so none is
    negative; the 14th is the first to wrap, to 4465. *)
Theorem hue_advance_in_range (fuel : nat) (duration : option Z)
    (speed : number float) (n : nat) :
  (forall h, next_hue h = (h + 5000) mod 65535) /\
  (exists m, (m <= fuel)%nat /\
     puts (fst (color_loop str_of_float clock fuel duration speed))
     = flat_map (pass_puts float 0) (seq 0 m)) /\
  0 <= Nat.iter n next_hue 0 < 65535 /\
  Nat.iter 13 next_hue 0 = 65000 /\
  Nat.iter 14 next_hue 0 = 4465.
Proof.
  split; [reflexivity |].
  split.
  - unfold color_loop.
    destruct (loop_puts fuel duration speed (clock 0) 1 0) as (m & Hm & Hputs).
    destruct (loop clock fuel duration speed (clock 0) 1 0) as [trace broke].
    exists m. split; [exact Hm |].
    simpl in Hputs |- *. exact Hputs.
  - split; [apply iter_next_hue_range |].
    split; reflexivity.
Qed.

(** ** The duration *)

Lemma loop_zero_duration (fuel : nat) (speed : number float)
    (start_time : Q) (reads : nat) (hue : Z) :
  snd (loop clock fuel (Some 0) speed start_time reads hue) = false /\
  List.length (puts (fst (loop clock fuel (Some 0) speed start_time reads hue)))
  = (2 * fuel)%nat.
Proof.
  revert reads hue.
  induction fuel as [|fuel IH]; intros reads hue; [split; reflexivity |].
  rewrite loop_S. cbn [exceeded truthy Z.eqb negb].
  destruct (IH reads (next_hue hue)) as [Hb Hl].
  destruct (loop clock fuel (Some 0) speed start_time reads (next_hue hue))
    as [rest broke].
  simpl in Hb, Hl |- *. split; [exact Hb |]. rewrite Hl. lia.
Qed.

(** C1, on the code: with the duration 0 given on the command line the loop
    never takes its [break]; after [fuel] passes it has sent [2 * fuel]
    state updates and is still running. *)
Theorem color_loop_zero_duration_runs_on (fuel : nat) :
  parse_duration float ["lounge_color_loop.py"; "2"; "0"]
  = ([], Some 0) /\
  snd (main float_of_str str_of_float clock fuel
         ["lounge_color_loop.py"; "2"; "0"]) = false /\
  List.length (puts (fst (main float_of_str str_of_float clock fuel
                            ["lounge_color_loop.py"; "2"; "0"])))
  = (2 * fuel)%nat.
Proof.
  split; [reflexivity |].
  unfold main, parse_speed, parse_duration.
  change (py_int "0") with (Some 0). cbv iota beta.
  assert (H : forall speed out,
             puts out = [] ->
             let '(trace, broke) :=
               color_loop str_of_float clock fuel (Some 0) speed in
             broke = false /\
             List.length (puts (out ++ trace)) = (2 * fuel)%nat).
  { intros speed out Hout. unfold color_loop.
    destruct (loop_zero_duration fuel speed (clock 0) 1 0) as [Hb Hl].
    destruct (loop clock fuel (Some 0) speed (clock 0) 1 0) as [t b].
    cbn [fst snd] in Hb, Hl. split; [exact Hb |].
    unfold puts in *. rewrite !filter_app, Hout. exact Hl. }
  destruct (float_of_str "2") as [x|].
  - specialize (H (NFloat x) [Print (str_mul "=" 50);
                               Print "LOUNGE LIGHTS COLOR LOOP";
                               Print (str_mul "=" 50)] eq_refl).
    destruct (color_loop str_of_float clock fuel (Some 0) (NFloat x)).
    exact H.
  - specialize (H (NInt 2)
                  [Print "Invalid speed value. Using default: 2 seconds";
                   Print (str_mul "=" 50);
                   Print "LOUNGE LIGHTS COLOR LOOP";
                   Print (str_mul "=" 50)] eq_refl).
    destruct (color_loop str_of_float clock fuel (Some 0) (NInt 2)).
    exact H.
Qed.

(** The rounded difference of two readings keeps the sign of the exact
    one: it is past a negative duration as soon as the clock has not gone
    back. *)
Lemma float_sub_gt_negative (a b : Q) (d : Z) :
  (b <= a)%Q -> d < 0 -> float_sub_gt a b d = true.
Proof.
  intros Hba Hd. unfold float_sub_gt.
  assert (Hq : 0 <= Qnum (a - b)).
  { assert (H : (0 <= a - b)%Q) by lra.
    unfold Qle in H. cbn [Qnum Qden] in H. lia. }
  assert (Hneg : (inject_Z d < 0)%Q) by (rewrite (Zlt_Qlt d 0) in Hd; exact Hd).
  assert (Hgt : forall num den, 0 <= num -> 0 < den ->
                  Qgt_bool (num # Z.to_pos den) (inject_Z d) = true).
  { intros num den Hnum Hden. unfold Qgt_bool. apply negb_true_iff.
    destruct (Qle_bool (num # Z.to_pos den) (inject_Z d)) eqn:E; [| reflexivity].
    apply Qle_bool_iff in E.
    assert (0 <= num # Z.to_pos den)%Q by (unfold Qle; cbn [Qnum Qden]; lia).
    lra. }
  unfold nearest_double.
  destruct (Z.eqb_spec (Qnum (a - b)) 0) as [E | E].
  - apply Hgt; lia.
  - rewrite Z.abs_eq by exact Hq.
    destruct (nearest_double_pos (Qnum (a - b)) (Z.pos (Qden (a - b))))
      as [[num den]|] eqn:En.
    + apply nearest_double_pos_sign in En; [| lia | lia].
      rewrite Z.sgn_pos by lia. rewrite Z.mul_1_l. apply Hgt; tauto.
    + apply Z.ltb_lt. lia.
Qed.

(** A negative duration does stop the loop at its first check, before any
    state update, as long as the clock has not gone back since the start. *)
Lemma color_loop_negative_duration_stops (fuel : nat) (d : Z)
    (speed : number float) :
  d < 0 -> (clock 0 <= clock 1)%Q ->
  snd (color_loop str_of_float clock (S fuel) (Some d) speed) = true /\
  puts (fst (color_loop str_of_float clock (S fuel) (Some d) speed)) = [].
Proof.
  intros Hd Hclock.
  unfold color_loop. rewrite loop_S. unfold exceeded, truthy.
  assert (Ht : (d =? 0) = false) by (apply Z.eqb_neq; lia).
  rewrite Ht. cbn [negb].
  rewrite (float_sub_gt_negative _ _ d Hclock Hd). split; reflexivity.
Qed.

(** With no duration the loop never takes its [break]. *)
Lemma color_loop_no_duration_runs_on (fuel : nat) (speed : number float) :
  snd (color_loop str_of_float clock fuel None speed) = false.
Proof.
  unfold color_loop.
  assert (H : forall n reads hue,
             snd (loop clock n None speed (clock 0) reads hue) = false).
  { induction n as [|n IH]; intros reads hue; [reflexivity |].
    rewrite loop_S. cbn [exceeded]. specialize (IH reads (next_hue hue)).
    destruct (loop clock n None speed (clock 0) reads (next_hue hue)).
    exact IH. }
  specialize (H fuel 1%nat 0).
  destruct (loop clock fuel None speed (clock 0) 1 0). exact H.
Qed.

End ColorLoopFacts.

(* ================================================================== *)
(** * Properties of the relative-time label *)
(* ================================================================== *)

Section TimeAgoFacts.

Import SensorActivity.

Variable fromisoformat : string -> option datetime.

Lemma nonempty_truthy (ts : string) : ts <> "" -> truthy (PStr ts) = true.
Proof.
  intros H. simpl. destruct (String.eqb_spec ts ""); [contradiction | reflexivity].
Qed.

Lemma not_none_sentinel (ts : string) : ts <> "none" -> eq_str (PStr ts) "none" = false.
Proof.
  intros H. simpl. destruct (String.eqb_spec ts "none"); [contradiction | reflexivity].
Qed.

(** The count of seconds of a difference that is not negative: the whole
    seconds, or one more from 2^34 seconds on. *)
Lemma total_seconds_past (us : Z) :
  0 <= us < 2 ^ 40 * 1000000 ->
  exists s, total_seconds_int us = ok s /\
    us / 1000000 <= s <= us / 1000000 + 1 /\
    (us < 2 ^ 34 * 1000000 -> s = us / 1000000).
Proof.
  intros [H0 Hmax]. unfold total_seconds_int, nearest_double.
  destruct (Z.eqb_spec us 0) as [E | E].
  - subst us. exists 0. repeat split; try reflexivity; discriminate.
  - rewrite Z.abs_eq by exact H0. rewrite Z.sgn_pos by lia.
    destruct (seconds_rounded us ltac:(lia) Hmax)
      as (num & den & -> & Hnum & Hden & Hs & Hexact).
    exists (num / den). unfold int_of_double. cbn [fst snd].
    rewrite Z.mul_1_l, Z.quot_div_nonneg by lia.
    repeat split; tauto.
Qed.

(** The count of a negative difference is the count of its size, negated:
    [int] cuts towards zero. *)
Lemma total_seconds_future (u : Z) :
  0 < u < 2 ^ 40 * 1000000 ->
  exists s, total_seconds_int (- u) = ok (- s) /\
    u / 1000000 <= s <= u / 1000000 + 1 /\
    (u < 2 ^ 34 * 1000000 -> s = u / 1000000).
Proof.
  intros [H0 Hmax]. unfold total_seconds_int, nearest_double.
  destruct (Z.eqb_spec (- u) 0) as [E | E]; [lia |].
  rewrite Z.abs_opp, Z.abs_eq by lia. rewrite Z.sgn_neg by lia.
  destruct (seconds_rounded u H0 Hmax)
    as (num & den & -> & Hnum & Hden & Hs & Hexact).
  exists (num / den). unfold int_of_double. cbn [fst snd].
  replace (-1 * num) with (- num) by lia.
  rewrite Z.quot_opp_l, Z.quot_div_nonneg by lia.
  repeat split; tauto.
Qed.

(** A timestamp that parses gets the label of its elapsed seconds. *)
Lemma get_time_ago_parsed (now : Z) (ts : string) (d : datetime) (s : Z) :
  ts <> "none" -> ts <> "" ->
  fromisoformat (replace_char "Z" "+00:00" ts) = Some d ->
  total_seconds_int (now - instant (assume_utc d)) = ok s ->
  get_time_ago fromisoformat now (PStr ts) = ok (label s).
Proof.
  intros Hnone Hempty Hparse Hs.
  unfold get_time_ago.
  rewrite (not_none_sentinel _ Hnone), (nonempty_truthy _ Hempty).
  cbn [orb negb]. unfold time_ago_body. cbn [replace rbind ok].
  rewrite Hparse. cbn [rbind ok]. rewrite Hs. reflexivity.
Qed.

(** Whatever it is given, [get_time_ago] returns a label. *)
Lemma get_time_ago_returns (now : Z) (v : pyval) :
  exists s, get_time_ago fromisoformat now v = ok s.
Proof.
  unfold get_time_ago.
  destruct (eq_str v "none" || negb (truthy v)); [eexists; reflexivity |].
  destruct (time_ago_body fromisoformat now v) as [e | s];
    eexists; reflexivity.
Qed.

Lemma label_units (s : Z) :
  0 <= s ->
  (s < 60 -> label s = str_of_Z s ++ " seconds ago") /\
  (60 <= s < 3600 ->
   exists m, 60 * m <= s < 60 * (m + 1) /\
     label s = str_of_Z m ++ " minute" ++ (if m =? 1 then "" else "s") ++ " ago") /\
  (3600 <= s < 86400 ->
   exists h, 3600 * h <= s < 3600 * (h + 1) /\
     label s = str_of_Z h ++ " hour" ++ (if h =? 1 then "" else "s") ++ " ago") /\
  (86400 <= s ->
   exists d, 86400 * d <= s < 86400 * (d + 1) /\
     label s = str_of_Z d ++ " day" ++ (if d =? 1 then "" else "s") ++ " ago").
Proof.
  intros Hs. unfold label, plural.
  repeat split.
  - intros H. destruct (Z.ltb_spec s 60); [reflexivity | lia].
  - intros H. exists (s / 60).
    pose proof (Z.div_mod s 60 ltac:(lia)).
    pose proof (Z.mod_pos_bound s 60 ltac:(lia)).
    split; [lia |].
    destruct (Z.ltb_spec s 60); [lia |].
    destruct (Z.ltb_spec s 3600); [reflexivity | lia].
  - intros H. exists (s / 3600).
    pose proof (Z.div_mod s 3600 ltac:(lia)).
    pose proof (Z.mod_pos_bound s 3600 ltac:(lia)).
    split; [lia |].
    destruct (Z.ltb_spec s 60); [lia |].
    destruct (Z.ltb_spec s 3600); [lia |].
    destruct (Z.ltb_spec s 86400); [reflexivity | lia].
  - intros H. exists (s / 86400).
    pose proof (Z.div_mod s 86400 ltac:(lia)).
    pose proof (Z.mod_pos_bound s 86400 ltac:(lia)).
    split; [lia |].
    destruct (Z.ltb_spec s 60); [lia |].
    destruct (Z.ltb_spec s 3600); [lia |].
    destruct (Z.ltb_spec s 86400); [lia | reflexivity].
Qed.

(** C2.  For a timestamp that parses and lies [us >= 0] microseconds back
    (two datetimes are never 2^40 seconds apart), [get_time_ago] returns
    the label of the count of seconds [s] it computes: the whole seconds in
    [us], rounded down, for anything less than 2^34 seconds old, and that
    or one more beyond, where the division by 10^6 is rounded to a double
    before it is cut.  Whatever the count [n >= 0], the label counts
    seconds below 60, whole minutes below 3600, whole hours below 86400 and
    whole days from there on, each rounded down, with an "s" unless the
    count is 1.  The sentinel "none" gives "Never", and 0, 59, 60, 119,
    120, 3600 and 86400 seconds give the labels listed. *)
Theorem get_time_ago_labels (now : Z) (ts : string) (d : datetime) :
  ts <> "none" -> ts <> "" ->
  fromisoformat (replace_char "Z" "+00:00" ts) = Some d ->
  0 <= now - instant (assume_utc d) < 2 ^ 40 * 1000000 ->
  (exists s,
     total_seconds_int (now - instant (assume_utc d)) = ok s /\
     get_time_ago fromisoformat now (PStr ts) = ok (label s) /\
     (now - instant (assume_utc d)) / 1000000 <= s
       <= (now - instant (assume_utc d)) / 1000000 + 1 /\
     (now - instant (assume_utc d) < 2 ^ 34 * 1000000 ->
      s = (now - instant (assume_utc d)) / 1000000)) /\
  (forall n, 0 <= n ->
     (n < 60 -> label n = str_of_Z n ++ " seconds ago") /\
     (60 <= n < 3600 ->
      exists m, 60 * m <= n < 60 * (m + 1) /\
        label n
        = str_of_Z m ++ " minute" ++ (if m =? 1 then "" else "s") ++ " ago") /\
     (3600 <= n < 86400 ->
      exists h, 3600 * h <= n < 3600 * (h + 1) /\
        label n
        = str_of_Z h ++ " hour" ++ (if h =? 1 then "" else "s") ++ " ago") /\
     (86400 <= n ->
      exists k, 86400 * k <= n < 86400 * (k + 1) /\
        label n
        = str_of_Z k ++ " day" ++ (if k =? 1 then "" else "s") ++ " ago")) /\
  get_time_ago fromisoformat now (PStr "none") = ok "Never" /\
  label 0 = "0 seconds ago" /\
  label 59 = "59 seconds ago" /\
  label 60 = "1 minute ago" /\
  label 119 = "1 minute ago" /\
  label 120 = "2 minutes ago" /\
  label 3600 = "1 hour ago" /\
  label 86400 = "1 day ago".
Proof.
  intros Hnone Hempty Hparse Hpast.
  split.
  - destruct (total_seconds_past _ Hpast) as (s & Hs & Hround & Hexact).
    exists s. split; [exact Hs |].
    split; [exact (get_time_ago_parsed now ts d s Hnone Hempty Hparse Hs) |].
    split; assumption.
  - split; [intros n Hn; exact (label_units n Hn) |].
    repeat split; reflexivity.
Qed.

(** C6.  A timestamp the parser rejects makes the body of the [try] raise,
    and the handler turns that into the label "Error parsing: " followed by
    the timestamp as given; no input at all makes [get_time_ago] raise. *)
Theorem get_time_ago_catches_parse_errors (now : Z) (ts : string) :
  ts <> "none" -> ts <> "" ->
  fromisoformat (replace_char "Z" "+00:00" ts) = None ->
  time_ago_body fromisoformat now (PStr ts) = raise ValueError /\
  get_time_ago fromisoformat now (PStr ts) = ok ("Error parsing: " ++ ts) /\
  (forall v : pyval, exists s, get_time_ago fromisoformat now v = ok s).
Proof.
  intros Hnone Hempty Hparse.
  assert (Hbody : time_ago_body fromisoformat now (PStr ts) = raise ValueError).
  { unfold time_ago_body. cbn [replace rbind ok]. rewrite Hparse. reflexivity. }
  split; [exact Hbody |].
  split; [| intros v; apply get_time_ago_returns].
  unfold get_time_ago.
  rewrite (not_none_sentinel _ Hnone), (nonempty_truthy _ Hempty).
  cbn [orb negb]. rewrite Hbody. reflexivity.
Qed.

(** C9, as the code has it.  For a timestamp that parses and lies [u > 0]
    microseconds in the future (two datetimes are never 2^40 seconds
    apart), the elapsed count [N] is the difference in seconds cut towards
    zero: the label is "<N> seconds ago" with [N <= 0], neither clamped nor
    an error; [N] is negative exactly when the timestamp is a whole second
    or more ahead, and 0 when it is less than a second ahead.  [-N] is the
    whole seconds in [u] for anything less than 2^34 seconds ahead, and
    that or one more beyond, where the division by 10^6 is rounded to a
    double before it is cut. *)
Theorem get_time_ago_future (now : Z) (ts : string) (d : datetime) :
  ts <> "none" -> ts <> "" ->
  fromisoformat (replace_char "Z" "+00:00" ts) = Some d ->
  0 < instant (assume_utc d) - now < 2 ^ 40 * 1000000 ->
  exists N,
    total_seconds_int (now - instant (assume_utc d)) = ok N /\
    get_time_ago fromisoformat now (PStr ts)
    = ok (str_of_Z N ++ " seconds ago") /\
    N <= 0 /\
    (N < 0 <-> 1000000 <= instant (assume_utc d) - now) /\
    (N = 0 <-> instant (assume_utc d) - now < 1000000) /\
    (instant (assume_utc d) - now) / 1000000 <= - N
      <= (instant (assume_utc d) - now) / 1000000 + 1 /\
    (instant (assume_utc d) - now < 2 ^ 34 * 1000000 ->
     - N = (instant (assume_utc d) - now) / 1000000).
Proof.
  intros Hnone Hempty Hparse Hfuture.
  set (u := instant (assume_utc d) - now) in *.
  destruct (total_seconds_future u Hfuture) as (s & Hs & Hround & Hexact).
  replace (- u) with (now - instant (assume_utc d)) in Hs by (unfold u; lia).
  pose proof (Z.div_mod u 1000000 ltac:(lia)) as Hdm.
  pose proof (Z.mod_pos_bound u 1000000 ltac:(lia)) as Hmod.
  assert (Hq : 0 <= u / 1000000) by (apply Z.div_pos; lia).
  assert (Hsmall : u < 1000000 -> s = 0).
  { intros H. rewrite Hexact by lia. apply Z.div_small. lia. }
  exists (- s). split; [exact Hs |]. split.
  - rewrite (get_time_ago_parsed now ts d (- s) Hnone Hempty Hparse Hs).
    unfold label. destruct (Z.ltb_spec (- s) 60); [reflexivity | lia].
  - rewrite Z.opp_involutive.
    split; [lia |]. split; [| split; [| split; [exact Hround | exact Hexact]]].
    + split; intros H.
      * destruct (Z.lt_ge_cases u 1000000) as [Hlt | Hge]; [| exact Hge].
        specialize (Hsmall Hlt). lia.
      * nia.
    + split; intros H.
      * destruct (Z.lt_ge_cases u 1000000) as [Hlt | Hge]; [exact Hlt |].
        nia.
      * specialize (Hsmall H). lia.
Qed.

End TimeAgoFacts.

Section TimeAgoExamples.

Import SensorActivity.

(** 2025-01-01T00:00:00 UTC is 1735689600000000 microseconds after the
    epoch. *)

Lemma get_time_ago_labels_witness :
  get_time_ago iso_basic 1735689690000000 (PStr "2025-01-01T00:00:00")
  = ok "1 minute ago".
Proof.
  destruct (proj1 (get_time_ago_labels iso_basic 1735689690000000
                     "2025-01-01T00:00:00"
                     {| wall := 1735689600000000; tzinfo := None |}
                     ltac:(discriminate) ltac:(discriminate) eq_refl
                     ltac:(vm_compute; split; [discriminate | reflexivity])))
    as (s & _ & Hget & _ & Hexact).
  rewrite Hget, Hexact; reflexivity.
Defined.

Lemma get_time_ago_catches_parse_errors_witness :
  get_time_ago iso_basic 1735689600000000 (PStr "yesterday")
  = ok "Error parsing: yesterday".
Proof.
  refine (proj1 (proj2 (get_time_ago_catches_parse_errors iso_basic 1735689600000000
                          "yesterday" _ _ _))).
  - discriminate.
  - discriminate.
  - reflexivity.
Defined.

Lemma get_time_ago_future_witness :
  get_time_ago iso_basic 1735689595000000 (PStr "2025-01-01T00:00:00Z")
  = ok "-5 seconds ago".
Proof.
  destruct (get_time_ago_future iso_basic 1735689595000000
              "2025-01-01T00:00:00Z"
              {| wall := 1735689600000000; tzinfo := Some 0 |}
              ltac:(discriminate) ltac:(discriminate) eq_refl
              ltac:(vm_compute; split; reflexivity))
    as (N & HN & Hget & _).
  rewrite Hget. injection HN as <-. reflexivity.
Defined.

(** The label of a negative count starts with its sign. *)
Lemma str_of_Z_negative (N : Z) :
  N < 0 -> exists rest, str_of_Z N = String "-" rest.
Proof.
  intros H. destruct N as [|p|p]; try lia.
  eexists. reflexivity.
Qed.

(** C9, as first stated, fails: a timestamp half a second ahead of the clock
    is strictly later than now, yet its count is 0, not a negative number,
    and the label is "0 seconds ago". *)
Lemma get_time_ago_future_half_second :
  iso_basic "2025-01-01T00:00:01"
  = Some {| wall := 1735689601000000; tzinfo := None |} /\
  1735689600500000
  < instant (assume_utc {| wall := 1735689601000000; tzinfo := None |}) /\
  get_time_ago iso_basic 1735689600500000 (PStr "2025-01-01T00:00:01")
  = ok "0 seconds ago" /\
  ~ (exists N, N < 0 /\
       get_time_ago iso_basic 1735689600500000 (PStr "2025-01-01T00:00:01")
       = ok (str_of_Z N ++ " seconds ago")).
Proof.
  split; [reflexivity |].
  split; [reflexivity |].
  split; [reflexivity |].
  intros (N & HN & E).
  destruct (str_of_Z_negative N HN) as (rest & Hrest).
  rewrite Hrest in E. vm_compute in E. discriminate E.
Qed.

(** From 2^34 seconds on the count is cut from a rounded quotient: a
    timestamp one microsecond short of 739252 days old is 739252 days old,
    and one a microsecond less than 18145209600 seconds ahead is that many
    seconds ahead. *)
Example far_timestamps_are_rounded :
  get_time_ago iso_basic 1735775999999999 (PStr "0001-01-01T00:00:00")
  = ok "739252 days ago" /\
  (1735775999999999
   - instant (assume_utc {| wall := -62135596800000000; tzinfo := None |}))
  / 1000000 / 86400 = 739251 /\
  get_time_ago iso_basic 1735689600000001 (PStr "2600-01-01T00:00:00")
  = ok "-18145209600 seconds ago".
Proof. repeat split; vm_compute; reflexivity. Qed.

(** The scenario of the documentation: one presence sensor, read 90 seconds
    after its last update. *)
Example hall_sensor_report :
  list_sensor_activity iso_basic (fun _ => 1735689690000000)
    (Fetched (PDict
       [("1", PDict [("type", PStr "ZLLPresence"); ("name", PStr "Hall");
                     ("state", PDict [("presence", PBool true);
                                      ("lastupdated", PStr "2025-01-01T00:00:00")]);
                     ("config", PDict [("battery", PInt 80)])])]))
  = ([str_mul "=" 80; "HUE SENSOR ACTIVITY"; str_mul "=" 80; "";
      "MOTION SENSORS"; str_mul "-" 80;
      "Hall (ID 1)"; "  Status: MOTION DETECTED";
      "  Last updated: 1 minute ago"; "  Battery: 80%"; ""],
     ok tt).
Proof. reflexivity. Qed.

End TimeAgoExamples.

(* ================================================================== *)
(** * Properties of the sensor report *)
(* ================================================================== *)

Section SensorFacts.

Import SensorActivity.

(** What one record adds to each list. *)
Lemma route_adds (b : buckets) (sensor : sensor_data) :
  motion_sensors (route b sensor)
  = (motion_sensors b ++ filter (in_bucket Motion) [sensor])%list /\
  temperature_sensors (route b sensor)
  = (temperature_sensors b ++ filter (in_bucket TemperatureLight) [sensor])%list /\
  dimmer_switches (route b sensor)
  = (dimmer_switches b ++ filter (in_bucket Switch) [sensor])%list /\
  other_sensors (route b sensor)
  = (other_sensors b ++ filter (in_bucket Other) [sensor])%list.
Proof.
  unfold route, in_bucket, bucket_of_type. cbn [filter].
  destruct (eq_str (type sensor) "ZLLPresence");
    [cbn; rewrite !app_nil_r; repeat split; reflexivity |].
  destruct (eq_str (type sensor) "ZLLTemperature");
    [cbn; rewrite !app_nil_r; repeat split; reflexivity |].
  destruct (eq_str (type sensor) "ZLLLightLevel");
    [cbn; rewrite !app_nil_r; repeat split; reflexivity |].
  destruct (eq_str (type sensor) "ZLLSwitch");
    [cbn; rewrite !app_nil_r; repeat split; reflexivity |].
  destruct (eq_str (type sensor) "Daylight");
    [cbn; rewrite !app_nil_r; repeat split; reflexivity |].
  destruct (eq_str (type sensor) "CLIPGenericStatus");
    cbn; rewrite !app_nil_r; repeat split; reflexivity.
Qed.

(** The loop, started from any lists, appends to each the records of its
    bucket, in the order they are read. *)
Lemma group_filters (l : list (string * pyval)) (b0 b : buckets) :
  group b0 l = ok b ->
  exists sensors,
    read_all l = ok sensors /\
    motion_sensors b
    = (motion_sensors b0 ++ filter (in_bucket Motion) sensors)%list /\
    temperature_sensors b
    = (temperature_sensors b0 ++ filter (in_bucket TemperatureLight) sensors)%list /\
    dimmer_switches b
    = (dimmer_switches b0 ++ filter (in_bucket Switch) sensors)%list /\
    other_sensors b
    = (other_sensors b0 ++ filter (in_bucket Other) sensors)%list.
Proof.
  revert b0.
  induction l as [|[sensor_id sensor_info] l IH]; intros b0 H.
  - injection H as <-. exists []. cbn [filter]. rewrite !app_nil_r.
    repeat split; reflexivity.
  - cbn [group read_all] in H |- *.
    destruct (read_sensor sensor_id sensor_info) as [e | sensor];
      [discriminate H |].
    cbn [rbind] in H |- *.
    destruct (IH _ H) as (sensors & Hread & Hm & Ht & Hd & Ho).
    destruct (route_adds b0 sensor) as (Rm & Rt & Rd & Ro).
    exists (sensor :: sensors). rewrite Hread. cbn [rbind].
    split; [reflexivity |].
    rewrite Hm, Ht, Hd, Ho, Rm, Rt, Rd, Ro, <- !app_assoc, <- !filter_app.
    repeat split; reflexivity.
Qed.

Lemma other_type (t : string) :
  t <> "ZLLPresence" -> t <> "ZLLTemperature" -> t <> "ZLLLightLevel" ->
  t <> "ZLLSwitch" -> t <> "Daylight" -> t <> "CLIPGenericStatus" ->
  bucket_of_type (PStr t) = Some Other.
Proof.
  intros H1 H2 H3 H4 H5 H6. unfold bucket_of_type, eq_str.
  repeat match goal with
         | |- context [String.eqb t ?lit] =>
             destruct (String.eqb_spec t lit); [contradiction |]
         end.
  reflexivity.
Qed.

(** C3.  When the grouping loop ends, each of its four lists holds exactly
    the records whose declared type maps to that bucket, in the order read;
    the bucket depends on the type alone; a record is in at most one list,
    and in none exactly when its type is dropped.  "ZLLPresence" maps to
    motion, "ZLLTemperature" and "ZLLLightLevel" to temperature/light,
    "ZLLSwitch" to switch, "Daylight" and "CLIPGenericStatus" to no bucket,
    and every other string to other. *)
Theorem sensors_routed_by_type (l : list (string * pyval)) (b : buckets) :
  group no_sensors l = ok b ->
  (exists sensors,
     read_all l = ok sensors /\
     motion_sensors b = filter (in_bucket Motion) sensors /\
     temperature_sensors b = filter (in_bucket TemperatureLight) sensors /\
     dimmer_switches b = filter (in_bucket Switch) sensors /\
     other_sensors b = filter (in_bucket Other) sensors) /\
  (forall sensor k k',
     in_bucket k sensor = true -> in_bucket k' sensor = true -> k = k') /\
  (forall sensor,
     (forall k, in_bucket k sensor = false)
     <-> bucket_of_type (type sensor) = None) /\
  bucket_of_type (PStr "ZLLPresence") = Some Motion /\
  bucket_of_type (PStr "ZLLTemperature") = Some TemperatureLight /\
  bucket_of_type (PStr "ZLLLightLevel") = Some TemperatureLight /\
  bucket_of_type (PStr "ZLLSwitch") = Some Switch /\
  bucket_of_type (PStr "Daylight") = None /\
  bucket_of_type (PStr "CLIPGenericStatus") = None /\
  (forall t,
     t <> "ZLLPresence" -> t <> "ZLLTemperature" -> t <> "ZLLLightLevel" ->
     t <> "ZLLSwitch" -> t <> "Daylight" -> t <> "CLIPGenericStatus" ->
     bucket_of_type (PStr t) = Some Other).
Proof.
  intros H.
  split.
  { destruct (group_filters l no_sensors b H) as (sensors & Hread & Hrest).
    exists sensors. split; [exact Hread | exact Hrest]. }
  split.
  { intros sensor k k'. unfold in_bucket.
    destruct (bucket_of_type (type sensor)) as [k0|]; [| discriminate].
    destruct k, k0; try discriminate; destruct k'; try discriminate; reflexivity. }
  split.
  { intros sensor. unfold in_bucket.
    destruct (bucket_of_type (type sensor)) as [k0|].
    - split; [| discriminate].
      intros Hall. specialize (Hall k0). destruct k0; discriminate Hall.
    - split; reflexivity. }
  repeat split; try reflexivity.
  exact other_type.
Qed.

(** ** Records with fields missing *)

Variable fromisoformat : string -> option datetime.
Variable now : nat -> Z.

Lemma outcome_bind {A B} (m : io A) (f : A -> io B) :
  outcome (Py.bind m f)
  = match outcome m with
    | inl e => inl e
    | inr a => outcome (f a)
    end.
Proof.
  destruct m as [out [e | a]]; cbn; [reflexivity |].
  destruct (f a); reflexivity.
Qed.

Lemma stdout_bind {A B} (m : io A) (f : A -> io B) (a : A) :
  outcome m = ok a ->
  stdout (Py.bind m f) = (stdout m ++ stdout (f a))%list.
Proof.
  destruct m as [out [e | a']]; cbn; intros H; [discriminate H |].
  injection H as ->. destruct (f a); reflexivity.
Qed.

(** A record reads as its fields or their defaults. *)
Lemma read_sensor_fields (sensor_id : string) (d : list (string * pyval)) :
  well_typed_fields (PDict d) = true ->
  exists sensor,
    read_sensor sensor_id (PDict d) = ok sensor /\
    fields_ok sensor /\
    id sensor = sensor_id /\
    type sensor = get_or "type" d (PStr "Unknown") /\
    name sensor = get_or "name" d (PStr "Unknown") /\
    state sensor = get_or "state" d (PDict []) /\
    config sensor = get_or "config" d (PDict []) /\
    (forall st, state sensor = PDict st ->
       lastupdated sensor = get_or "lastupdated" st (PStr "none")).
Proof.
  unfold well_typed_fields, read_sensor, get, get_or. intros H.
  apply andb_true_iff in H. destruct H as [Hstate Hconfig].
  cbn [rbind ok].
  destruct (lookup "state" d) as [[| | | | |st]|] eqn:Es; try discriminate Hstate;
    destruct (lookup "config" d) as [[| | | | |c]|] eqn:Ec; try discriminate Hconfig;
    cbn [rbind ok]; eexists; (split; [reflexivity |]);
    unfold fields_ok; cbn [state config id name type lastupdated];
    repeat split; try reflexivity;
    try (eexists; split; [reflexivity | assumption || reflexivity]);
    try (eexists; reflexivity);
    try (intros st' E; injection E as <-; reflexivity).
Qed.

Lemma group_returns (l : list (string * pyval)) (b0 : buckets) :
  Forall (fun item => well_typed_fields (snd item) = true) l ->
  Forall fields_ok (motion_sensors b0) ->
  Forall fields_ok (temperature_sensors b0) ->
  Forall fields_ok (dimmer_switches b0) ->
  Forall fields_ok (other_sensors b0) ->
  exists b,
    group b0 l = ok b /\
    Forall fields_ok (motion_sensors b) /\
    Forall fields_ok (temperature_sensors b) /\
    Forall fields_ok (dimmer_switches b) /\
    Forall fields_ok (other_sensors b).
Proof.
  intros Hl. revert b0.
  induction Hl as [|[sensor_id sensor_info] l Hx Hl IH]; intros b0 Hm Ht Hd Ho.
  - exists b0. repeat split; assumption.
  - cbn [snd] in Hx. destruct sensor_info as [| | | | |d]; try discriminate Hx.
    destruct (read_sensor_fields sensor_id d Hx) as (sensor & Hread & Hok & _).
    cbn [group]. rewrite Hread. cbn [rbind].
    destruct (route_adds b0 sensor) as (Rm & Rt & Rd & Ro).
    apply IH.
    + rewrite Rm. apply Forall_app. split; [exact Hm |].
      cbn [filter]. destruct (in_bucket Motion sensor); auto.
    + rewrite Rt. apply Forall_app. split; [exact Ht |].
      cbn [filter]. destruct (in_bucket TemperatureLight sensor); auto.
    + rewrite Rd. apply Forall_app. split; [exact Hd |].
      cbn [filter]. destruct (in_bucket Switch sensor); auto.
    + rewrite Ro. apply Forall_app. split; [exact Ho |].
      cbn [filter]. destruct (in_bucket Other sensor); auto.
Qed.

Lemma for_each_from_returns {A} (f : nat -> A -> io unit) (l : list A) :
  forall k,
    (forall j x, In x l -> outcome (f j x) = ok tt) ->
    outcome (for_each_from f k l) = ok tt.
Proof.
  induction l as [|x l IH]; intros k H; [reflexivity |].
  cbn [for_each_from]. rewrite outcome_bind, (H k x (or_introl eq_refl)).
  apply IH. intros j y Hy. apply H. right. exact Hy.
Qed.

Ltac with_time_ago k sensor :=
  unfold time_ago;
  let t := fresh "t" in
  let Ht := fresh "Ht" in
  destruct (get_time_ago_returns fromisoformat (now k) (lastupdated sensor))
    as [t Ht];
  rewrite Ht.

Lemma print_motion_returns (k : nat) (sensor : sensor_data) :
  fields_ok sensor -> outcome (print_motion fromisoformat now k sensor) = ok tt.
Proof.
  intros [(st & Hst & _) (c & Hc)].
  unfold print_motion. with_time_ago k sensor. rewrite Hst, Hc. reflexivity.
Qed.

(** A temperature that fits a float can be divided by 100.0. *)
Lemma centi_returns (t : Z) :
  nearest_double t 1 <> None -> exists x, centi t = ok x.
Proof.
  intros H. unfold centi.
  destruct (nearest_double t 1) as [[n d]|] eqn:E; [| contradiction].
  destruct (nearest_double_size t 1 n d ltac:(lia) E) as [Hd Hn].
  assert (Hsome : nearest_double n (d * 100) <> None).
  { apply nearest_double_some; [lia |].
    assert (HB : 2 ^ 1024 = 2 * 2 ^ 1023) by reflexivity.
    assert (0 < 2 ^ 1023) by (apply Z.pow_pos_nonneg; lia).
    set (B := 2 ^ 1024) in *. set (B' := 2 ^ 1023) in *.
    clearbody B B'. nia. }
  destruct (nearest_double n (d * 100)) as [x|]; [| contradiction].
  exists x. reflexivity.
Qed.

Lemma print_temperature_returns (k : nat) (sensor : sensor_data) :
  fields_ok sensor ->
  outcome (print_temperature fromisoformat now k sensor) = ok tt.
Proof.
  intros [(st & Hst & Htemp) (c & Hc)].
  unfold print_temperature. with_time_ago k sensor. rewrite Hst, Hc.
  unfold temperature_ok in Htemp.
  destruct (eq_str (type sensor) "ZLLTemperature").
  - cbn [get ok]. unfold get_or at 2.
    destruct (lookup "temperature" st) as [[|b|t'| | |]|];
      try discriminate Htemp; try reflexivity.
    + destruct (centi_returns (Z.b2z b)) as [x Hx];
        [destruct b; discriminate |].
      unfold Py.bind, lift, print, outcome, ok. cbv beta iota.
      rewrite Hx. reflexivity.
    + destruct (centi_returns t') as [x Hx].
      { destruct (nearest_double t' 1); [discriminate | discriminate Htemp]. }
      unfold Py.bind, lift, print, outcome, ok. cbv beta iota.
      rewrite Hx. reflexivity.
  - destruct (eq_str (type sensor) "ZLLLightLevel"); [| reflexivity].
    cbn [get ok]. unfold get_or at 2.
    destruct (lookup "lightlevel" st) as [[| | | | |]|];
      reflexivity.
Qed.

Lemma print_dimmer_returns (k : nat) (sensor : sensor_data) :
  fields_ok sensor -> outcome (print_dimmer fromisoformat now k sensor) = ok tt.
Proof.
  intros [(st & Hst & _) (c & Hc)].
  unfold print_dimmer. with_time_ago k sensor. rewrite Hst, Hc.
  cbn [get ok lift Py.bind].
  match goal with |- context [truthy ?v] => destruct (truthy v) end;
    reflexivity.
Qed.

Lemma print_other_returns (k : nat) (sensor : sensor_data) :
  outcome (print_other fromisoformat now k sensor) = ok tt.
Proof.
  unfold print_other. with_time_ago k sensor. reflexivity.
Qed.

Lemma section_returns (title : string) (f : nat -> sensor_data -> io unit)
    (k : nat) (l : list sensor_data) :
  (forall j x, In x l -> outcome (f j x) = ok tt) ->
  outcome (section title f k l) = ok tt.
Proof.
  intros H. destruct l as [|x l]; [reflexivity |].
  unfold section. rewrite !outcome_bind. cbn [print outcome snd].
  apply for_each_from_returns. exact H.
Qed.

Lemma report_returns (b : buckets) :
  Forall fields_ok (motion_sensors b) ->
  Forall fields_ok (temperature_sensors b) ->
  Forall fields_ok (dimmer_switches b) ->
  outcome (report fromisoformat now b) = ok tt.
Proof.
  intros Hm Ht Hd. unfold report.
  rewrite outcome_bind, section_returns;
    [| intros j x Hx; apply print_motion_returns;
       exact (proj1 (Forall_forall _ _) Hm x Hx)].
  rewrite outcome_bind, section_returns;
    [| intros j x Hx; apply print_temperature_returns;
       exact (proj1 (Forall_forall _ _) Ht x Hx)].
  rewrite outcome_bind, section_returns;
    [| intros j x Hx; apply print_dimmer_returns;
       exact (proj1 (Forall_forall _ _) Hd x Hx)].
  apply section_returns. intros j x _. apply print_other_returns.
Qed.

Lemma none_sentinel_never (k : nat) (sensor : sensor_data) :
  lastupdated sensor = PStr "none" ->
  time_ago fromisoformat now k sensor = ret "Never".
Proof.
  intros H. unfold time_ago, get_time_ago. rewrite H. reflexivity.
Qed.

(** ** What the report prints *)

Lemma for_each_from_block {A} (f : nat -> A -> io unit) (l : list A) (x : A) :
  forall k,
    (forall j y, In y l -> outcome (f j y) = ok tt) ->
    In x l ->
    exists j before after,
      stdout (for_each_from f k l)
      = (before ++ stdout (f j x) ++ after)%list.
Proof.
  induction l as [|y l IH]; intros k Hok Hin; [contradiction |].
  cbn [for_each_from].
  rewrite (stdout_bind (f k y) _ tt) by (apply Hok; left; reflexivity).
  destruct Hin as [-> | Hin].
  - exists k, [], (stdout (for_each_from f (S k) l)). reflexivity.
  - destruct (IH (S k)) as (j & before & after & E);
      [intros j z Hz; apply Hok; right; exact Hz | exact Hin |].
    exists j, (stdout (f k y) ++ before)%list, after.
    rewrite E, <- app_assoc. reflexivity.
Qed.

Lemma section_block (title : string) (f : nat -> sensor_data -> io unit)
    (k : nat) (l : list sensor_data) (x : sensor_data) :
  (forall j y, In y l -> outcome (f j y) = ok tt) ->
  In x l ->
  exists j between after,
    stdout (section title f k l)
    = ([title; str_mul "-" 80] ++ between ++ stdout (f j x) ++ after)%list.
Proof.
  intros Hok Hin.
  destruct (for_each_from_block f l x k Hok Hin) as (j & before & after & E).
  exists j, before, after.
  destruct l as [|y l]; [contradiction |].
  unfold section.
  rewrite (stdout_bind (print title) _ tt) by reflexivity.
  rewrite (stdout_bind (print (str_mul "-" 80)) _ tt) by reflexivity.
  rewrite E. reflexivity.
Qed.

Lemma report_stdout (b : buckets) :
  Forall fields_ok (motion_sensors b) ->
  Forall fields_ok (temperature_sensors b) ->
  Forall fields_ok (dimmer_switches b) ->
  stdout (report fromisoformat now b)
  = (stdout (section "MOTION SENSORS" (print_motion fromisoformat now) 0
               (motion_sensors b))
     ++ stdout (section "TEMPERATURE/LIGHT SENSORS"
                  (print_temperature fromisoformat now)
                  (List.length (motion_sensors b)) (temperature_sensors b))
     ++ stdout (section "DIMMER SWITCHES" (print_dimmer fromisoformat now)
                  (List.length (motion_sensors b)
                   + List.length (temperature_sensors b))
                  (dimmer_switches b))
     ++ stdout (section "OTHER SENSORS" (print_other fromisoformat now)
                  (List.length (motion_sensors b)
                   + List.length (temperature_sensors b)
                   + List.length (dimmer_switches b))
                  (other_sensors b)))%list.
Proof.
  intros Hm Ht Hd. unfold report.
  rewrite (stdout_bind _ _ tt)
    by (apply section_returns; intros j x Hx; apply print_motion_returns;
        exact (proj1 (Forall_forall _ _) Hm x Hx)).
  rewrite (stdout_bind _ _ tt)
    by (apply section_returns; intros j x Hx; apply print_temperature_returns;
        exact (proj1 (Forall_forall _ _) Ht x Hx)).
  rewrite (stdout_bind _ _ tt)
    by (apply section_returns; intros j x Hx; apply print_dimmer_returns;
        exact (proj1 (Forall_forall _ _) Hd x Hx)).
  reflexivity.
Qed.

(** Every record of a list is printed, in the section of the list and under
    its title. *)
Lemma report_prints_record (b : buckets) (k : bucket) (x : sensor_data) :
  Forall fields_ok (motion_sensors b) ->
  Forall fields_ok (temperature_sensors b) ->
  Forall fields_ok (dimmer_switches b) ->
  In x (section_list k b) ->
  exists j before between after,
    stdout (report fromisoformat now b)
    = (before ++ [section_title k; str_mul "-" 80] ++ between
       ++ stdout (section_body fromisoformat now k j x) ++ after)%list.
Proof.
  intros Hm Ht Hd Hin. rewrite (report_stdout b Hm Ht Hd).
  match goal with
  | |- exists _ _ _ _, (?a ++ ?b ++ ?c ++ ?d)%list = _ =>
      set (s1 := a); set (s2 := b); set (s3 := c); set (s4 := d)
  end.
  destruct k; cbn [section_list section_title section_body] in Hin |- *.
  - destruct (section_block "MOTION SENSORS" (print_motion fromisoformat now)
                0 (motion_sensors b) x) as (j & between & after & E);
      [intros j y Hy; apply print_motion_returns;
       exact (proj1 (Forall_forall _ _) Hm y Hy) | exact Hin |].
    change (s1 = ([("MOTION SENSORS")%string; str_mul "-" 80] ++ between
                  ++ stdout (print_motion fromisoformat now j x)
                  ++ after)%list) in E.
    exists j, [], between, (after ++ s2 ++ s3 ++ s4)%list.
    rewrite E. cbn [app]. rewrite <- !app_assoc. reflexivity.
  - destruct (section_block "TEMPERATURE/LIGHT SENSORS"
                (print_temperature fromisoformat now)
                (List.length (motion_sensors b)) (temperature_sensors b) x)
      as (j & between & after & E);
      [intros j y Hy; apply print_temperature_returns;
       exact (proj1 (Forall_forall _ _) Ht y Hy) | exact Hin |].
    change (s2 = ([("TEMPERATURE/LIGHT SENSORS")%string; str_mul "-" 80]
                  ++ between
                  ++ stdout (print_temperature fromisoformat now j x)
                  ++ after)%list) in E.
    exists j, s1, between, (after ++ s3 ++ s4)%list.
    rewrite E. cbn [app]. rewrite <- !app_assoc. reflexivity.
  - destruct (section_block "DIMMER SWITCHES" (print_dimmer fromisoformat now)
                (List.length (motion_sensors b)
                 + List.length (temperature_sensors b))
                (dimmer_switches b) x)
      as (j & between & after & E);
      [intros j y Hy; apply print_dimmer_returns;
       exact (proj1 (Forall_forall _ _) Hd y Hy) | exact Hin |].
    change (s3 = ([("DIMMER SWITCHES")%string; str_mul "-" 80] ++ between
                  ++ stdout (print_dimmer fromisoformat now j x)
                  ++ after)%list) in E.
    exists j, (s1 ++ s2)%list, between, (after ++ s4)%list.
    rewrite E. cbn [app]. rewrite <- !app_assoc. reflexivity.
  - destruct (section_block "OTHER SENSORS" (print_other fromisoformat now)
                (List.length (motion_sensors b)
                 + List.length (temperature_sensors b)
                 + List.length (dimmer_switches b))
                (other_sensors b) x)
      as (j & between & after & E);
      [intros j y Hy; apply print_other_returns | exact Hin |].
    change (s4 = ([("OTHER SENSORS")%string; str_mul "-" 80] ++ between
                  ++ stdout (print_other fromisoformat now j x)
                  ++ after)%list) in E.
    exists j, (s1 ++ s2 ++ s3)%list, between, after.
    rewrite E. cbn [app]. rewrite <- !app_assoc. reflexivity.
Qed.

Lemma answer_stdout (l : list (string * pyval)) (b : buckets) :
  group no_sensors l = ok b ->
  stdout (list_sensor_activity fromisoformat now (Fetched (PDict l)))
  = (header ++ stdout (report fromisoformat now b))%list.
Proof.
  intros Hb.
  unfold list_sensor_activity, Py.bind, print, lift, items, ok.
  cbv beta iota. unfold ok in Hb. rewrite Hb.
  destruct (report fromisoformat now b) as [out r]. reflexivity.
Qed.

Lemma read_all_in (l : list (string * pyval)) :
  forall sensors sensor_id sensor_info sensor,
    read_all l = ok sensors ->
    In (sensor_id, sensor_info) l ->
    read_sensor sensor_id sensor_info = ok sensor ->
    In sensor sensors.
Proof.
  induction l as [|[sid info] l IH];
    intros sensors sensor_id sensor_info sensor Hall Hin Hread;
    [contradiction |].
  cbn [read_all] in Hall.
  destruct (read_sensor sid info) as [|first] eqn:E; [discriminate Hall |].
  cbn [rbind] in Hall.
  destruct (read_all l) as [|rest]; [discriminate Hall |].
  injection Hall as <-.
  destruct Hin as [Heq | Hin].
  - injection Heq as -> ->. rewrite E in Hread. injection Hread as ->.
    left. reflexivity.
  - right. exact (IH rest sensor_id sensor_info sensor eq_refl Hin Hread).
Qed.

(** With no [lastupdated] the line of the time reads "Never", in whichever
    section the record is printed. *)
Lemma never_line (k : bucket) (j : nat) (sensor : sensor_data) :
  fields_ok sensor ->
  lastupdated sensor = PStr "none" ->
  In (if bucket_eqb k Switch then "  Last pressed: Never"
      else "  Last updated: Never")
     (stdout (section_body fromisoformat now k j sensor)).
Proof.
  intros [(st & Hst & Htemp) (c & Hc)] Hnone.
  destruct k; cbn [section_body bucket_eqb].
  - unfold print_motion. rewrite (none_sentinel_never j sensor Hnone), Hst, Hc.
    cbn. tauto.
  - unfold print_temperature.
    rewrite (none_sentinel_never j sensor Hnone), Hst, Hc.
    unfold temperature_ok in Htemp.
    destruct (eq_str (type sensor) "ZLLTemperature").
    + cbn [get ok]. unfold get_or at 2.
      destruct (lookup "temperature" st) as [[|b|t'| | |]|];
        try discriminate Htemp; try (cbn; tauto).
      * destruct (centi_returns (Z.b2z b)) as [x Hx];
          [destruct b; discriminate |].
        unfold Py.bind, lift, print, stdout, ret, ok. cbv beta iota.
        rewrite Hx. cbn. tauto.
      * destruct (centi_returns t') as [x Hx].
        { destruct (nearest_double t' 1); [discriminate | discriminate Htemp]. }
        unfold Py.bind, lift, print, stdout, ret, ok. cbv beta iota.
        rewrite Hx. cbn. tauto.
    + destruct (eq_str (type sensor) "ZLLLightLevel"); [| cbn; tauto].
      cbn [get ok]. unfold get_or at 2.
      destruct (lookup "lightlevel" st) as [[| | | | |]|]; cbn; tauto.
  - unfold print_dimmer. rewrite (none_sentinel_never j sensor Hnone), Hst, Hc.
    cbn [get ok lift Py.bind].
    match goal with |- context [truthy ?v] => destruct (truthy v) end;
      cbn; tauto.
  - unfold print_other. rewrite (none_sentinel_never j sensor Hnone).
    cbn. tauto.
Qed.

(** C10.  Take any answer whose records are objects in which [state] and
    [config], where present, are objects and [temperature], where present,
    is null or a number that fits a float; any of the fields may be missing.
    Then [list_sensor_activity] runs to its end without raising.  Each
    record reads as its fields, with "Unknown" for a missing type or name,
    an empty object for a missing state or config, and "none" for a missing
    [lastupdated].  A record whose type has a bucket is printed, in the
    section of that bucket and under its title.  A record with no type goes
    to the other list and to no other, and is printed there as of type
    "Unknown".  A record with no [lastupdated] has the time "Never", which
    is the line printed for it in whichever section it is. *)
Theorem report_total_on_missing_fields (l : list (string * pyval)) :
  Forall (fun item => well_typed_fields (snd item) = true) l ->
  outcome (list_sensor_activity fromisoformat now (Fetched (PDict l))) = ok tt /\
  (forall sensor_id d,
     In (sensor_id, PDict d) l ->
     exists sensor,
       read_sensor sensor_id (PDict d) = ok sensor /\
       id sensor = sensor_id /\
       type sensor = get_or "type" d (PStr "Unknown") /\
       name sensor = get_or "name" d (PStr "Unknown") /\
       state sensor = get_or "state" d (PDict []) /\
       config sensor = get_or "config" d (PDict []) /\
       (forall st, state sensor = PDict st ->
          lastupdated sensor = get_or "lastupdated" st (PStr "none")) /\
       (forall k,
          in_bucket k sensor = true ->
          exists j before between after,
            stdout (list_sensor_activity fromisoformat now (Fetched (PDict l)))
            = (before ++ [section_title k; str_mul "-" 80] ++ between
               ++ stdout (section_body fromisoformat now k j sensor)
               ++ after)%list) /\
       (lookup "type" d = None ->
          in_bucket Other sensor = true /\
          (forall b,
             motion_sensors (route b sensor) = motion_sensors b /\
             temperature_sensors (route b sensor) = temperature_sensors b /\
             dimmer_switches (route b sensor) = dimmer_switches b /\
             other_sensors (route b sensor)
             = (other_sensors b ++ [sensor])%list) /\
          (forall j, exists t,
             stdout (print_other fromisoformat now j sensor)
             = [str (name sensor) ++ " (ID " ++ sensor_id ++ ") - Unknown";
                "  Last updated: " ++ t;
                "  State: " ++ str (state sensor);
                ""])) /\
       (lookup "state" d = None \/
        (exists st, lookup "state" d = Some (PDict st) /\
                    lookup "lastupdated" st = None) ->
          lastupdated sensor = PStr "none" /\
          forall j,
            time_ago fromisoformat now j sensor = ret "Never" /\
            (forall k,
               In (if bucket_eqb k Switch then "  Last pressed: Never"
                   else "  Last updated: Never")
                  (stdout (section_body fromisoformat now k j sensor))) /\
            stdout (print_other fromisoformat now j sensor)
            = [str (name sensor) ++ " (ID " ++ id sensor ++ ") - "
               ++ str (type sensor);
               "  Last updated: Never";
               "  State: " ++ str (state sensor);
               ""])).
Proof.
  intros Hl.
  destruct (group_returns l no_sensors Hl (Forall_nil _) (Forall_nil _)
              (Forall_nil _) (Forall_nil _)) as (b & Hb & Hm & Ht & Hd & _).
  split.
  - unfold list_sensor_activity. rewrite !outcome_bind. cbn [print outcome snd].
    cbn [items lift ok outcome snd].
    rewrite Hb, outcome_bind. cbn [ok lift outcome snd].
    apply report_returns; assumption.
  - intros sensor_id d Hin.
    pose proof (proj1 (Forall_forall _ _) Hl _ Hin) as Hwt. cbn [snd] in Hwt.
    destruct (read_sensor_fields sensor_id d Hwt)
      as (sensor & Hread & Hok & Hid & Htype & Hname & Hstate & Hconfig & Hlast).
    exists sensor. repeat (split; [assumption |]).
    split; [| split].
    + intros k Hk.
      destruct (group_filters l no_sensors b Hb)
        as (sensors & Hall & Fm & Ft & Fd & Fo).
      pose proof (read_all_in l sensors sensor_id (PDict d) sensor
                    Hall Hin Hread) as Hsensor.
      assert (Hlist : In sensor (section_list k b)).
      { destruct k; cbn [section_list];
          [rewrite Fm | rewrite Ft | rewrite Fd | rewrite Fo];
          cbn [no_sensors motion_sensors temperature_sensors dimmer_switches
                 other_sensors app];
          apply filter_In; split; assumption. }
      destruct (report_prints_record b k sensor Hm Ht Hd Hlist)
        as (j & before & between & after & E).
      exists j, (header ++ before)%list, between, after.
      rewrite (answer_stdout l b Hb), E, <- app_assoc. reflexivity.
    + intros Hnotype.
      assert (Hty : type sensor = PStr "Unknown")
        by (rewrite Htype; unfold get_or; rewrite Hnotype; reflexivity).
      assert (Hbk : in_bucket Other sensor = true)
        by (unfold in_bucket; rewrite Hty; reflexivity).
      split; [exact Hbk |]. split.
      * intros b'. unfold route. rewrite Hty. cbn. repeat split; reflexivity.
      * intros j. unfold print_other, time_ago.
        destruct (get_time_ago_returns fromisoformat (now j)
                    (lastupdated sensor)) as [t Htime].
        exists t. rewrite Htime, Hty, Hid. reflexivity.
    + intros Hnolast.
      assert (Hnone : lastupdated sensor = PStr "none").
      { destruct Hnolast as [Hs | (st & Hs & Hlu)].
        - rewrite (Hlast []).
          + reflexivity.
          + rewrite Hstate. unfold get_or. rewrite Hs. reflexivity.
        - rewrite (Hlast st).
          + unfold get_or. rewrite Hlu. reflexivity.
          + rewrite Hstate. unfold get_or. rewrite Hs. reflexivity. }
      split; [exact Hnone |].
      intros j. split; [apply none_sentinel_never; exact Hnone |].
      split; [intros k; apply never_line; assumption |].
      unfold print_other. rewrite (none_sentinel_never j sensor Hnone).
      reflexivity.
Qed.

End SensorFacts.

Section SensorExamples.

Import SensorActivity.

Lemma sensors_routed_by_type_witness :
  exists sensors,
    read_all [("1", PDict [("type", PStr "ZLLPresence")]);
              ("2", PDict [("type", PStr "Daylight")]);
              ("3", PDict [("type", PStr "ZLLLightLevel")]);
              ("4", PDict [("type", PStr "ZGPSwitch")])] = ok sensors /\
    [{| id := "1"; name := PStr "Unknown"; type := PStr "ZLLPresence";
        lastupdated := PStr "none"; state := PDict []; config := PDict [] |}]
    = filter (in_bucket Motion) sensors /\
    [{| id := "3"; name := PStr "Unknown"; type := PStr "ZLLLightLevel";
        lastupdated := PStr "none"; state := PDict []; config := PDict [] |}]
    = filter (in_bucket TemperatureLight) sensors /\
    [] = filter (in_bucket Switch) sensors /\
    [{| id := "4"; name := PStr "Unknown"; type := PStr "ZGPSwitch";
        lastupdated := PStr "none"; state := PDict []; config := PDict [] |}]
    = filter (in_bucket Other) sensors.
Proof.
  refine (proj1 (sensors_routed_by_type
                   [("1", PDict [("type", PStr "ZLLPresence")]);
                    ("2", PDict [("type", PStr "Daylight")]);
                    ("3", PDict [("type", PStr "ZLLLightLevel")]);
                    ("4", PDict [("type", PStr "ZGPSwitch")])]
                   {| motion_sensors :=
                        [{| id := "1"; name := PStr "Unknown";
                            type := PStr "ZLLPresence";
                            lastupdated := PStr "none";
                            state := PDict []; config := PDict [] |}];
                      temperature_sensors :=
                        [{| id := "3"; name := PStr "Unknown";
                            type := PStr "ZLLLightLevel";
                            lastupdated := PStr "none";
                            state := PDict []; config := PDict [] |}];
                      dimmer_switches := [];
                      other_sensors :=
                        [{| id := "4"; name := PStr "Unknown";
                            type := PStr "ZGPSwitch";
                            lastupdated := PStr "none";
                            state := PDict []; config := PDict [] |}] |}
                   _)).
  reflexivity.
Defined.

Lemma report_total_on_missing_fields_witness :
  outcome (list_sensor_activity iso_basic (fun _ => 1735689690000000)
             (Fetched (PDict [("1", PDict [("type", PStr "ZLLPresence")]);
                              ("2", PDict [("name", PStr "Porch");
                                           ("state", PDict [])]);
                              ("3", PDict [])])))
  = ok tt.
Proof.
  refine (proj1 (report_total_on_missing_fields iso_basic
                   (fun _ => 1735689690000000)
                   [("1", PDict [("type", PStr "ZLLPresence")]);
                    ("2", PDict [("name", PStr "Porch"); ("state", PDict [])]);
                    ("3", PDict [])] _)).
  repeat constructor.
Defined.

(** Temperatures as [str(temp / 100.0)] prints them. *)
Example temperatures_as_printed :
  map (fun t => match centi t with
                | inr x => str_of_double x
                | inl _ => "OverflowError"
                end)
      [2150; -5; 1999; 0; 10 ^ 17; 10 ^ 18; 10 ^ 400]
  = ["21.5"; "-0.05"; "19.99"; "0.0"; "1000000000000000.0"; "1e+16";
     "OverflowError"].
Proof. vm_compute. reflexivity. Qed.

(** The report does fail on a record whose [state] is not an object: the
    hypothesis on the fields that are present cannot be dropped. *)
Example report_fails_on_null_state :
  list_sensor_activity iso_basic (fun _ => 1735689690000000)
    (Fetched (PDict [("1", PDict [("state", PNone)])]))
  = ([str_mul "=" 80; "HUE SENSOR ACTIVITY"; str_mul "=" 80; ""],
     raise AttributeError).
Proof. reflexivity. Qed.

End SensorExamples.

(* ================================================================== *)
(** * Properties of the light list *)
(* ================================================================== *)

Section ListLightsFacts.

Import ListLights.

(** On the scale of the device the two roundings of [bri/254*100] leave
    the whole part of [100 * bri / 254] as it is: checked on each of the
    255 values. *)
Lemma int_percent_scale (z : Z) :
  0 <= z <= 254 -> int_percent z = ok (z * 100 / 254).
Proof.
  intros Hz.
  assert (H : forallb (fun n => match int_percent (Z.of_nat n) with
                                | inr p => p =? Z.of_nat n * 100 / 254
                                | inl _ => false
                                end) (seq 0 255) = true)
    by (vm_compute; reflexivity).
  rewrite forallb_forall in H.
  specialize (H (Z.to_nat z)). rewrite Z2Nat.id in H by lia.
  assert (Hin : In (Z.to_nat z) (seq 0 255)) by (apply in_seq; lia).
  specialize (H Hin).
  destruct (int_percent z) as [e | p]; [discriminate H |].
  apply Z.eqb_eq in H. rewrite H. reflexivity.
Qed.

Lemma percent_range (z p : Z) :
  0 <= z <= 254 -> p = Z.quot (z * 100) 254 ->
  0 <= p <= 100 /\ 254 * p <= 100 * z < 254 * (p + 1).
Proof.
  intros Hz ->. rewrite Z.quot_div_nonneg by lia.
  pose proof (Z.div_mod (z * 100) 254 ltac:(lia)).
  pose proof (Z.mod_pos_bound (z * 100) 254 ltac:(lia)).
  lia.
Qed.

(** C8.  A light that is off shows "N/A" whatever its stored brightness, be
    it not even a number.  A light that is on with a stored brightness [z]
    between 0 and 254 shows [p]%, where [p] is [100 * z / 254] rounded down,
    between 0 and 100: 254 shows 100% and 127 shows 50%.  That string is the
    brightness line [list_lights] prints for the light. *)
Theorem brightness_display (on bri : pyval) (z : Z) :
  0 <= z <= 254 ->
  (truthy on = false -> brightness on bri = ok "N/A") /\
  (truthy on = true ->
   exists p, brightness on (PInt z) = ok (str_of_Z p ++ "%") /\
             0 <= p <= 100 /\ 254 * p <= 100 * z < 254 * (p + 1)) /\
  brightness (PBool true) (PInt 254) = ok "100%" /\
  brightness (PBool true) (PInt 127) = ok "50%" /\
  brightness (PBool false) (PInt 254) = ok "N/A" /\
  brightness (PBool false) (PStr "bright") = ok "N/A" /\
  (forall light_id d st b,
     get_or "state" d (PDict []) = PDict st ->
     brightness (get_or "on" st (PBool false)) (get_or "bri" st (PInt 0)) = ok b ->
     print_light (light_id, PDict d)
     = (["ID " ++ light_id ++ ": " ++ str (get_or "name" d (PStr "Unknown"));
         "  Status: " ++ status (get_or "on" st (PBool false));
         "  Brightness: " ++ b;
         "  Model: " ++ str (get_or "modelid" d (PStr "Unknown"));
         ""], ok tt)).
Proof.
  intros Hz.
  split; [intros Hoff; unfold brightness; rewrite Hoff; reflexivity |].
  split.
  { intros Hon. exists (Z.quot (z * 100) 254).
    split; [| apply (percent_range z); [exact Hz | reflexivity]].
    unfold brightness, percent. rewrite Hon, (int_percent_scale z Hz).
    rewrite Z.quot_div_nonneg by lia. reflexivity. }
  repeat (split; [reflexivity |]).
  intros light_id d st b Hst Hb.
  unfold print_light. cbn [get ok lift Py.bind].
  rewrite Hst. cbn [get ok lift Py.bind]. rewrite Hb. reflexivity.
Qed.

Lemma brightness_display_witness :
  exists p, brightness (PBool true) (PInt 200) = ok (str_of_Z p ++ "%") /\
            0 <= p <= 100 /\ 254 * p <= 100 * 200 < 254 * (p + 1).
Proof.
  refine (proj1 (proj2 (brightness_display (PBool true) PNone 200 _)) _).
  - lia.
  - reflexivity.
Defined.

(** A whole answer: one light on at full brightness, one off. *)
Example two_lights :
  list_lights
    (PDict [("9", PDict [("name", PStr "loungeLight2");
                         ("state", PDict [("on", PBool true); ("bri", PInt 254)]);
                         ("modelid", PStr "LCT015")]);
            ("3", PDict [("name", PStr "Hall");
                         ("state", PDict [("on", PBool false); ("bri", PInt 127)])])])
  = ([nl ++ str_mul "=" 60; "Hue Lights on Bridge 192.168.68.62";
      str_mul "=" 60 ++ nl;
      "ID 9: loungeLight2"; "  Status: ON"; "  Brightness: 100%";
      "  Model: LCT015"; "";
      "ID 3: Hall"; "  Status: OFF"; "  Brightness: N/A";
      "  Model: Unknown"; ""], ok tt).
Proof. reflexivity. Qed.

End ListLightsFacts.

(* ================================================================== *)
(** * Properties of the configuration pushes *)
(* ================================================================== *)

Section PushFacts.

Import ConfigPush.

Variable json_dumps : pyval -> string.
Variable bridge : request -> response.

(** C7, as the code has it.  Each of the three scripts sends its request
    once, whatever the answer.  It reports an error exactly when the status
    is not 200: the status, then the body of the answer (its first 500
    characters in [simplify_office_v2.py]).  On status 200 it reports
    success: [simplify_office_v2.py] prints four fixed lines;
    [simplify_office_dimmer.py] and [update_outdoor_automation.py] print
    their success line and then the JSON body back, or, when the body is
    not JSON, end on the exception of [response.json()] after the success
    line. *)
Theorem push_reports_by_status_200 :
  (sent (fst (simplify_office_dimmer json_dumps bridge)) = [dimmer_request] /\
   sent (fst (simplify_office_v2 bridge)) = [dimmer_request] /\
   sent (fst (update_outdoor_automation json_dumps bridge)) = [outdoor_request]) /\
  (status_code (bridge dimmer_request) <> 200 ->
   simplify_office_dimmer json_dumps bridge
   = (fst (simplify_office_dimmer json_dumps bridge), ok tt) /\
   after_put (fst (simplify_office_dimmer json_dumps bridge))
   = [nl ++ "[ERROR] Status: " ++ str_of_Z (status_code (bridge dimmer_request));
      text (bridge dimmer_request)] /\
   simplify_office_v2 bridge = (fst (simplify_office_v2 bridge), ok tt) /\
   after_put (fst (simplify_office_v2 bridge))
   = ["[ERROR] Status: " ++ str_of_Z (status_code (bridge dimmer_request));
      take_chars 500 (text (bridge dimmer_request))]) /\
  (status_code (bridge dimmer_request) = 200 ->
   (forall v, json (bridge dimmer_request) = Some v ->
      simplify_office_dimmer json_dumps bridge
      = (fst (simplify_office_dimmer json_dumps bridge), ok tt) /\
      after_put (fst (simplify_office_dimmer json_dumps bridge))
      = [nl ++ "[SUCCESS] OfficeDimmer simplified!"; json_dumps v]) /\
   (json (bridge dimmer_request) = None ->
      simplify_office_dimmer json_dumps bridge
      = (fst (simplify_office_dimmer json_dumps bridge), raise ValueError) /\
      after_put (fst (simplify_office_dimmer json_dumps bridge))
      = [nl ++ "[SUCCESS] OfficeDimmer simplified!"]) /\
   simplify_office_v2 bridge = (fst (simplify_office_v2 bridge), ok tt) /\
   after_put (fst (simplify_office_v2 bridge))
   = ["[SUCCESS] OfficeDimmer simplified!";
      "  ON button: Turn all lights ON at 100%";
      "  OFF button: Turn all lights OFF";
      "  Brighten/Dim: Still work"]) /\
  (status_code (bridge outdoor_request) <> 200 ->
   update_outdoor_automation json_dumps bridge
   = (fst (update_outdoor_automation json_dumps bridge), ok tt) /\
   after_put (fst (update_outdoor_automation json_dumps bridge))
   = [nl ++ cross_mark ++ " Error: "
      ++ str_of_Z (status_code (bridge outdoor_request));
      text (bridge outdoor_request)]) /\
  (status_code (bridge outdoor_request) = 200 ->
   (forall v, json (bridge outdoor_request) = Some v ->
      update_outdoor_automation json_dumps bridge
      = (fst (update_outdoor_automation json_dumps bridge), ok tt) /\
      after_put (fst (update_outdoor_automation json_dumps bridge))
      = [nl ++ check_mark ++ " Automation updated successfully!";
         json_dumps v]) /\
   (json (bridge outdoor_request) = None ->
      update_outdoor_automation json_dumps bridge
      = (fst (update_outdoor_automation json_dumps bridge), raise ValueError) /\
      after_put (fst (update_outdoor_automation json_dumps bridge))
      = [nl ++ check_mark ++ " Automation updated successfully!"])).
Proof.
  unfold simplify_office_dimmer, simplify_office_v2, update_outdoor_automation,
    response_json, dimmer_error_line.
  split; [| split; [| split; [| split]]].
  - destruct (status_code (bridge dimmer_request) =? 200);
      destruct (status_code (bridge outdoor_request) =? 200);
      destruct (json (bridge dimmer_request));
      destruct (json (bridge outdoor_request)); repeat split; reflexivity.
  - intros H. apply Z.eqb_neq in H. rewrite H. repeat split; reflexivity.
  - intros H. apply Z.eqb_eq in H. rewrite H.
    split; [| split; [| split; reflexivity]].
    + intros v Hv. rewrite Hv. split; reflexivity.
    + intros Hv. rewrite Hv. split; reflexivity.
  - intros H. apply Z.eqb_neq in H. rewrite H. split; reflexivity.
  - intros H. apply Z.eqb_eq in H. rewrite H. split.
    + intros v Hv. rewrite Hv. split; reflexivity.
    + intros Hv. rewrite Hv. split; reflexivity.
Qed.

End PushFacts.

Section PushExamples.

Import ConfigPush.

(** A bridge that answers 200 with an empty object; [repr] stands for
    [json.dumps], both print the empty object as [{}]. *)
Lemma push_reports_by_status_200_witness :
  after_put (fst (simplify_office_dimmer repr
                    (fun _ => {| status_code := 200; text := "{}";
                                 json := Some (PDict []) |})))
  = [nl ++ "[SUCCESS] OfficeDimmer simplified!"; "{}"].
Proof.
  refine (proj2 (proj1 (proj1 (proj2 (proj2
            (push_reports_by_status_200 repr
               (fun _ => {| status_code := 200; text := "{}";
                            json := Some (PDict []) |})))) _)
            (PDict []) _)).
  - reflexivity.
  - reflexivity.
Defined.

(** C7, as first stated, fails: the answer 201 Created is a 2xx answer, and
    [simplify_office_dimmer.py] reports it as an error, while the statement
    has an error reported exactly for the statuses outside 200..299. *)
Lemma push_201_reported_as_error :
  after_put (fst (simplify_office_dimmer repr
                    (fun _ => {| status_code := 201; text := "Created";
                                 json := Some (PDict []) |})))
  = [dimmer_error_line 201; "Created"] /\
  ~ (forall bridge : request -> response,
       In (dimmer_error_line (status_code (bridge dimmer_request)))
          (after_put (fst (simplify_office_dimmer repr bridge)))
       <-> ~ (200 <= status_code (bridge dimmer_request) < 300)).
Proof.
  split; [reflexivity |].
  intros H.
  specialize (H (fun _ => {| status_code := 201; text := "Created";
                             json := Some (PDict []) |})).
  cbn [status_code] in H. apply (proj1 H); [left; reflexivity | lia].
Qed.

End PushExamples.

(* ================================================================== *)
(** * More on the color loop *)
(* ================================================================== *)

Section ColorLoopMore.

Import ColorLoop.

Variable float : Type.
Variable float_of_str : string -> option float.
Variable str_of_float : float -> string.
Variable clock : nat -> Q.

Lemma nonzero_truthy (d : Z) : d <> 0 -> truthy (PInt d) = true.
Proof.
  intros H. cbn [truthy]. destruct (Z.eqb_spec d 0); [contradiction | reflexivity].
Qed.

Lemma pass_puts_length (hue : Z) (l : list nat) :
  List.length (flat_map (pass_puts float hue) l) = (2 * List.length l)%nat.
Proof.
  induction l as [|n l IH]; [reflexivity |].
  cbn [flat_map]. rewrite length_app, IH. cbn. lia.
Qed.

Lemma iter_next_hue_closed (n : nat) :
  Nat.iter n next_hue 0 = (5000 * Z.of_nat n) mod 65535.
Proof.
  induction n as [|n IH]; [reflexivity |].
  rewrite Nat.iter_succ, IH. unfold next_hue.
  rewrite Zplus_mod_idemp_l. f_equal. lia.
Qed.

(** X2.  The hue of pass [n] is [5000 * n mod 65535].  It is always a
    multiple of 5, and it is back at 0 exactly every 13107 passes: the loop
    cycles through 13107 hues, and pass [n + 13107] shows the hue of pass
    [n]. *)
Theorem hue_cycle (n : nat) :
  Nat.iter n next_hue 0 = (5000 * Z.of_nat n) mod 65535 /\
  (Nat.iter n next_hue 0) mod 5 = 0 /\
  Nat.iter (n + Z.to_nat 13107) next_hue 0 = Nat.iter n next_hue 0 /\
  (Nat.iter n next_hue 0 = 0 <-> exists q, Z.of_nat n = 13107 * q).
Proof.
  rewrite !iter_next_hue_closed.
  split; [reflexivity |].
  split.
  { pose proof (Z.div_mod (5000 * Z.of_nat n) 65535 ltac:(lia)) as H.
    replace ((5000 * Z.of_nat n) mod 65535)
      with ((1000 * Z.of_nat n - 13107 * ((5000 * Z.of_nat n) / 65535)) * 5)
      by lia.
    apply Z_mod_mult. }
  split.
  { replace (5000 * Z.of_nat (n + Z.to_nat 13107))
      with (5000 * Z.of_nat n + 1000 * 65535) by lia.
    apply Z_mod_plus_full. }
  split.
  - intros H.
    apply Z.mod_divide in H; [| lia].
    destruct H as [c Hc].
    assert (Hdiv : (13107 | 1000 * Z.of_nat n)).
    { exists c. lia. }
    apply Z.gauss in Hdiv.
    + destruct Hdiv as [q Hq]. exists q. lia.
    + reflexivity.
  - intros [q Hq]. rewrite Hq.
    replace (5000 * (13107 * q)) with (q * 1000 * 65535) by lia.
    apply Z_mod_mult.
Qed.

Lemma hue_cycle_aux (n : nat) :
  0 <= Nat.iter n next_hue 0 < 65535 /\ (Nat.iter n next_hue 0) mod 5 = 0.
Proof.
  split; [apply iter_next_hue_range |].
  rewrite iter_next_hue_closed.
  pose proof (Z.div_mod (5000 * Z.of_nat n) 65535 ltac:(lia)) as H.
  replace ((5000 * Z.of_nat n) mod 65535)
    with ((1000 * Z.of_nat n - 13107 * ((5000 * Z.of_nat n) / 65535)) * 5)
    by lia.
  apply Z_mod_mult.
Qed.

(** X3.  Whatever the duration and the clock, every state update of a run
    turns light 9 or light 12 to saturation 254, brightness 254 and
    transition time 10, with a hue in [0, 65535) that is a multiple of 5. *)
Theorem puts_well_formed (fuel : nat) (duration : option Z)
    (speed : number float) (e : event (number float)) :
  In e (puts (fst (color_loop str_of_float clock fuel duration speed))) ->
  exists light_id hue,
    e = PutState light_id hue 254 254 10 /\
    (light_id = 9 \/ light_id = 12) /\
    0 <= hue < 65535 /\ hue mod 5 = 0.
Proof.
  intros Hin.
  assert (Hputs : exists m,
             puts (fst (color_loop str_of_float clock fuel duration speed))
             = flat_map (pass_puts float 0) (seq 0 m)).
  { unfold color_loop.
    destruct (loop_puts float clock fuel duration speed (clock 0) 1 0)
      as (m & _ & Hp).
    destruct (loop clock fuel duration speed (clock 0) 1 0) as [trace broke].
    exists m. cbn [fst] in Hp |- *. unfold puts in *. rewrite filter_app.
    exact Hp. }
  destruct Hputs as [m Hputs]. rewrite Hputs in Hin.
  apply in_flat_map in Hin. destruct Hin as (n & _ & Hn).
  unfold pass_puts, LOUNGE_COLOR_LIGHTS, set_light_color in Hn.
  cbn [map In] in Hn.
  destruct (hue_cycle_aux n) as [Hr H5].
  destruct Hn as [<- | [<- | []]]; eexists _, _;
    (split; [reflexivity |]); (split; [auto |]); split; assumption.
Qed.

(** ** The run, pass by pass *)


(** ** The command line *)

Lemma digits_acc (d : Decimal.uint) :
  forall p, digits (Z.pos p) true (NilEmpty.string_of_uint d)
            = Some (Z.pos (Pos.of_uint_acc d p)).
Proof.
  induction d; intros p; cbn [NilEmpty.string_of_uint digits Pos.of_uint_acc];
    [reflexivity | ..].
  all: change (is_digit _) with true; cbv iota.
  all: unfold digit_val;
    match goal with
    | |- context [Z.of_nat (nat_of_ascii ?c)] =>
        let v := eval vm_compute in (Z.of_nat (nat_of_ascii c)) in
        change (Z.of_nat (nat_of_ascii c)) with v
    end.
  all: match goal with
       | |- digits ?a true _ = Some (Z.pos (Pos.of_uint_acc _ ?q)) =>
           replace a with (Z.pos q) by lia
       end; apply IHd.
Qed.

Lemma digits_zero (d : Decimal.uint) :
  forall b, (d <> Decimal.Nil \/ b = true) ->
    digits 0 b (NilEmpty.string_of_uint d) = Some (Z.of_N (Pos.of_uint d)).
Proof.
  induction d; intros b Hb; cbn [NilEmpty.string_of_uint digits Pos.of_uint];
    try (change (is_digit _) with true; cbv iota).
  - destruct Hb as [Hb | ->]; [contradiction | reflexivity].
  - change (10 * 0 + digit_val "0") with 0. apply IHd. right. reflexivity.
  - apply (digits_acc d 1).
  - apply (digits_acc d 2).
  - apply (digits_acc d 3).
  - apply (digits_acc d 4).
  - apply (digits_acc d 5).
  - apply (digits_acc d 6).
  - apply (digits_acc d 7).
  - apply (digits_acc d 8).
  - apply (digits_acc d 9).
Qed.

(** The decimal text of a number has no blank to strip. *)
Lemma strip_digits (d : Decimal.uint) :
  d <> Decimal.Nil ->
  rstrip (NilEmpty.string_of_uint d) = NilEmpty.string_of_uint d /\
  NilEmpty.string_of_uint d <> "".
Proof.
  induction d; intros Hd; [contradiction | ..];
    cbn [NilEmpty.string_of_uint rstrip];
    (destruct d;
     [ cbn; split; [reflexivity | discriminate]
     | destruct IHd as [-> Hne]; [discriminate |];
       split; [| discriminate];
       destruct (NilEmpty.string_of_uint _) eqn:E; [contradiction | reflexivity] ..]).
Qed.

(** A text in ASCII is left as it is. *)
Lemma ascii_text_ascii (s : string) :
  Forall (fun a => (nat_of_ascii a < 128)%nat) (list_ascii_of_string s) ->
  ascii_text s = s.
Proof.
  unfold ascii_text, code_points.
  assert (H : forall fuel,
             (String.length s <= fuel)%nat ->
             Forall (fun a => (nat_of_ascii a < 128)%nat)
                    (list_ascii_of_string s) ->
             string_of_list_ascii (map to_ascii (code_points_of fuel s)) = s).
  { induction s as [|a s IH]; intros fuel Hfuel Hs.
    - destruct fuel; reflexivity.
    - destruct fuel as [|fuel]; [cbn in Hfuel; lia |].
      cbn [list_ascii_of_string] in Hs. inversion Hs as [|? ? Ha Hs']; subst.
      cbn [code_points_of]. unfold decode_one, byte.
      destruct (Z.ltb_spec (Z.of_nat (nat_of_ascii a)) 128); [| lia].
      cbn [map string_of_list_ascii].
      rewrite IH by (cbn in Hfuel; lia || assumption).
      f_equal. unfold to_ascii.
      destruct (Z.leb_spec 0 (Z.of_nat (nat_of_ascii a))); [| lia].
      destruct (Z.ltb_spec (Z.of_nat (nat_of_ascii a)) 128); [| lia].
      cbn [andb]. rewrite Nat2Z.id. apply ascii_nat_embedding. }
  intros Hs. apply H; [lia | exact Hs].
Qed.

Lemma uint_ascii (d : Decimal.uint) :
  Forall (fun a => (nat_of_ascii a < 128)%nat)
         (list_ascii_of_string (NilEmpty.string_of_uint d)).
Proof.
  induction d; cbn [NilEmpty.string_of_uint list_ascii_of_string];
    [constructor | constructor; [cbn; lia | exact IHd] ..].
Qed.

(** Every character of the decimal text of a number is a digit. *)
Lemma count_digits_uint (d : Decimal.uint) :
  count_digits (NilEmpty.string_of_uint d)
  = String.length (NilEmpty.string_of_uint d).
Proof.
  induction d; cbn [NilEmpty.string_of_uint count_digits String.length];
    [reflexivity | ..];
    change (is_digit _) with true; cbv iota; rewrite IHd; reflexivity.
Qed.

Lemma py_int_unsigned (d : Decimal.uint) :
  d <> Decimal.Nil ->
  py_int (NilEmpty.string_of_uint d)
  = if (4300 <? count_digits (NilEmpty.string_of_uint d))%nat then None
    else Some (Z.of_N (Pos.of_uint d)).
Proof.
  intros Hd. unfold py_int. rewrite (ascii_text_ascii _ (uint_ascii d)).
  destruct (strip_digits d Hd) as [-> _].
  rewrite <- (digits_zero d false (or_introl Hd)).
  destruct d; [contradiction | reflexivity ..].
Qed.

Lemma py_int_negated (d : Decimal.uint) :
  d <> Decimal.Nil ->
  py_int (String "-" (NilEmpty.string_of_uint d))
  = if (4300 <? count_digits (NilEmpty.string_of_uint d))%nat then None
    else Some (- Z.of_N (Pos.of_uint d)).
Proof.
  intros Hd. unfold py_int.
  rewrite ascii_text_ascii
    by (cbn [list_ascii_of_string]; constructor; [cbn; lia | apply uint_ascii]).
  cbn [rstrip].
  destruct (strip_digits d Hd) as [-> Hne].
  destruct (NilEmpty.string_of_uint d) eqn:E; [contradiction |].
  rewrite <- E. cbn [lstrip]. change (is_space "-") with false. cbv iota.
  unfold int_digits.
  rewrite (digits_zero d false (or_introl Hd)).
  destruct (4300 <? count_digits (NilEmpty.string_of_uint d))%nat; reflexivity.
Qed.

Lemma nilzero_nonnil (d : Decimal.uint) :
  d <> Decimal.Nil -> NilZero.string_of_uint d = NilEmpty.string_of_uint d.
Proof.
  intros Hd. destruct d; [contradiction | reflexivity ..].
Qed.

(** [int(str(z))] is [z], unless [z] has more than 4300 digits. *)
Lemma py_int_str_of_Z (z : Z) :
  py_int (str_of_Z z)
  = if (4300 <? count_digits (str_of_Z z))%nat then None else Some z.
Proof.
  unfold str_of_Z. destruct z as [|p|p]; [reflexivity | |];
    cbn [Z.to_int NilZero.string_of_int];
    pose proof (Unsigned.to_uint_nonnil p) as Hnn;
    rewrite (nilzero_nonnil _ Hnn).
  - rewrite (py_int_unsigned _ Hnn), Unsigned.of_to. reflexivity.
  - rewrite (py_int_negated _ Hnn), Unsigned.of_to. reflexivity.
Qed.

Lemma parse_speed_no_put (argv : list string) :
  puts (fst (parse_speed float_of_str argv)) = [].
Proof.
  unfold parse_speed. destruct argv as [|a [|b r]]; try reflexivity.
  destruct (float_of_str b); reflexivity.
Qed.

Lemma parse_duration_no_put (argv : list string) :
  puts (fst (parse_duration float argv)) = [].
Proof.
  unfold parse_duration. destruct argv as [|a [|b [|c r]]]; try reflexivity.
  destruct (py_int c); reflexivity.
Qed.

(** The script is the loop on the two values read from the command line:
    same state updates, same way out. *)
Lemma main_as_color_loop (fuel : nat) (argv : list string) :
  snd (main float_of_str str_of_float clock fuel argv)
  = snd (color_loop str_of_float clock fuel
           (snd (parse_duration float argv))
           (snd (parse_speed float_of_str argv))) /\
  puts (fst (main float_of_str str_of_float clock fuel argv))
  = puts (fst (color_loop str_of_float clock fuel
                 (snd (parse_duration float argv))
                 (snd (parse_speed float_of_str argv)))).
Proof.
  unfold main.
  pose proof (parse_speed_no_put argv) as H1.
  pose proof (parse_duration_no_put argv) as H2.
  destruct (parse_speed float_of_str argv) as [out1 speed].
  destruct (parse_duration float argv) as [out2 duration].
  cbn [fst snd] in *.
  destruct (color_loop str_of_float clock fuel duration speed) as [trace broke].
  cbn [fst snd]. split; [reflexivity |].
  unfold puts in *. rewrite !filter_app, H1, H2. reflexivity.
Qed.

(** X4.  A duration typed as the decimal text of an integer of at most
    4300 digits, negative or not, is read back as that integer, with no
    warning, whatever the other arguments.  With more digits [int] refuses
    it: the warning is printed and the script runs with no duration. *)
Theorem duration_argument_read_back (d : Z) (prog speed : string)
    (rest : list string) :
  (count_digits (str_of_Z d) <= 4300)%nat ->
  parse_duration float (prog :: speed :: str_of_Z d :: rest) = ([], Some d) /\
  (forall d' : Z,
     (4300 < count_digits (str_of_Z d'))%nat ->
     parse_duration float (prog :: speed :: str_of_Z d' :: rest)
     = ([Print "Invalid duration value. Running forever."], None)).
Proof.
  intros Hd. unfold parse_duration. rewrite !py_int_str_of_Z. split.
  - destruct (Nat.ltb_spec 4300 (count_digits (str_of_Z d))); [lia | reflexivity].
  - intros d' Hd'. rewrite py_int_str_of_Z.
    destruct (Nat.ltb_spec 4300 (count_digits (str_of_Z d'))); [reflexivity | lia].
Qed.

(** X6.  A negative duration on the command line stops the script at the
    first check, before any light is touched, provided the clock has not
    gone back since the start. *)
Theorem main_negative_duration_stops (fuel : nat) (argv : list string) (d : Z) :
  snd (parse_duration float argv) = Some d ->
  d < 0 ->
  (clock 0 <= clock 1)%Q ->
  snd (main float_of_str str_of_float clock (S fuel) argv) = true /\
  puts (fst (main float_of_str str_of_float clock (S fuel) argv)) = [].
Proof.
  intros Hparse Hd Hclock.
  destruct (main_as_color_loop (S fuel) argv) as [-> ->]. rewrite Hparse.
  apply color_loop_negative_duration_stops; assumption.
Qed.

End ColorLoopMore.

(* ================================================================== *)
(** * The color loop when a call can raise *)
(* ================================================================== *)

Section ColorLoopRunFacts.

Import ColorLoop.

Variable float : Type.
Variable float_of_str : string -> option float.
Variable str_of_float : float -> string.
Variable clock : nat -> Q.
Variable sleep_raises : number float -> option exn.
Variable put_raises : nat -> option exn.

Local Abbreviation run := (ColorLoopRun.loop clock sleep_raises put_raises).
Local Abbreviation passes speed hue m :=
  (flat_map (ColorLoopTrace.pass_events speed hue) (seq 0 m)).

(** One pass of the loop, case by case. *)
Lemma run_S (fuel : nat) (duration : option Z) (speed : number float)
    (start_time : Q) (reads sent : nat) (hue : Z) :
  run (S fuel) duration speed start_time reads sent hue
  = let '(stop, reads') := exceeded clock duration start_time reads in
    if stop then
      (ColorLoopTrace.duration_reached, ColorLoopRun.Stopped)
    else
      match put_raises sent with
      | Some e => ([set_light_color 9 hue 254 254], ColorLoopRun.Raised e)
      | None =>
          match put_raises (S sent) with
          | Some e => (pass_puts float hue 0, ColorLoopRun.Raised e)
          | None =>
              match sleep_raises speed with
              | Some e =>
                  (ColorLoopTrace.pass_events speed hue 0,
                   ColorLoopRun.Raised e)
              | None =>
                  let '(rest, r) :=
                    run fuel duration speed start_time reads' (sent + 2)
                        (next_hue hue) in
                  ((ColorLoopTrace.pass_events speed hue 0 ++ rest)%list, r)
              end
          end
      end.
Proof.
  cbn [ColorLoopRun.loop ColorLoopRun.set_lights LOUNGE_COLOR_LIGHTS].
  destruct (exceeded clock duration start_time reads) as [[|] reads'];
    [reflexivity |].
  destruct (put_raises sent); [reflexivity |].
  destruct (put_raises (S sent)); [reflexivity |].
  destruct (sleep_raises speed); reflexivity.
Qed.



(** When every call returns, the run is the one of [ColorLoop.loop]. *)
Lemma run_answered (fuel : nat) (duration : option Z) (speed : number float)
    (start_time : Q) :
  sleep_raises speed = None ->
  (forall n, put_raises n = None) ->
  forall (reads sent : nat) (hue : Z),
    run fuel duration speed start_time reads sent hue
    = (fst (loop clock fuel duration speed start_time reads hue),
       if snd (loop clock fuel duration speed start_time reads hue)
       then ColorLoopRun.Stopped else ColorLoopRun.Running).
Proof.
  intros Hsleep Hput.
  induction fuel as [|fuel IH]; intros reads sent hue; [reflexivity |].
  rewrite run_S, loop_S.
  destruct (exceeded clock duration start_time reads) as [[|] reads'];
    [reflexivity |].
  rewrite !Hput, Hsleep, (IH reads' (sent + 2)%nat (next_hue hue)).
  destruct (loop clock fuel duration speed start_time reads' (next_hue hue))
    as [rest broke].
  reflexivity.
Qed.

(** ** The run, pass by pass *)



(** ** The duration *)

(** The loop runs its passes while the check of line 44 fails and takes its
    [break] the first time it holds. *)
Lemma run_until_exceeded (k : nat) :
  forall (fuel : nat) (d : Z) (speed : number float) (start_time : Q)
         (reads sent : nat) (hue : Z),
    d <> 0 ->
    (forall i, (i < k)%nat ->
       float_sub_gt (clock (reads + i)) start_time d = false) ->
    float_sub_gt (clock (reads + k)) start_time d = true ->
    (forall n, (n < 2 * k)%nat -> put_raises (sent + n) = None) ->
    ((0 < k)%nat -> sleep_raises speed = None) ->
    (k < fuel)%nat ->
    snd (run fuel (Some d) speed start_time reads sent hue)
    = ColorLoopRun.Stopped /\
    puts (fst (run fuel (Some d) speed start_time reads sent hue))
    = flat_map (pass_puts float hue) (seq 0 k).
Proof.
  induction k as [|k IH];
    intros fuel d speed start_time reads sent hue Hd Hle Hgt Hput Hsleep Hfuel;
    (destruct fuel as [|fuel]; [lia |]); rewrite run_S; unfold exceeded;
    rewrite (nonzero_truthy d Hd).
  - rewrite Nat.add_0_r in Hgt. rewrite Hgt. split; reflexivity.
  - pose proof (Hle 0%nat ltac:(lia)) as H0. rewrite Nat.add_0_r in H0.
    rewrite H0.
    pose proof (Hput 0%nat ltac:(lia)) as Hp0. rewrite Nat.add_0_r in Hp0.
    pose proof (Hput 1%nat ltac:(lia)) as Hp1.
    replace (sent + 1)%nat with (S sent) in Hp1 by lia.
    rewrite Hp0, Hp1, (Hsleep ltac:(lia)).
    destruct (IH fuel d speed start_time (S reads) (sent + 2)%nat
                 (next_hue hue) Hd) as [Hb Hp].
    + intros i Hi. specialize (Hle (S i) ltac:(lia)).
      rewrite Nat.add_succ_r in Hle. exact Hle.
    + rewrite Nat.add_succ_r in Hgt. exact Hgt.
    + intros n Hn. replace (sent + 2 + n)%nat with (sent + S (S n))%nat by lia.
      apply Hput. lia.
    + intros _. apply Hsleep. lia.
    + lia.
    + destruct (run fuel (Some d) speed start_time (S reads) (sent + 2)%nat
                    (next_hue hue)) as [rest r].
      cbn [fst snd] in Hb, Hp |- *. split; [exact Hb |].
      cbn [seq flat_map]. rewrite <- seq_shift, pass_puts_shift, <- Hp.
      reflexivity.
Qed.

(** X1.  A duration other than 0 bounds the run by the clock.  If the
    first [k] checks of line 44 find the rounded elapsed time not larger
    than the duration and the next one finds it larger, and every call of
    the [k] passes returns (the first [2 * k] updates, and the sleep if
    there is a pass at all), then the loop does exactly [k] passes, two
    state updates each, and takes its [break]. *)
Theorem color_loop_stops_after_duration (k fuel : nat) (d : Z)
    (speed : number float) :
  d <> 0 ->
  (forall i, (1 <= i <= k)%nat -> float_sub_gt (clock i) (clock 0) d = false) ->
  float_sub_gt (clock (S k)) (clock 0) d = true ->
  (forall n, (n < 2 * k)%nat -> put_raises n = None) ->
  ((0 < k)%nat -> sleep_raises speed = None) ->
  (k < fuel)%nat ->
  snd (ColorLoopRun.color_loop str_of_float clock sleep_raises put_raises
         fuel (Some d) speed) = ColorLoopRun.Stopped /\
  puts (fst (ColorLoopRun.color_loop str_of_float clock sleep_raises
               put_raises fuel (Some d) speed))
  = flat_map (pass_puts float 0) (seq 0 k) /\
  List.length (puts (fst (ColorLoopRun.color_loop str_of_float clock
                            sleep_raises put_raises fuel (Some d) speed)))
  = (2 * k)%nat.
Proof.
  intros Hd Hle Hgt Hput Hsleep Hfuel.
  destruct (run_until_exceeded k fuel d speed (clock 0) 1 0 0 Hd) as [Hb Hp];
    try assumption.
  { intros i Hi. apply Hle. lia. }
  unfold ColorLoopRun.color_loop.
  destruct (run fuel (Some d) speed (clock 0) 1%nat 0%nat 0) as [trace r].
  cbn [fst snd] in Hb, Hp |- *.
  assert (Hputs : puts (([Print ("Starting color loop for lounge lights (IDs: "
                                 ++ str (PList (map PInt LOUNGE_COLOR_LIGHTS)) ++ ")");
                          Print ("Speed: " ++ str_of_number str_of_float speed
                                 ++ " seconds per color change");
                          Print (if truthy (PInt d)
                                 then "Duration: " ++ str_of_Z d ++ " seconds"
                                 else "Duration: Forever (press Ctrl+C to stop)");
                          Print ""] ++ trace)%list)
                  = flat_map (pass_puts float 0) (seq 0 k)).
  { unfold puts in *. rewrite filter_app. exact Hp. }
  split; [exact Hb |]. split; [exact Hputs |].
  rewrite Hputs, pass_puts_length, length_seq. reflexivity.
Qed.

(** ** No duration *)

Lemma run_no_duration (fuel : nat) (speed : number float) (start_time : Q) :
  forall (reads sent : nat) (hue : Z),
    snd (run fuel None speed start_time reads sent hue)
    <> ColorLoopRun.Stopped /\
    (sleep_raises speed = None ->
     (forall n, (n < 2 * fuel)%nat -> put_raises (sent + n) = None) ->
     snd (run fuel None speed start_time reads sent hue)
     = ColorLoopRun.Running /\
     List.length (puts (fst (run fuel None speed start_time reads sent hue)))
     = (2 * fuel)%nat).
Proof.
  induction fuel as [|fuel IH]; intros reads sent hue.
  - split; [discriminate |]. intros _ _. split; reflexivity.
  - rewrite run_S. cbn [exceeded].
    destruct (IH reads (sent + 2)%nat (next_hue hue)) as [Hns Hrun].
    split.
    + destruct (put_raises sent); [discriminate |].
      destruct (put_raises (S sent)); [discriminate |].
      destruct (sleep_raises speed); [discriminate |].
      destruct (run fuel None speed start_time reads (sent + 2)%nat
                    (next_hue hue)) as [rest r].
      exact Hns.
    + intros Hsleep Hput.
      pose proof (Hput 0%nat ltac:(lia)) as Hp0. rewrite Nat.add_0_r in Hp0.
      pose proof (Hput 1%nat ltac:(lia)) as Hp1.
      replace (sent + 1)%nat with (S sent) in Hp1 by lia.
      rewrite Hp0, Hp1, Hsleep.
      destruct (Hrun Hsleep) as [Hr Hl].
      { intros n Hn.
        replace (sent + 2 + n)%nat with (sent + S (S n))%nat by lia.
        apply Hput. lia. }
      destruct (run fuel None speed start_time reads (sent + 2)%nat
                    (next_hue hue)) as [rest r].
      cbn [fst snd] in Hr, Hl |- *. split; [exact Hr |].
      unfold puts in *. rewrite filter_app, length_app. cbn. rewrite Hl. lia.
Qed.

(** The script is the loop on the two values read from the command line:
    same state updates, same ending. *)
Lemma main_as_run (fuel : nat) (argv : list string) :
  snd (ColorLoopRun.main float_of_str str_of_float clock sleep_raises
         put_raises fuel argv)
  = snd (ColorLoopRun.color_loop str_of_float clock sleep_raises put_raises
           fuel (snd (parse_duration float argv))
           (snd (parse_speed float_of_str argv))) /\
  puts (fst (ColorLoopRun.main float_of_str str_of_float clock sleep_raises
               put_raises fuel argv))
  = puts (fst (ColorLoopRun.color_loop str_of_float clock sleep_raises
                 put_raises fuel (snd (parse_duration float argv))
                 (snd (parse_speed float_of_str argv)))).
Proof.
  unfold ColorLoopRun.main.
  pose proof (parse_speed_no_put float float_of_str argv) as H1.
  pose proof (parse_duration_no_put float argv) as H2.
  destruct (parse_speed float_of_str argv) as [out1 speed].
  destruct (parse_duration float argv) as [out2 duration].
  cbn [fst snd] in *.
  destruct (ColorLoopRun.color_loop str_of_float clock sleep_raises put_raises
              fuel duration speed) as [trace r].
  cbn [fst snd]. split; [reflexivity |].
  unfold puts in *. rewrite !filter_app, H1, H2. reflexivity.
Qed.

(** X5.  When the duration argument is missing, or is not an integer, the
    script runs with no duration and the loop never takes its [break].  As
    long as the calls return, every pass sends its two state updates and
    the run goes on.  When [time.sleep] raises for the speed given, as it
    does for a negative one, the run is the first pass alone: two updates,
    then the exception. *)
Theorem main_without_duration_runs_on (fuel : nat) (argv : list string) :
  (List.length argv <= 2)%nat \/ py_int (nth 2 argv "") = None ->
  snd (parse_duration float argv) = None /\
  snd (ColorLoopRun.main float_of_str str_of_float clock sleep_raises
         put_raises fuel argv) <> ColorLoopRun.Stopped /\
  (sleep_raises (snd (parse_speed float_of_str argv)) = None ->
   (forall n, (n < 2 * fuel)%nat -> put_raises n = None) ->
   snd (ColorLoopRun.main float_of_str str_of_float clock sleep_raises
          put_raises fuel argv) = ColorLoopRun.Running /\
   List.length (puts (fst (ColorLoopRun.main float_of_str str_of_float clock
                             sleep_raises put_raises fuel argv)))
   = (2 * fuel)%nat) /\
  (forall e,
     sleep_raises (snd (parse_speed float_of_str argv)) = Some e ->
     put_raises 0 = None -> put_raises 1 = None -> (0 < fuel)%nat ->
     snd (ColorLoopRun.main float_of_str str_of_float clock sleep_raises
            put_raises fuel argv) = ColorLoopRun.Raised e /\
     List.length (puts (fst (ColorLoopRun.main float_of_str str_of_float
                               clock sleep_raises put_raises fuel argv)))
     = 2%nat).
Proof.
  intros H.
  assert (Hd : snd (parse_duration float argv) = None).
  { unfold parse_duration. destruct argv as [|a [|b [|c r]]]; try reflexivity.
    destruct H as [H | H]; [cbn in H; lia |].
    cbn [nth] in H. rewrite H. reflexivity. }
  split; [exact Hd |].
  destruct (main_as_run fuel argv) as [-> ->]. rewrite Hd.
  set (speed := snd (parse_speed float_of_str argv)).
  unfold ColorLoopRun.color_loop.
  destruct (run_no_duration fuel speed (clock 0) 1 0 0) as [Hns Hrun].
  split; [| split].
  - destruct (run fuel None speed (clock 0) 1%nat 0%nat 0) as [trace r].
    exact Hns.
  - intros Hsleep Hput. destruct (Hrun Hsleep Hput) as [Hr Hl].
    destruct (run fuel None speed (clock 0) 1%nat 0%nat 0) as [trace r].
    cbn [fst snd] in Hr, Hl |- *. split; [exact Hr |].
    unfold puts in *. rewrite filter_app. exact Hl.
  - intros e Hsleep Hp0 Hp1 Hfuel.
    destruct fuel as [|fuel']; [lia |].
    rewrite run_S. cbn [exceeded]. rewrite Hp0, Hp1, Hsleep.
    split; reflexivity.
Qed.

End ColorLoopRunFacts.

(* ================================================================== *)
(** * More on the sensor report *)
(* ================================================================== *)

Section SensorMore.

Import SensorActivity.

Variable fromisoformat : string -> option datetime.
Variable now : nat -> Z.

(** X7.  Given anything but a str, [get_time_ago] still returns: "Never" for
    a value that counts as false (None, False, 0, an empty list or object),
    and otherwise the parse-error label with the value printed in it, since
    only a str can be parsed. *)
Theorem get_time_ago_non_string (t : Z) (v : pyval) :
  (forall s, v <> PStr s) ->
  get_time_ago fromisoformat t v
  = ok (if truthy v then "Error parsing: " ++ str v else "Never").
Proof.
  intros Hv. unfold get_time_ago.
  destruct v as [| b | z | s | l | d]; try (exfalso; exact (Hv s eq_refl));
    cbn [eq_str orb]; destruct (truthy _); reflexivity.
Qed.

Lemma read_sensor_id (sensor_id : string) (sensor_info : pyval)
    (sensor : sensor_data) :
  read_sensor sensor_id sensor_info = ok sensor -> id sensor = sensor_id.
Proof.
  unfold read_sensor. intros H.
  destruct (get sensor_info "type" (PStr "Unknown")); [discriminate H |].
  destruct (get sensor_info "name" (PStr "Unknown")); [discriminate H |].
  destruct (get sensor_info "state" (PDict [])) as [|st]; [discriminate H |].
  destruct (get sensor_info "config" (PDict [])); [discriminate H |].
  cbn [rbind] in H.
  destruct (get st "lastupdated" (PStr "none")); [discriminate H |].
  injection H as <-. reflexivity.
Qed.

Lemma read_all_ids (l : list (string * pyval)) :
  forall sensors, read_all l = ok sensors -> map id sensors = map fst l.
Proof.
  induction l as [|[sensor_id sensor_info] l IH]; intros sensors H.
  - injection H as <-. reflexivity.
  - cbn [read_all] in H.
    destruct (read_sensor sensor_id sensor_info) as [|sensor] eqn:E;
      [discriminate H |].
    cbn [rbind] in H.
    destruct (read_all l) as [|rest]; [discriminate H |].
    injection H as <-. cbn [map fst]. rewrite (IH rest eq_refl).
    rewrite (read_sensor_id _ _ _ E). reflexivity.
Qed.

Lemma one_destination (sensor : sensor_data) :
  (Nat.b2n (in_bucket Motion sensor)
   + Nat.b2n (in_bucket TemperatureLight sensor)
   + Nat.b2n (in_bucket Switch sensor)
   + Nat.b2n (in_bucket Other sensor)
   + Nat.b2n (dropped sensor) = 1)%nat.
Proof.
  unfold in_bucket, dropped, bucket_of_type.
  destruct (type sensor) as [| | |t| |]; try reflexivity.
  cbn [eq_str].
  repeat match goal with
         | |- context [String.eqb t ?lit] =>
             destruct (String.eqb_spec t lit); [subst t; reflexivity |]
         end.
  reflexivity.
Qed.

Lemma filter_length_cons {A} (f : A -> bool) (a : A) (l : list A) :
  List.length (filter f (a :: l))
  = (Nat.b2n (f a) + List.length (filter f l))%nat.
Proof. cbn [filter]. destruct (f a); reflexivity. Qed.

Lemma destinations_count (sensors : list sensor_data) :
  (List.length (filter (in_bucket Motion) sensors)
   + List.length (filter (in_bucket TemperatureLight) sensors)
   + List.length (filter (in_bucket Switch) sensors)
   + List.length (filter (in_bucket Other) sensors)
   + List.length (filter dropped sensors)
   = List.length sensors)%nat.
Proof.
  induction sensors as [|a l IH]; [reflexivity |].
  rewrite !filter_length_cons. pose proof (one_destination a).
  cbn [List.length]. lia.
Qed.

(** X8.  The grouping loses and repeats nothing: when it ends, the records
    read are those of the answer, in its order and under its identifiers,
    and the sizes of the four lists and the number of records of the two
    dropped types add up to the number of records of the answer. *)
Theorem group_keeps_every_record (l : list (string * pyval)) (b : buckets) :
  group no_sensors l = ok b ->
  exists sensors,
    read_all l = ok sensors /\
    map id sensors = map fst l /\
    (List.length (motion_sensors b) + List.length (temperature_sensors b)
     + List.length (dimmer_switches b) + List.length (other_sensors b)
     + List.length (filter dropped sensors)
     = List.length l)%nat.
Proof.
  intros H.
  destruct (group_filters l no_sensors b H)
    as (sensors & Hread & Hm & Ht & Hd & Ho).
  exists sensors. split; [exact Hread |].
  pose proof (read_all_ids l sensors Hread) as Hids.
  split; [exact Hids |].
  cbn [no_sensors motion_sensors temperature_sensors dimmer_switches
       other_sensors app] in Hm, Ht, Hd, Ho.
  rewrite Hm, Ht, Hd, Ho, destinations_count.
  rewrite <- (length_map id), Hids, length_map. reflexivity.
Qed.

(** X9.  An answer that is not an object, such as the list the bridge sends
    for an unknown user, is not caught: the header is printed and the call
    of [items] raises AttributeError.  A failed request, which is caught,
    prints one line and returns. *)
Theorem answer_not_an_object (sensors : pyval) (e : string) :
  (forall d, sensors <> PDict d) ->
  list_sensor_activity fromisoformat now (Fetched sensors)
  = (header, raise AttributeError) /\
  list_sensor_activity fromisoformat now (FetchFailed e)
  = (["Error connecting to Hue Bridge: " ++ e], ok tt).
Proof.
  intros H. split; [| reflexivity].
  destruct sensors as [| | | | |d]; try reflexivity.
  exfalso. exact (H d eq_refl).
Qed.

Lemma read_unreadable (sensor_id : string) (v : pyval) :
  unreadable v = true -> read_sensor sensor_id v = raise AttributeError.
Proof.
  unfold unreadable, read_sensor. intros H.
  destruct v as [| | | | |d]; try reflexivity.
  cbn [get rbind ok]. unfold get_or.
  destruct (lookup "state" d) as [[| | | | |st]|]; try discriminate H;
    reflexivity.
Qed.

Lemma read_sensor_raises (sensor_id : string) (v : pyval) (e : exn) :
  read_sensor sensor_id v = inl e -> e = AttributeError.
Proof.
  unfold read_sensor. intros H.
  destruct v as [| | | | |d]; try (injection H as <-; reflexivity).
  cbn [get rbind ok] in H.
  destruct (get_or "state" d (PDict [])) as [| | | | |st];
    try (injection H as <-; reflexivity).
  discriminate H.
Qed.

Lemma group_unreadable (l : list (string * pyval)) :
  forall b sensor_id v,
    In (sensor_id, v) l -> unreadable v = true ->
    group b l = raise AttributeError.
Proof.
  induction l as [|[i x] l IH]; intros b sensor_id v Hin Hv; [contradiction |].
  cbn [group].
  destruct (read_sensor i x) as [e | sensor] eqn:E.
  - rewrite (read_sensor_raises _ _ _ E). reflexivity.
  - cbn [rbind]. destruct Hin as [Heq | Hin].
    + injection Heq as -> ->. rewrite (read_unreadable _ _ Hv) in E.
      discriminate E.
    + exact (IH _ _ _ Hin Hv).
Qed.

(** The report once the answer is an object: the header, then the grouping,
    then the four sections. *)
Lemma list_sensor_activity_object (l : list (string * pyval)) :
  list_sensor_activity fromisoformat now (Fetched (PDict l))
  = match group no_sensors l with
    | inl e => (header, inl e)
    | inr b =>
        let (out, r) := report fromisoformat now b in ((header ++ out)%list, r)
    end.
Proof.
  unfold list_sensor_activity, Py.bind, print, lift, items, ok.
  cbv beta iota.
  destruct (group no_sensors l) as [e | b]; [reflexivity |].
  destruct (report fromisoformat now b) as [out r]. reflexivity.
Qed.

(** X10.  One record that is not an object, or whose [state] is not one,
    spoils the whole report: every record is read before anything is
    printed, so the run prints the header, raises AttributeError and shows
    none of the other sensors. *)
Theorem one_bad_record_spoils_report (l : list (string * pyval))
    (sensor_id : string) (v : pyval) :
  In (sensor_id, v) l -> unreadable v = true ->
  list_sensor_activity fromisoformat now (Fetched (PDict l))
  = (header, raise AttributeError).
Proof.
  intros Hin Hv. rewrite list_sensor_activity_object.
  rewrite (group_unreadable l no_sensors sensor_id v Hin Hv). reflexivity.
Qed.

Lemma route_dropped (b : buckets) (sensor : sensor_data) :
  dropped sensor = true -> route b sensor = b.
Proof.
  unfold dropped, route. intros H.
  destruct (eq_str (type sensor) "Daylight") eqn:E1;
    destruct (eq_str (type sensor) "CLIPGenericStatus") eqn:E2;
    try discriminate H;
    destruct (type sensor) as [| | |t| |]; try discriminate;
    cbn [eq_str] in *.
  - apply String.eqb_eq in E1. subst t. reflexivity.
  - apply String.eqb_eq in E1. subst t. reflexivity.
  - apply String.eqb_eq in E2. subst t. reflexivity.
Qed.

(** X11.  An answer made only of "Daylight" and "CLIPGenericStatus" sensors
    (or of no sensor at all) prints the header and nothing else, not even a
    section title, and returns. *)
Theorem only_dropped_types_print_header (l : list (string * pyval)) :
  (forall sensor_id v,
     In (sensor_id, v) l ->
     exists sensor, read_sensor sensor_id v = ok sensor /\ dropped sensor = true) ->
  list_sensor_activity fromisoformat now (Fetched (PDict l)) = (header, ok tt).
Proof.
  intros H.
  assert (Hg : forall b, group b l = ok b).
  { induction l as [|[i x] l IH]; intros b; [reflexivity |].
    cbn [group].
    destruct (H i x (or_introl eq_refl)) as (sensor & -> & Hd).
    cbn [rbind ok]. rewrite (route_dropped b sensor Hd).
    apply IH. intros j y Hin. apply H. right. exact Hin. }
  rewrite list_sensor_activity_object, (Hg no_sensors). reflexivity.
Qed.

(** X12.  A temperature that is present and is neither a number nor null
    stops the report in the middle of the sensor: its title line is out, the
    division raises TypeError, and the lines for its time and battery never
    come. *)
Theorem bad_temperature_stops_report (k : nat) (sensor : sensor_data)
    (st c : list (string * pyval)) (x : pyval) :
  type sensor = PStr "ZLLTemperature" ->
  state sensor = PDict st -> config sensor = PDict c ->
  lookup "temperature" st = Some x ->
  (forall z, x <> PInt z) -> (forall b, x <> PBool b) -> x <> PNone ->
  print_temperature fromisoformat now k sensor
  = ([str (name sensor) ++ " (ID " ++ id sensor ++ ") - ZLLTemperature"],
     raise TypeError).
Proof.
  intros Ht Hst Hc Hx Hint Hbool Hnone.
  unfold print_temperature, time_ago.
  destruct (get_time_ago_returns fromisoformat (now k) (lastupdated sensor))
    as [t Htime].
  rewrite Htime, Ht, Hst, Hc. cbn [get ok lift eq_str].
  change ("ZLLTemperature" =? "ZLLTemperature")%string with true.
  unfold get_or at 2. rewrite Hx.
  destruct x as [| b | z | s | l | d];
    try reflexivity;
    [ exfalso; exact (Hnone eq_refl)
    | exfalso; exact (Hbool b eq_refl)
    | exfalso; exact (Hint z eq_refl) ].
Qed.

End SensorMore.

(* ================================================================== *)
(** * More on the light list *)
(* ================================================================== *)

Section LightsMore.

Import ListLights LightsScript.

(** X13.  On the device scale the percentage shown never goes down when the
    stored brightness goes up; it is 100 only for 254, and it is 0 for 0, 1
    and 2 alike. *)
Theorem percent_monotone (z z' : Z) :
  0 <= z -> z <= z' -> z' <= 254 ->
  exists p p',
    percent (PInt z) = ok p /\ percent (PInt z') = ok p' /\
    p <= p' /\
    (p' = 100 <-> z' = 254) /\
    (p = 0 <-> z <= 2).
Proof.
  intros H0 Hle Hmax. exists (z * 100 / 254), (z' * 100 / 254).
  split; [apply int_percent_scale; lia |].
  split; [apply int_percent_scale; lia |].
  pose proof (Z.div_mod (z * 100) 254 ltac:(lia)).
  pose proof (Z.mod_pos_bound (z * 100) 254 ltac:(lia)).
  pose proof (Z.div_mod (z' * 100) 254 ltac:(lia)).
  pose proof (Z.mod_pos_bound (z' * 100) 254 ltac:(lia)).
  repeat split; lia.
Qed.

(** A brightness below 2^1000 in size has a percentage: neither the
    division nor the product leaves the doubles. *)
Lemma int_percent_returns (z : Z) :
  Z.abs z < 2 ^ 1000 -> exists p, int_percent z = ok p.
Proof.
  intros Hz. unfold int_percent.
  assert (HK : 0 < 2 ^ 1000) by (apply Z.pow_pos_nonneg; lia).
  assert (E23 : 2 ^ 1023 = 8388608 * 2 ^ 1000) by reflexivity.
  destruct (nearest_double z 254) as [[n d]|] eqn:E.
  - destruct (nearest_double_size z 254 n d ltac:(lia) E) as [Hd _].
    pose proof (nearest_double_le_pow2 z 254 1000 n d ltac:(lia) ltac:(lia)
                  ltac:(lia) E) as Hn.
    assert (Hsome : nearest_double (n * 100) d <> None).
    { apply nearest_double_some; [exact Hd |].
      rewrite E23, Z.abs_mul. set (K := 2 ^ 1000) in *. clearbody K.
      change (Z.abs 100) with 100. nia. }
    destruct (nearest_double (n * 100) d) as [x|]; [| contradiction].
    eexists. reflexivity.
  - exfalso. apply (nearest_double_some z 254 ltac:(lia)); [| exact E].
    rewrite E23. set (K := 2 ^ 1000) in *. clearbody K. lia.
Qed.

(** A light is printed whole, in five lines, or not at all. *)
Lemma print_light_whole_or_nothing (light_id : string) (light_info : pyval) :
  (printable light_info = true ->
   exists lines,
     print_light (light_id, light_info) = (lines, ok tt) /\
     List.length lines = 5%nat) /\
  (printable light_info = false ->
   exists e, print_light (light_id, light_info) = ([], inl e)).
Proof.
  unfold printable, print_light.
  destruct light_info as [| | | | |d];
    try (split; [discriminate | intros _; eexists; reflexivity]).
  cbn [get ok lift Py.bind].
  destruct (get_or "state" d (PDict [])) as [| | | | |st];
    try (split; [discriminate | intros _; eexists; reflexivity]).
  cbn [get ok lift Py.bind]. unfold brightness.
  destruct (truthy (get_or "on" st (PBool false)));
    [| split; [intros _; eexists; split; reflexivity | discriminate]].
  cbn [negb orb].
  destruct (percent (get_or "bri" st (PInt 0))) as [e | p]; cbn [rbind ok].
  - split; [discriminate | intros _; eexists; reflexivity].
  - split; [intros _; eexists; split; reflexivity | discriminate].
Qed.

Lemma list_lights_object (l : list (string * pyval)) :
  list_lights (PDict l)
  = let (out, r) := for_each print_light l in ((banner ++ out)%list, r).
Proof.
  unfold list_lights, Py.bind, print, lift, items, ok. cbv beta iota.
  destruct (for_each print_light l) as [out r]. reflexivity.
Qed.

Lemma for_each_lights_printable (l : list (string * pyval)) :
  Forall (fun item => printable (snd item) = true) l ->
  exists lines,
    for_each print_light l = (lines, ok tt) /\
    List.length lines = (5 * List.length l)%nat.
Proof.
  induction 1 as [|[light_id light_info] l Hx Hl IH].
  - exists []. split; reflexivity.
  - destruct IH as (rest & Hrest & Hlen).
    destruct (proj1 (print_light_whole_or_nothing light_id light_info) Hx)
      as (lines & Hlines & Hfive).
    exists (lines ++ rest)%list. cbn [for_each]. rewrite Hlines.
    cbn [Py.bind ok]. rewrite Hrest. split; [reflexivity |].
    rewrite length_app, Hfive, Hlen. cbn [List.length]. lia.
Qed.

(** X14.  When every light of the answer is printable (an object whose
    state, if any, is an object, and whose brightness, if the light is on,
    is a number with a percentage), [list_lights] prints its three banner
    lines and five lines for each light, and returns.  A record whose state
    is an object with a brightness below 2^1000 in size is printable. *)
Theorem list_lights_prints_every_light (l : list (string * pyval)) :
  Forall (fun item => printable (snd item) = true) l ->
  (exists lines,
     list_lights (PDict l) = ((banner ++ lines)%list, ok tt) /\
     List.length lines = (5 * List.length l)%nat) /\
  (forall d st z,
     get_or "state" d (PDict []) = PDict st ->
     get_or "bri" st (PInt 0) = PInt z ->
     Z.abs z < 2 ^ 1000 ->
     printable (PDict d) = true).
Proof.
  intros H. split.
  - destruct (for_each_lights_printable l H) as (lines & Hl & Hlen).
    exists lines. rewrite list_lights_object, Hl.
    split; [reflexivity | exact Hlen].
  - intros d st z Hst Hbri Hz. unfold printable. rewrite Hst, Hbri.
    unfold percent. destruct (int_percent_returns z Hz) as [p ->].
    apply orb_true_r.
Qed.

(** X15.  The first light that is not printable ends the run with an
    exception: the lights before it are printed in full, that light and the
    ones after it not at all. *)
Theorem list_lights_stops_at_bad_light (l1 l2 : list (string * pyval))
    (light_id : string) (light_info : pyval) :
  Forall (fun item => printable (snd item) = true) l1 ->
  printable light_info = false ->
  exists lines e,
    list_lights (PDict (l1 ++ (light_id, light_info) :: l2))
    = ((banner ++ lines)%list, inl e) /\
    list_lights (PDict l1) = ((banner ++ lines)%list, ok tt) /\
    List.length lines = (5 * List.length l1)%nat.
Proof.
  intros H1 Hbad.
  destruct (for_each_lights_printable l1 H1) as (lines & Hl & Hlen).
  destruct (proj2 (print_light_whole_or_nothing light_id light_info) Hbad)
    as (e & He).
  exists lines, e. rewrite !list_lights_object, Hl.
  split; [| split; [reflexivity | exact Hlen]].
  assert (Hall : for_each print_light (l1 ++ (light_id, light_info) :: l2)
                 = (lines, inl e)).
  { clear H1 Hlen. revert lines Hl.
    induction l1 as [|x l1 IH]; intros lines Hl.
    - injection Hl as <-. cbn [app for_each]. rewrite He. reflexivity.
    - cbn [app for_each] in Hl |- *.
      destruct (print_light x) as [out [e' | []]]; [discriminate Hl |].
      cbn [Py.bind] in Hl |- *.
      destruct (for_each print_light l1) as [out' r'].
      injection Hl as <- ->. rewrite (IH out' eq_refl). reflexivity. }
  rewrite Hall. reflexivity.
Qed.

(** X16.  An answer that is not an object, such as the error list the bridge
    sends for an unknown user, makes [list_lights] print its banner and
    raise AttributeError. *)
Theorem list_lights_not_an_object (lights : pyval) :
  (forall d, lights <> PDict d) ->
  list_lights lights = (banner, raise AttributeError).
Proof.
  intros H. destruct lights as [| | | | |d]; try reflexivity.
  exfalso. exact (H d eq_refl).
Qed.

Variable json_dumps : pyval -> string.

(** X17.  [create_user] hands back a user name only out of a "success"
    entry: whenever it returns something other than None, the answer is a
    non-empty list whose first element holds "success", and the value is
    what lies under "success" and "username" there.  Whatever the answer,
    the first line printed is its dump. *)
Theorem create_user_name_from_success (result username : pyval) :
  snd (create_user json_dumps result) = inr username ->
  username <> PNone ->
  (exists first rest,
     result = PList (first :: rest) /\
     contains_lit "success" first = inr true /\
     subscript2 first "success" "username" = inr username) /\
  fst (create_user json_dumps result)
  = [json_dumps result;
     nl ++ check_mark ++ " Success! Your API username is: " ++ str username;
     "Save this for future use!"].
Proof.
  unfold create_user. intros H Hne.
  destruct result as [| | | | [|first rest] |];
    try (cbn [snd] in H; injection H as <-; contradiction).
  destruct (contains_lit "success" first) as [e | [|]] eqn:Ec;
    [discriminate H | |].
  - destruct (subscript2 first "success" "username") as [e | u] eqn:Es;
      [discriminate H |].
    cbn [snd] in H. injection H as <-.
    split; [| reflexivity].
    exists first, rest. repeat split; assumption.
  - destruct (contains_lit "error" first) as [e | [|]];
      [discriminate H | |].
    + destruct (subscript2 first "error" "description");
        [discriminate H |].
      cbn [snd] in H. injection H as <-. contradiction.
    + cbn [snd] in H. injection H as <-. contradiction.
Qed.

(** X18.  On the two answers the bridge documents: a first element with a
    "success" object holding "username" gives that name back after the two
    success lines; a first element with no "success" and an "error" object
    holding "description" prints the description and gives None back. *)
Theorem create_user_documented_answers
    (d inner : list (string * pyval)) (rest : list pyval) (x : pyval) :
  (lookup "success" d = Some (PDict inner) ->
   lookup "username" inner = Some x ->
   create_user json_dumps (PList (PDict d :: rest))
   = ([json_dumps (PList (PDict d :: rest));
       nl ++ check_mark ++ " Success! Your API username is: " ++ str x;
       "Save this for future use!"], inr x)) /\
  (lookup "success" d = None ->
   lookup "error" d = Some (PDict inner) ->
   lookup "description" inner = Some x ->
   create_user json_dumps (PList (PDict d :: rest))
   = ([json_dumps (PList (PDict d :: rest));
       nl ++ cross_mark ++ " Error: " ++ str x], inr PNone)).
Proof.
  unfold create_user, contains_lit, subscript2, subscript.
  split.
  - intros Hs Hu. rewrite Hs, Hu. reflexivity.
  - intros Hs He Hd. rewrite Hs, He, Hd. reflexivity.
Qed.

Variable get_lights : string -> pyval.
Variable post_api : pyval.

(** X19.  The script never creates a user: no run sends a POST.  With no
    argument it prints the usage and sends nothing; with an argument it asks
    for the lights of that user name, so [python list_lights.py create], the
    command the usage text gives, lists the lights of a user named
    "create". *)
Theorem main_never_creates_user (argv : list string) :
  (forall url, ~ In (Post url) (fst (main json_dumps get_lights post_api argv))) /\
  ((List.length argv <= 1)%nat ->
   main json_dumps get_lights post_api argv = (map Out usage, Done)) /\
  (forall prog rest,
     argv = prog :: "create" :: rest ->
     exists lines,
       fst (main json_dumps get_lights post_api argv)
       = Get (lights_url "create") :: map Out lines).
Proof.
  unfold main.
  destruct argv as [|prog [|username rest]].
  - split; [| split].
    + intros url. cbn. intros H. repeat destruct H as [H | H]; discriminate H || exact H.
    + reflexivity.
    + intros prog rest H. discriminate H.
  - split; [| split].
    + intros url. cbn. intros H. repeat destruct H as [H | H]; discriminate H || exact H.
    + reflexivity.
    + intros prog' rest H. discriminate H.
  - change (1 <? List.length (prog :: username :: rest))%nat with true.
    cbv iota. cbn [nth].
    destruct (list_lights (get_lights username)) as [out r] eqn:E.
    cbn [fst].
    split; [| split].
    + intros url [H | H]; [discriminate H |].
      apply in_map_iff in H. destruct H as (x & Hx & _). discriminate Hx.
    + cbn [List.length]. lia.
    + intros prog' rest' H. injection H as _ -> _.
      exists out. reflexivity.
Qed.

End LightsMore.

(* ================================================================== *)
(** * More on the configuration pushes *)
(* ================================================================== *)

Section PushMore.

Import ConfigPush.

Variable json_dumps : pyval -> string.
Variable bridge : request -> response.

(** X20.  [simplify_office_v2.py] never reads the body as JSON and always
    ends normally.  The other two scripts raise exactly when the status is
    200 and the body is not JSON: the success line is already printed by
    then, and nothing follows it. *)
Theorem push_raises_only_on_bad_success_body :
  snd (simplify_office_v2 bridge) = ok tt /\
  (snd (simplify_office_dimmer json_dumps bridge) = raise ValueError <->
   status_code (bridge dimmer_request) = 200 /\
   json (bridge dimmer_request) = None) /\
  (snd (simplify_office_dimmer json_dumps bridge) = raise ValueError ->
   after_put (fst (simplify_office_dimmer json_dumps bridge))
   = [nl ++ "[SUCCESS] OfficeDimmer simplified!"]) /\
  (forall e, snd (simplify_office_dimmer json_dumps bridge) = raise e ->
             e = ValueError) /\
  (snd (update_outdoor_automation json_dumps bridge) = raise ValueError <->
   status_code (bridge outdoor_request) = 200 /\
   json (bridge outdoor_request) = None) /\
  (snd (update_outdoor_automation json_dumps bridge) = raise ValueError ->
   after_put (fst (update_outdoor_automation json_dumps bridge))
   = [nl ++ check_mark ++ " Automation updated successfully!"]) /\
  (forall e, snd (update_outdoor_automation json_dumps bridge) = raise e ->
             e = ValueError).
Proof.
  unfold simplify_office_v2, simplify_office_dimmer, update_outdoor_automation,
    response_json.
  split.
  { destruct (status_code (bridge dimmer_request) =? 200); reflexivity. }
  destruct (Z.eqb_spec (status_code (bridge dimmer_request)) 200) as [H1 | H1];
    destruct (json (bridge dimmer_request)) as [v1|];
    destruct (Z.eqb_spec (status_code (bridge outdoor_request)) 200) as [H2 | H2];
    destruct (json (bridge outdoor_request)) as [v2|];
    cbn [fst snd];
    repeat split;
    try discriminate; try reflexivity; try assumption;
    try (intros [? ?]; congruence);
    try (intros e He; injection He as <-; reflexivity).
Qed.

End PushMore.

(* ================================================================== *)
(** * The further results on concrete runs *)
(* ================================================================== *)

Section MoreExamples.

Import ColorLoop SensorActivity.

(** A clock that reads 0, 1, 2, ... seconds, one more at each reading, and
    calls that all return. *)
Lemma color_loop_stops_after_duration_witness :
  snd (ColorLoopRun.color_loop (fun _ : unit => "")
         (fun n => inject_Z (Z.of_nat n)) (fun _ => None) (fun _ => None)
         5 (Some 2) (NInt 2)) = ColorLoopRun.Stopped.
Proof.
  refine (proj1 (color_loop_stops_after_duration unit (fun _ => "")
                   (fun n => inject_Z (Z.of_nat n)) (fun _ => None)
                   (fun _ => None) 2 5 2 (NInt 2) _ _ _ _ _ _)).
  - discriminate.
  - intros i Hi. destruct i as [|[|[|i]]]; try lia; vm_compute; reflexivity.
  - vm_compute. reflexivity.
  - intros n _. reflexivity.
  - intros _. reflexivity.
  - lia.
Defined.

(** The check of line 44 is on floats: with the readings 0.1 and 1.1 the
    difference is the double 1.0, which is not larger than 1, though the two
    doubles are more than a second apart. *)
Example elapsed_time_is_rounded :
  nearest_double 1 10 = Some (7205759403792794, 72057594037927936) /\
  nearest_double 11 10 = Some (4953959590107546, 4503599627370496) /\
  (inject_Z 1 < (4953959590107546 # 4503599627370496)
                - (7205759403792794 # 72057594037927936))%Q /\
  float_sub_gt (4953959590107546 # 4503599627370496)
               (7205759403792794 # 72057594037927936) 1 = false.
Proof. repeat split; vm_compute; reflexivity. Qed.

(** [int] reads the digits and skips the blanks of every script, not
    those of ASCII alone: the Arabic-Indic digit three, between two no-break
    spaces, is 3; an ASCII control character such as U+001C is no blank. *)
Example int_reads_unicode_digits :
  py_int (String (ascii_of_nat 194) (String (ascii_of_nat 160)
           (String (ascii_of_nat 217) (String (ascii_of_nat 163)
             (String (ascii_of_nat 194) (String (ascii_of_nat 160) ""))))))
  = Some 3 /\
  py_int (String (ascii_of_nat 28) "5") = None /\
  py_int " +1_000 " = Some 1000 /\
  py_int "1__0" = None.
Proof. repeat split; vm_compute; reflexivity. Qed.

Lemma duration_argument_read_back_witness :
  parse_duration unit ["lounge_color_loop.py"; "2"; "300"] = ([], Some 300).
Proof.
  refine (proj1 (duration_argument_read_back unit 300
                   "lounge_color_loop.py" "2" [] _)).
  apply Nat.leb_le. vm_compute. reflexivity.
Defined.

Lemma puts_well_formed_witness :
  exists light_id hue,
    @PutState (number unit) 9 0 254 254 10 = PutState light_id hue 254 254 10 /\
    (light_id = 9 \/ light_id = 12) /\
    0 <= hue < 65535 /\ hue mod 5 = 0.
Proof.
  refine (puts_well_formed unit (fun _ => "") (fun _ => 0%Q) 1 None (NInt 2)
            (PutState 9 0 254 254 10) _).
  left. reflexivity.
Defined.

(** The speed -1, for which [time.sleep] raises ValueError: the script
    sends its first two updates and ends on the exception. *)
Lemma main_without_duration_runs_on_witness :
  snd (ColorLoopRun.main py_int (fun _ => "") (fun _ => 0%Q)
         (fun speed => match speed with
                       | NFloat x => if x <? 0 then Some ValueError else None
                       | NInt _ => None
                       end)
         (fun _ => None) 3 ["lounge_color_loop.py"; "-1"])
  = ColorLoopRun.Raised ValueError /\
  List.length
    (puts (fst (ColorLoopRun.main py_int (fun _ => "") (fun _ => 0%Q)
                  (fun speed => match speed with
                                | NFloat x =>
                                    if x <? 0 then Some ValueError else None
                                | NInt _ => None
                                end)
                  (fun _ => None) 3 ["lounge_color_loop.py"; "-1"])))
  = 2%nat.
Proof.
  refine (proj2 (proj2 (proj2
            (main_without_duration_runs_on Z py_int (fun _ => "")
               (fun _ => 0%Q)
               (fun speed => match speed with
                             | NFloat x =>
                                 if x <? 0 then Some ValueError else None
                             | NInt _ => None
                             end)
               (fun _ => None) 3 ["lounge_color_loop.py"; "-1"] _)))
            ValueError _ _ _ _).
  - left. cbn. lia.
  - reflexivity.
  - reflexivity.
  - reflexivity.
  - lia.
Defined.

Lemma main_negative_duration_stops_witness :
  puts (fst (main (fun _ : string => @None unit) (fun _ => "")
               (fun n => inject_Z (Z.of_nat n)) 1
               ["lounge_color_loop.py"; "2"; "-5"])) = [].
Proof.
  refine (proj2 (main_negative_duration_stops unit (fun _ => None)
                   (fun _ => "") (fun n => inject_Z (Z.of_nat n)) 0
                   ["lounge_color_loop.py"; "2"; "-5"] (-5) _ _ _)).
  - reflexivity.
  - reflexivity.
  - vm_compute. discriminate.
Defined.

Lemma get_time_ago_non_string_witness :
  get_time_ago iso_basic 0 (PInt 5) = ok "Error parsing: 5".
Proof.
  refine (get_time_ago_non_string iso_basic 0 (PInt 5) _).
  intros s. discriminate.
Defined.

Lemma group_keeps_every_record_witness :
  exists sensors,
    read_all [("1", PDict [("type", PStr "ZLLPresence")]);
              ("2", PDict [("type", PStr "Daylight")])] = ok sensors /\
    map id sensors = ["1"; "2"] /\
    (1 + 0 + 0 + 0 + List.length (filter dropped sensors) = 2)%nat.
Proof.
  refine (group_keeps_every_record
            [("1", PDict [("type", PStr "ZLLPresence")]);
             ("2", PDict [("type", PStr "Daylight")])]
            {| motion_sensors :=
                 [{| id := "1"; name := PStr "Unknown";
                     type := PStr "ZLLPresence"; lastupdated := PStr "none";
                     state := PDict []; config := PDict [] |}];
               temperature_sensors := []; dimmer_switches := [];
               other_sensors := [] |} _).
  reflexivity.
Defined.

Lemma answer_not_an_object_witness :
  list_sensor_activity iso_basic (fun _ => 0)
    (Fetched (PList [PDict [("error", PDict [("type", PInt 1)])]]))
  = (header, raise AttributeError).
Proof.
  refine (proj1 (answer_not_an_object iso_basic (fun _ => 0)
                   (PList [PDict [("error", PDict [("type", PInt 1)])]]) "" _)).
  intros d. discriminate.
Defined.

Lemma one_bad_record_spoils_report_witness :
  list_sensor_activity iso_basic (fun _ => 0)
    (Fetched (PDict [("1", PDict [("type", PStr "ZLLPresence")]);
                     ("2", PNone)]))
  = (header, raise AttributeError).
Proof.
  refine (one_bad_record_spoils_report iso_basic (fun _ => 0)
            [("1", PDict [("type", PStr "ZLLPresence")]); ("2", PNone)]
            "2" PNone _ _).
  - right. left. reflexivity.
  - reflexivity.
Defined.

Lemma only_dropped_types_print_header_witness :
  list_sensor_activity iso_basic (fun _ => 0)
    (Fetched (PDict [("1", PDict [("type", PStr "Daylight")])]))
  = (header, ok tt).
Proof.
  refine (only_dropped_types_print_header iso_basic (fun _ => 0)
            [("1", PDict [("type", PStr "Daylight")])] _).
  intros sensor_id v [H | []]. injection H as <- <-.
  eexists. split; reflexivity.
Defined.

Lemma bad_temperature_stops_report_witness :
  print_temperature iso_basic (fun _ => 0) 0
    {| id := "7"; name := PStr "Hall"; type := PStr "ZLLTemperature";
       lastupdated := PStr "none";
       state := PDict [("temperature", PStr "21.5")]; config := PDict [] |}
  = (["Hall (ID 7) - ZLLTemperature"], raise TypeError).
Proof.
  refine (bad_temperature_stops_report iso_basic (fun _ => 0) 0
            {| id := "7"; name := PStr "Hall"; type := PStr "ZLLTemperature";
               lastupdated := PStr "none";
               state := PDict [("temperature", PStr "21.5")];
               config := PDict [] |}
            [("temperature", PStr "21.5")] [] (PStr "21.5") _ _ _ _ _ _ _);
    try reflexivity; try (intros; discriminate); discriminate.
Defined.

End MoreExamples.

Section MoreLightsExamples.

Import ListLights LightsScript.

Lemma percent_monotone_witness :
  exists p p',
    percent (PInt 1) = ok p /\ percent (PInt 254) = ok p' /\
    p <= p' /\ (p' = 100 <-> 254 = 254) /\ (p = 0 <-> 1 <= 2).
Proof.
  refine (percent_monotone 1 254 _ _ _); lia.
Defined.

Lemma list_lights_prints_every_light_witness :
  exists lines,
    list_lights
      (PDict [("9", PDict [("state", PDict [("on", PBool true);
                                            ("bri", PInt 254)])])])
    = ((banner ++ lines)%list, ok tt) /\
    List.length lines = (5 * 1)%nat.
Proof.
  refine (proj1 (list_lights_prints_every_light
                   [("9", PDict [("state", PDict [("on", PBool true);
                                                  ("bri", PInt 254)])])] _)).
  repeat constructor.
Defined.

(** A light that is on with a brightness too large for a float, between
    two lights with no field at all. *)
Lemma list_lights_stops_at_bad_light_witness :
  exists lines e,
    list_lights
      (PDict [("9", PDict []);
              ("3", PDict [("state", PDict [("on", PBool true);
                                            ("bri", PInt (10 ^ 400))])]);
              ("4", PDict [])])
    = ((banner ++ lines)%list, inl e) /\
    list_lights (PDict [("9", PDict [])]) = ((banner ++ lines)%list, ok tt) /\
    List.length lines = (5 * 1)%nat.
Proof.
  refine (list_lights_stops_at_bad_light
            [("9", PDict [])] [("4", PDict [])] "3"
            (PDict [("state", PDict [("on", PBool true);
                                     ("bri", PInt (10 ^ 400))])]) _ _).
  - repeat constructor.
  - vm_compute. reflexivity.
Defined.

(** A brightness too large for a float ends the run, before any line of
    the light is printed. *)
Example huge_brightness_overflows :
  list_lights
    (PDict [("1", PDict [("state", PDict [("on", PBool true);
                                          ("bri", PInt (10 ^ 400))])])])
  = (banner, raise OverflowError).
Proof. vm_compute. reflexivity. Qed.

Lemma list_lights_not_an_object_witness :
  list_lights (PList [PDict [("error", PDict [("type", PInt 1)])]])
  = (banner, raise AttributeError).
Proof.
  refine (list_lights_not_an_object
            (PList [PDict [("error", PDict [("type", PInt 1)])]]) _).
  intros d. discriminate.
Defined.

Lemma create_user_name_from_success_witness :
  fst (create_user repr
         (PList [PDict [("success", PDict [("username", PStr "abc")])]]))
  = [repr (PList [PDict [("success", PDict [("username", PStr "abc")])]]);
     nl ++ check_mark ++ " Success! Your API username is: abc";
     "Save this for future use!"].
Proof.
  refine (proj2 (create_user_name_from_success repr
                   (PList [PDict [("success", PDict [("username", PStr "abc")])]])
                   (PStr "abc") _ _)).
  - reflexivity.
  - discriminate.
Defined.

Lemma create_user_documented_answers_witness :
  create_user repr
    (PList [PDict [("error", PDict [("type", PInt 101);
                                    ("description", PStr "link button not pressed")])]])
  = ([repr (PList [PDict [("error",
                           PDict [("type", PInt 101);
                                  ("description", PStr "link button not pressed")])]]);
      nl ++ cross_mark ++ " Error: link button not pressed"], inr PNone).
Proof.
  refine (proj2 (create_user_documented_answers repr
                   [("error", PDict [("type", PInt 101);
                                     ("description", PStr "link button not pressed")])]
                   [("type", PInt 101);
                    ("description", PStr "link button not pressed")]
                   [] (PStr "link button not pressed")) _ _ _);
    reflexivity.
Defined.

End MoreLightsExamples.
